(** * pdf_tools: text extraction and batch renaming of PDF files

    A shallow embedding of [src/pdf_tools.py] ([extract_text] and
    [rename_from_text]) together with the properties its specification
    states about them.

    The program is effectful: it reads a folder, writes log lines, renames
    files, and uses exceptions for control flow.  It is modelled in a small
    state-and-exception monad over a [world] that holds the folder's
    directory listing and the trace of log lines and prints.  The state
    survives a raised exception, as it does in Python. *)

From Stdlib Require Import String Ascii List ZArith Lia Bool PeanoNat.
Import ListNotations.
Open Scope list_scope.
Open Scope string_scope.

(* ================================================================== *)
(** * Python values and built-ins used by the program *)

Module Py.

(** Exception classes that can reach the program's handlers.  All of
    them are subclasses of [Exception]. *)
Inductive exn : Type :=
| IndexError
| KeyError
| ValueError
| TypeError
| AttributeError
| OSError
| OverflowError
| RecursionError
| ReError           (* [re.error] *)
| PdfError.         (* anything the PDF library raises *)

Inductive result (A : Type) : Type :=
| Ok (a : A)
| Raise (e : exn).
Arguments Ok {A} a.
Arguments Raise {A} e.

(** The values that are passed to [str.format]: [None] or a [str]. *)
Definition value := option string.

(** [str(v)], which is also [format(v, "")] for these two types. *)
Definition str (v : value) : string :=
  match v with
  | None => "None"
  | Some s => s
  end.

(** Truthiness of a string: [if s:]. *)
Definition truthy (s : string) : bool :=
  match s with
  | EmptyString => false
  | String _ _ => true
  end.

(** Truthiness of [None]-or-string: [if page_text:]. *)
Definition truthy_value (v : value) : bool :=
  match v with
  | None => false
  | Some s => truthy s
  end.

(** [s.endswith(suffix)]. *)
Definition endswith (s suffix : string) : bool :=
  let n := String.length s in
  let k := String.length suffix in
  (k <=? n)%nat && String.eqb (substring (n - k) k s) suffix.

(** [c in s] for a one-character [c]. *)
Fixpoint contains_char (c : ascii) (s : string) : bool :=
  match s with
  | EmptyString => false
  | String a s' => Ascii.eqb a c || contains_char c s'
  end.

Definition newline : string := String (ascii_of_nat 10) EmptyString.

(** [sep.join(parts)]. *)
Definition join (sep : string) (parts : list string) : string :=
  String.concat sep parts.

(** [range(n)] for an integer [n]; empty when [n <= 0]. *)
Definition range (n : Z) : list nat := seq 0 (Z.to_nat n).

(** [min(a, b)] on integers. *)
Definition min (a b : Z) : Z := if (b <? a)%Z then b else a.

End Py.

Import Py.

(* ================================================================== *)
(** * The world: folder contents, log and standard output *)

(** What [page.extract_text()] does on one page: it returns [None] or a
    string (possibly empty, e.g. on a scanned page), or raises. *)
Definition page := result value.

(** A directory entry as the PDF library sees it. *)
Inductive pdf_file : Type :=
| Unreadable (e : exn)            (* [pdfplumber.open] (or [.pages]) raises *)
| Document (pages : list page).

Inductive level : Type := INFO | WARNING | ERROR.

(** One constructor per log line of the program, with the values that
    are interpolated into it. *)
Inductive message : Type :=
| MsgExtracted (total : Z) (name : string)
| MsgExtractFailed (name : string) (e : exn)
| MsgInvalidRegex
| MsgNoPdfFound
| MsgProcessing (count : nat)
| MsgPattern (pattern : string)
| MsgTemplate (template : string)
| MsgMode (dry_run : bool)
| MsgNoText (name : string)
| MsgPatternNotFound (name : string)
| MsgTargetExists (name new_name : string)
| MsgRename (dry_run : bool) (name new_name : string)
| MsgTemplateError (name : string) (e : exn)
| MsgCaptured (groups : list value) (groupdict : list (string * value))
| MsgSummary (matched total : nat) (dry_run : bool)
| MsgRunWithApply.

Inductive event : Type :=
| Log (l : level) (m : message)
| Print (s : string).

(** The folder the program works on.  [dir] is the directory listing, in
    the order the operating system enumerates it; [os_refuses src dst]
    says whether renaming [src] to [dst] is refused (permissions, name
    too long, a NUL character in the name, ...). *)
Record world : Type := mkWorld {
  dir : list (string * pdf_file);
  os_refuses : string -> string -> bool;
  trace : list event
}.

Definition M (A : Type) : Type := world -> result A * world.

Definition ret {A} (a : A) : M A := fun w => (Ok a, w).

Definition bind {A B} (m : M A) (k : A -> M B) : M B :=
  fun w =>
    match m w with
    | (Ok a, w') => k a w'
    | (Raise e, w') => (Raise e, w')
    end.

Definition raise {A} (e : exn) : M A := fun w => (Raise e, w).

(** [try: body  except <classes> as e: handler e]. *)
Definition try_except {A} (body : M A) (catches : exn -> bool)
           (handler : exn -> M A) : M A :=
  fun w =>
    match body w with
    | (Ok a, w') => (Ok a, w')
    | (Raise e, w') => if catches e then handler e w' else (Raise e, w')
    end.

Definition lift {A} (r : result A) : M A := fun w => (r, w).

Definition emit (ev : event) : M unit :=
  fun w => (Ok tt, mkWorld (dir w) (os_refuses w) (trace w ++ [ev])%list).

Definition logger_info (m : message) : M unit := emit (Log INFO m).
Definition logger_warning (m : message) : M unit := emit (Log WARNING m).
Definition logger_error (m : message) : M unit := emit (Log ERROR m).
Definition print (s : string) : M unit := emit (Print s).

Declare Scope monad_scope.
Delimit Scope monad_scope with monad.
Notation "x <- m ;; k" := (bind m (fun x => k))
  (at level 61, m at next level, right associativity) : monad_scope.
Notation "m ;;; k" := (bind m (fun _ => k))
  (at level 61, right associativity) : monad_scope.
Open Scope monad_scope.

(** [for x in xs: acc = body x acc], the loop-carried variable threaded
    through; an exception raised by the body leaves the loop. *)
Fixpoint for_each {A S} (xs : list A) (body : A -> S -> M S) (s : S) : M S :=
  match xs with
  | [] => ret s
  | x :: xs' => s' <- body x s ;; for_each xs' body s'
  end.

(** ** The folder *)

Fixpoint lookup (name : string) (d : list (string * pdf_file))
  : option pdf_file :=
  match d with
  | [] => None
  | (n, f) :: d' => if String.eqb n name then Some f else lookup name d'
  end.

Definition remove (name : string) (d : list (string * pdf_file))
  : list (string * pdf_file) :=
  filter (fun e => negb (String.eqb (fst e) name)) d.

Definition rename_entry (src dst : string) (d : list (string * pdf_file))
  : list (string * pdf_file) :=
  map (fun e => if String.eqb (fst e) src then (dst, snd e) else e) d.

(** [pdfplumber.open(path)] followed by [pdf.pages]. *)
Definition pdfplumber_open (name : string) : M (list page) :=
  fun w =>
    match lookup name (dir w) with
    | None => (Raise OSError, w)
    | Some (Unreadable e) => (Raise e, w)
    | Some (Document pages) => (Ok pages, w)
    end.

(** [pdf.pages[i].extract_text()]. *)
Definition page_extract_text (pages : list page) (i : nat) : M value :=
  match nth_error pages i with
  | None => raise IndexError
  | Some p => lift p
  end.

(** [folder.glob("*.pdf")]: the direct children whose name ends in
    [.pdf] (case-sensitive), in listing order. *)
Definition glob_pdf : M (list string) :=
  fun w => (Ok (filter (fun n => endswith n ".pdf") (map fst (dir w))), w).

(** [pdf.with_name(new_name)]: within one folder a path is its name.  A
    name that contains the path separator is rejected; this is the check
    of [pathlib] since Python 3.12, the only one that matters for a name
    that ends in [.pdf].  (Earlier versions reject the names of
    [never_a_file_name] below, and take a name such as [./x.pdf] for
    [x.pdf].) *)
Definition with_name (pdf new_name : string) : M string :=
  if contains_char "/"%char new_name then raise ValueError else ret new_name.

(** The pieces of [s] between the occurrences of [c]; [part] is the
    piece read so far. *)
Fixpoint split_at (c : ascii) (s : string) (part : string) : list string :=
  match s with
  | EmptyString => [part]
  | String a s' =>
    if Ascii.eqb a c then part :: split_at c s' ""
    else split_at c s' (part ++ String a EmptyString)
  end.

(** The parts of a path: what stands between separators, without the
    empty parts and the parts [.]. *)
Definition path_parts (name : string) : list string :=
  filter (fun part => negb (String.eqb part "") && negb (String.eqb part "."))
         (split_at "/" name "").

(** A name with a separator that is rooted or has several parts: every
    version of [pathlib] rejects it in [with_name]. *)
Definition never_a_file_name (name : string) : bool :=
  contains_char "/"%char name &&
  (match name with
   | String "/" _ => true
   | _ => false
   end || negb (Nat.eqb (List.length (path_parts name)) 1)).

(** [path.exists()]: whether the folder lists the name.  An error of
    [stat] that says the file is not there, as for a name with a NUL
    character in it, is answered [False].  The folder holds files that
    can be looked up: it has no dangling symbolic link, which [glob]
    lists and [exists] denies, and no name that makes [stat] fail in
    another way, as one that is too long does. *)
Definition path_exists (name : string) : M bool :=
  fun w =>
    (Ok (match lookup name (dir w) with Some _ => true | None => false end),
     w).

Definition NUL : ascii := "000"%char.

(** The exception of a refused [rename]: Python itself refuses a
    destination with an embedded NUL character, with [ValueError]; every
    other refusal comes from the operating system. *)
Definition rename_error (dst : string) : exn :=
  if contains_char NUL dst then ValueError else OSError.

(** [src.rename(dst)]: POSIX rename inside the folder.  It replaces an
    existing [dst], does nothing when [dst] is [src], and fails when the
    call is refused or the source is gone. *)
Definition path_rename (src dst : string) : M unit :=
  fun w =>
    if os_refuses w src dst then (Raise (rename_error dst), w)
    else match lookup src (dir w) with
         | None => (Raise OSError, w)
         | Some _ =>
           if String.eqb src dst then (Ok tt, w)
           else (Ok tt,
                 mkWorld (rename_entry src dst (remove dst (dir w)))
                         (os_refuses w) (trace w))
         end.

(* ================================================================== *)
(** * [extract_text] *)

(** Body of the [for i in range(total)] loop. *)
Definition extract_page (pages : list page) (i : nat)
           (text_parts : list string) : M (list string) :=
  page_text <- page_extract_text pages i ;;
  if truthy_value page_text
  then ret (text_parts ++ [str page_text])%list
  else ret text_parts.

Definition extract_text (pdf_path : string) (max_pages : Z) : M string :=
  r <- try_except
         (pages <- pdfplumber_open pdf_path ;;
          let total := Py.min (Z.of_nat (List.length pages)) max_pages in
          text_parts <- for_each (range total) (extract_page pages) [] ;;
          logger_info (MsgExtracted total pdf_path) ;;;
          ret (Some text_parts))
         (fun _ => true)
         (fun e => logger_error (MsgExtractFailed pdf_path e) ;;; ret None) ;;
  match r with
  | None => ret ""
  | Some text_parts => ret (join newline text_parts)
  end.

(* ================================================================== *)
(** * The regular-expression library and [str.format] *)

(** A match object, as far as the program looks at it: [m.groups()]
    (groups 1..n, [None] for a group that did not participate) and
    [m.groupdict()]. *)
Record match_object : Type := mkMatch {
  groups : list value;
  groupdict : list (string * value)
}.

(** A compiled pattern is used through [rx.search(text)] only. *)
Definition pattern_object := string -> option match_object.

(** Automatic field numbering of [str.format]. *)
Inductive an_state : Type := ANS_INIT | ANS_AUTO | ANS_MANUAL.

Record auto_number : Type := mkAuto {
  an_mode : an_state;
  an_field_number : nat
}.

(** The parts of the Python runtime that the program calls and that are
    kept abstract.
    - [re_compile pattern] is [re.compile(pattern, re.IGNORECASE |
      re.MULTILINE)].  It returns the pattern object or raises:
      [ReError] stands for [re.error], and the call can raise other
      classes too ([OverflowError] for a repetition count that is too
      large, [RecursionError] for a pattern nested too deeply).
    - [decimal_digit c] is [Py_UNICODE_TODECIMAL] on a code point [c]
      outside ASCII: the value of a decimal digit of another script, and
      [None] for any other character.
    - [format_str s spec] is [format(s, spec)] for a string [s] and a
      format specification [spec] that is not empty.
    - [format_field_ext field rest args kwargs an] renders the remainder
      of a format string from a replacement field that uses an attribute
      or index accessor or a conversion, or that nests a field in its
      format specification: [field] is the part of the field read so far
      and [rest] the format string from the first of the characters [.],
      [[] and [!] of the field name on, or from the [{] of the format
      specification on. *)
Record runtime : Type := mkRuntime {
  re_compile : string -> result pattern_object;
  decimal_digit : Z -> option Z;
  format_str : string -> string -> result string;
  format_field_ext :
    string -> string -> list value -> list (string * value) ->
    auto_number -> result string
}.

Module Format.

Definition PY_SSIZE_T_MAX : Z := (2 ^ 63 - 1)%Z.

(** ** Strings as sequences of code points

    A [str] is held as its UTF-8 bytes; [str.format] reads a field name
    one code point at a time. *)

Definition byte (c : ascii) : Z := Z.of_N (N_of_ascii c).

Definition is_continuation (n : Z) : bool := ((128 <=? n) && (n <? 192))%Z.

(** [code_points_from s cp more]: the code points of [s], where [more]
    continuation bytes are still to come for the code point whose
    leading bits are [cp].  [None] when [s] is not well-formed. *)
Fixpoint code_points_from (s : string) (cp : Z) (more : nat)
  : option (list Z) :=
  match s, more with
  | EmptyString, O => Some []
  | EmptyString, S _ => None
  | String b s', O =>
    let n := byte b in
    if (n <? 128)%Z then option_map (cons n) (code_points_from s' 0 0)
    else if (n <? 192)%Z then None
    else if (n <? 224)%Z then code_points_from s' (n - 192) 1
    else if (n <? 240)%Z then code_points_from s' (n - 224) 2
    else if (n <? 248)%Z then code_points_from s' (n - 240) 3
    else None
  | String b s', S more' =>
    let n := byte b in
    if is_continuation n then
      let cp' := (cp * 64 + (n - 128))%Z in
      match more' with
      | O => option_map (cons cp') (code_points_from s' 0 0)
      | S _ => code_points_from s' cp' more'
      end
    else None
  end.

Definition code_points (s : string) : option (list Z) :=
  code_points_from s 0 0.

Section Render.
Variable py : runtime.
Variable args : list value.
Variable kwargs : list (string * value).

(** [Py_UNICODE_TODECIMAL]: the ASCII digits, and what the Unicode
    database of the runtime says about the other code points. *)
Definition to_decimal (c : Z) : option Z :=
  if ((48 <=? c) && (c <=? 57))%Z then Some (c - 48)%Z
  else if (c <? 128)%Z then None
  else match decimal_digit py c with
       | Some d => if ((0 <=? d) && (d <=? 9))%Z then Some d else None
       | None => None
       end.

(** [get_integer]: the field name read as a decimal number.  [None]
    when it is empty or has a character that is not a decimal digit. *)
Fixpoint get_integer_from (cs : list Z) (accumulator : Z)
  : result (option Z) :=
  match cs with
  | [] => Ok (Some accumulator)
  | c :: cs' =>
    match to_decimal c with
    | None => Ok None
    | Some d =>
      if (accumulator >? (PY_SSIZE_T_MAX - d) / 10)%Z
      then Raise ValueError       (* Too many decimal digits *)
      else get_integer_from cs' (accumulator * 10 + d)
    end
  end.

Definition get_integer (s : string) : result (option Z) :=
  match code_points s with
  | None | Some [] => Ok None
  | Some cs => get_integer_from cs 0
  end.

Fixpoint kwargs_get (key : string) (kw : list (string * value))
  : option value :=
  match kw with
  | [] => None
  | (k, v) :: kw' =>
    if String.eqb k key then Some v else kwargs_get key kw'
  end.

(** [PySequence_GetItem(args, index)] for a non-negative index, with the
    bound checked on the integer. *)
Definition sequence_get_item (index : Z) : option value :=
  if (index <? Z.of_nat (List.length args))%Z
  then nth_error args (Z.to_nat index)
  else None.

(** Lookup of a field without accessors: the empty name takes the next
    automatic index, a decimal name indexes [args], any other name is a
    key of [kwargs]. *)
Definition get_field (name : string) (an : auto_number)
  : result (value * auto_number) :=
  match get_integer name with
  | Raise e => Raise e
  | Ok first_idx =>
    let field_name_is_empty := negb (truthy name) in
    match first_idx, field_name_is_empty with
    | None, false =>
      match kwargs_get name kwargs with
      | None => Raise KeyError
      | Some v => Ok (v, an)
      end
    | _, _ =>
      let mode :=
        match an_mode an with
        | ANS_INIT => if field_name_is_empty then ANS_AUTO else ANS_MANUAL
        | m => m
        end in
      match mode, field_name_is_empty with
      | ANS_MANUAL, true => Raise ValueError   (* manual -> automatic *)
      | ANS_AUTO, false => Raise ValueError    (* automatic -> manual *)
      | _, _ =>
        let index :=
          match first_idx with
          | Some i => i
          | None => Z.of_nat (an_field_number an)
          end in
        let an' :=
          mkAuto mode (if field_name_is_empty
                       then S (an_field_number an)
                       else an_field_number an) in
        match sequence_get_item index with
        | None => Raise IndexError
        | Some v => Ok (v, an')
        end
      end
    end
  end.

(** [format(v, spec)]: [None] has the [__format__] of [object], which
    accepts the empty specification only; a string is returned as it is
    for the empty specification. *)
Definition format_value (v : value) (spec : string) : result string :=
  match v with
  | None => if truthy spec then Raise TypeError else Ok "None"
  | Some s => if truthy spec then format_str py s spec else Ok s
  end.

(** A replacement field that is read to its end: the object is looked
    up first and formatted then. *)
Definition output_markup (name spec : string) (an : auto_number)
  : result (string * auto_number) :=
  match get_field name an with
  | Raise e => Raise e
  | Ok (v, an') =>
    match format_value v spec with
    | Raise e => Raise e
    | Ok s => Ok (s, an')
    end
  end.

(** The characters that end the plain part of a field name: the start
    of an accessor, of a conversion, or of the format specification. *)
Definition is_special (c : ascii) : bool :=
  Ascii.eqb c "."%char || Ascii.eqb c "["%char ||
  Ascii.eqb c "!"%char || Ascii.eqb c ":"%char.

(** Where the scanner is: in literal text, inside a replacement field
    whose name so far is [name], or inside the format specification
    [spec] of the field [name]. *)
Inductive mode : Type :=
| Literal
| Field (name : string)
| Specification (name spec : string).

(** One pass over the format string, left to right; [out] is the
    text rendered so far.  The first error met is the one raised. *)
Fixpoint render (tpl : string) (md : mode) (out : string)
         (an : auto_number) : result string :=
  match md with
  | Literal =>
    match tpl with
    | EmptyString => Ok out
    | String c rest =>
      if Ascii.eqb c "{" then
        match rest with
        | EmptyString => Raise ValueError             (* Single '{' *)
        | String c' rest' =>
          if Ascii.eqb c' "{"
          then render rest' Literal (out ++ "{") an
          else render rest (Field "") out an
        end
      else if Ascii.eqb c "}" then
        match rest with
        | EmptyString => Raise ValueError             (* Single '}' *)
        | String c' rest' =>
          if Ascii.eqb c' "}"
          then render rest' Literal (out ++ "}") an
          else Raise ValueError                       (* Single '}' *)
        end
      else render rest Literal (out ++ String c EmptyString) an
    end
  | Field name =>
    match tpl with
    | EmptyString => Raise ValueError         (* expected '}' *)
    | String c rest =>
      if Ascii.eqb c "{" then Raise ValueError    (* '{' in field name *)
      else if Ascii.eqb c "}" then
        match output_markup name "" an with
        | Raise e => Raise e
        | Ok (s, an') => render rest Literal (out ++ s) an'
        end
      else if Ascii.eqb c ":" then render rest (Specification name "") out an
      else if is_special c then
        match format_field_ext py name tpl args kwargs an with
        | Raise e => Raise e
        | Ok s => Ok (out ++ s)
        end
      else render rest (Field (name ++ String c EmptyString)) out an
    end
  | Specification name spec =>
    match tpl with
    | EmptyString => Raise ValueError         (* unmatched '{' *)
    | String c rest =>
      if Ascii.eqb c "}" then
        match output_markup name spec an with
        | Raise e => Raise e
        | Ok (s, an') => render rest Literal (out ++ s) an'
        end
      else if Ascii.eqb c "{" then
        match format_field_ext py (name ++ ":" ++ spec) tpl args kwargs an
        with
        | Raise e => Raise e
        | Ok s => Ok (out ++ s)
        end
      else render rest (Specification name (spec ++ String c EmptyString))
                  out an
    end
  end.

End Render.

(** [template.format( *args, **kwargs )]. *)
Definition format (py : runtime) (template : string) (args : list value)
           (kwargs : list (string * value)) : result string :=
  render py args kwargs template Literal "" (mkAuto ANS_INIT 0).

End Format.

(* ================================================================== *)
(** * [rename_from_text] *)

Section Renamer.
Variable py : runtime.

(** The positional arguments of the [format] call: a dummy element at
    index 0, then the groups. *)
Definition groups_1indexed (m : match_object) : list value :=
  None :: groups m.

(** Lines 102-105: render the template and force the [.pdf] suffix. *)
Definition render_name (template : string) (m : match_object)
  : result string :=
  match Format.format py template (groups_1indexed m) (groupdict m) with
  | Raise e => Raise e
  | Ok new_name =>
    if negb (endswith new_name ".pdf")
    then Ok (new_name ++ ".pdf")
    else Ok new_name
  end.

Definition catches_template_error (e : exn) : bool :=
  match e with
  | IndexError | KeyError => true
  | _ => false
  end.

(** Lines 100-124, the [try] block of the loop body with its handler;
    [continue] returns the counter as it is. *)
Definition try_rename (template : string) (dry_run : bool) (pdf : string)
           (matched : nat) (m : match_object) : M nat :=
  try_except
    (new_name <- lift (render_name template m) ;;
     new_path <- with_name pdf new_name ;;
     target_exists <- path_exists new_path ;;
     if target_exists && negb (String.eqb new_path pdf) then
       logger_error (MsgTargetExists pdf new_name) ;;;
       ret matched
     else
       logger_info (MsgRename dry_run pdf new_name) ;;;
       (if negb dry_run then path_rename pdf new_path else ret tt) ;;;
       ret (matched + 1)%nat)
    catches_template_error
    (fun e =>
       logger_error (MsgTemplateError pdf e) ;;;
       logger_info (MsgCaptured (groups m) (groupdict m)) ;;;
       ret matched).

(** Lines 90-98 and then the [try] block: what the loop body does once
    the text is extracted. *)
Definition search_and_rename (rx : pattern_object) (template : string)
           (dry_run : bool) (pdf : string) (matched : nat) (txt : string)
  : M nat :=
  if negb (truthy txt) then
    logger_warning (MsgNoText pdf) ;;;
    ret matched
  else
    match rx txt with
    | None =>
      logger_warning (MsgPatternNotFound pdf) ;;;
      ret matched
    | Some m => try_rename template dry_run pdf matched m
    end.

(** Body of the [for pdf in pdfs] loop. *)
Definition process_pdf (rx : pattern_object) (template : string)
           (max_pages : Z) (dry_run : bool) (pdf : string) (matched : nat)
  : M nat :=
  txt <- extract_text pdf max_pages ;;
  search_and_rename rx template dry_run pdf matched txt.

Definition separator : string :=
  "------------------------------------------------------------".

(** [except re.error]: no other class is caught at lines 71-75. *)
Definition catches_re_error (e : exn) : bool :=
  match e with
  | ReError => true
  | _ => false
  end.

(** Lines 77-131: the batch once the pattern is compiled. *)
Definition rename_with (rx : pattern_object) (pattern template : string)
           (max_pages : Z) (dry_run : bool) : M nat :=
  pdfs <- glob_pdf ;;
  match pdfs with
  | [] =>
    logger_warning MsgNoPdfFound ;;;
    ret 0%nat
  | _ =>
    logger_info (MsgProcessing (List.length pdfs)) ;;;
    logger_info (MsgPattern pattern) ;;;
    logger_info (MsgTemplate template) ;;;
    logger_info (MsgMode dry_run) ;;;
    print separator ;;;
    matched <- for_each pdfs
                 (process_pdf rx template max_pages dry_run) 0%nat ;;
    print separator ;;;
    logger_info (MsgSummary matched (List.length pdfs) dry_run) ;;;
    (if dry_run then logger_info MsgRunWithApply else ret tt) ;;;
    ret matched
  end.

(** The [try] of lines 71-75 either leaves the function with 0 or binds
    [rx]; an exception that is not [re.error] leaves the function. *)
Definition rename_from_text (pattern template : string) (max_pages : Z)
           (dry_run : bool) : M nat :=
  r <- try_except
         (rx <- lift (re_compile py pattern) ;; ret (Some rx))
         catches_re_error
         (fun e => logger_error MsgInvalidRegex ;;; ret None) ;;
  match r with
  | None => ret 0%nat
  | Some rx => rename_with rx pattern template max_pages dry_run
  end.

End Renamer.

(** The planned renames a run reports: the [name -> new_name] lines. *)
Fixpoint planned_renames (t : list event) : list (string * string) :=
  match t with
  | [] => []
  | Log INFO (MsgRename _ name new_name) :: t' =>
    (name, new_name) :: planned_renames t'
  | _ :: t' => planned_renames t'
  end.

(* ================================================================== *)
(** * A small regular-expression engine

    An instance of [re_compile] for a fragment of Python's pattern
    syntax, so that the documented examples can be run end to end:
    literal characters, [.], the classes [\d \D \w \W \s \S], escaped
    punctuation, the greedy quantifiers [*], [+], [?] and [{m,n}] on
    items that cannot match the empty string, alternation and the groups
    [( )], [(?: )] and [(?P<name> )].  Matching ignores case and is
    leftmost with backtracking, as [IGNORECASE] search is.  A pattern
    outside the fragment is rejected as if it were malformed, whatever
    the library does with it. *)

Module MiniRe.

Inductive charset : Type :=
| CsChar (c : ascii)
| CsAny
| CsDigit
| CsWord
| CsSpace
| CsNot (cs : charset).

Inductive regex : Type :=
| Eps
| Chars (cs : charset)
| Seq (r1 r2 : regex)
| Alt (r1 r2 : regex)
| Star (r : regex)
| Group (index : nat) (r : regex).

Definition between (lo hi : nat) (c : ascii) : bool :=
  let n := nat_of_ascii c in ((lo <=? n) && (n <=? hi))%nat.

Definition lower (c : ascii) : ascii :=
  if between 65 90 c then ascii_of_nat (nat_of_ascii c + 32) else c.

Fixpoint accepts (cs : charset) (c : ascii) : bool :=
  match cs with
  | CsChar a => Ascii.eqb (lower a) (lower c)
  | CsAny => negb (Ascii.eqb c (ascii_of_nat 10))
  | CsDigit => between 48 57 c
  | CsWord =>
    between 48 57 c || between 65 90 c || between 97 122 c ||
    Ascii.eqb c "_"%char
  | CsSpace => between 9 13 c || Ascii.eqb c " "%char
  | CsNot cs' => negb (accepts cs' c)
  end.

(** Captures: group index and the text the group matched last. *)
Definition captures := list (nat * string).

Fixpoint capture (i : nat) (c : captures) : value :=
  match c with
  | [] => None
  | (j, s) :: c' => if Nat.eqb i j then Some s else capture i c'
  end.

(** Backtracking matcher in continuation-passing style: [k] is run on
    the remaining input after [r] has matched a prefix. *)
Fixpoint matches (r : regex) (s : string) (c : captures)
         (k : string -> captures -> option captures) {struct r}
  : option captures :=
  match r with
  | Eps => k s c
  | Chars cs =>
    match s with
    | String a s' => if accepts cs a then k s' c else None
    | EmptyString => None
    end
  | Seq r1 r2 => matches r1 s c (fun s' c' => matches r2 s' c' k)
  | Alt r1 r2 =>
    match matches r1 s c k with
    | Some c' => Some c'
    | None => matches r2 s c k
    end
  | Star r1 =>
    (fix star (n : nat) (s : string) (c : captures) : option captures :=
       match n with
       | O => k s c
       | S n' =>
         match matches r1 s c
                       (fun s' c' =>
                          if (String.length s' <? String.length s)%nat
                          then star n' s' c' else None) with
         | Some c' => Some c'
         | None => k s c
         end
       end) (String.length s) s c
  | Group i r1 =>
    matches r1 s c
            (fun s' c' =>
               k s' ((i, substring 0 (String.length s - String.length s') s)
                       :: c'))
  end.

(** [search]: the first position, scanning left to right, at which the
    pattern matches. *)
Fixpoint search (r : regex) (s : string) : option captures :=
  match matches r s [] (fun _ c => Some c) with
  | Some c => Some c
  | None =>
    match s with
    | EmptyString => None
    | String _ s' => search r s'
    end
  end.

(** ** Parsing the pattern *)

Record pstate : Type := mkP {
  group_count : nat;
  group_names : list (string * nat);
  nesting : nat                     (* groups that are open *)
}.

(** Groups nested deeper than this are outside the fragment: the
    library parses by recursion and gives up at some depth. *)
Definition max_nesting : nat := 100.

Definition is_meta (c : ascii) : bool :=
  Ascii.eqb c "["%char || Ascii.eqb c "^"%char || Ascii.eqb c "$"%char.

Definition escape_class (c : ascii) : option charset :=
  if Ascii.eqb c "d"%char then Some CsDigit
  else if Ascii.eqb c "D"%char then Some (CsNot CsDigit)
  else if Ascii.eqb c "w"%char then Some CsWord
  else if Ascii.eqb c "W"%char then Some (CsNot CsWord)
  else if Ascii.eqb c "s"%char then Some CsSpace
  else if Ascii.eqb c "S"%char then Some (CsNot CsSpace)
  else if between 48 57 c || between 65 90 c || between 97 122 c
  then None
  else Some (CsChar c).

(** The group name of [(?P<name>...)], up to the closing [>]. *)
Fixpoint read_name (s : string) (acc : string) : option (string * string) :=
  match s with
  | EmptyString => None
  | String ">" rest => if truthy acc then Some (acc, rest) else None
  | String c rest =>
    if accepts CsWord c
    then read_name rest (acc ++ String c EmptyString)
    else None
  end.

(** ** Counted repetition [{m,n}] *)

Definition MAXREPEAT : Z := 4294967295.

(** The decimal number at the start of [s], if there is one, and what
    follows it. *)
Fixpoint read_number (s : string) (acc : option Z) : option Z * string :=
  match s with
  | EmptyString => (acc, s)
  | String c rest =>
    if between 48 57 c
    then read_number rest
           (Some (10 * match acc with Some n => n | None => 0 end
                  + Z.of_nat (nat_of_ascii c - 48))%Z)
    else (acc, s)
  end.

(** What follows an opening brace, read as [lo}], [lo,hi}], [lo,}],
    [,hi}] or [,}]: the two bounds and the rest of the pattern.  [None]
    when the text has another form; the brace is a literal then. *)
Definition repeat_bounds (s : string)
  : option (option Z * option Z * string) :=
  match s with
  | String "}" _ => None
  | _ =>
    let (lo, s1) := read_number s None in
    let (hi, s2) :=
      match s1 with
      | String "," s1' => read_number s1' None
      | _ => (lo, s1)
      end in
    match s2 with
    | String "}" rest => Some (lo, hi, rest)
    | _ => None
    end
  end.

(** The checks on the bounds, in the order the library makes them. *)
Definition check_bounds (lo hi : option Z) : result (nat * option nat) :=
  let min := match lo with Some n => n | None => 0%Z end in
  if (MAXREPEAT <=? min)%Z then Raise OverflowError
  else match hi with
       | None => Ok (Z.to_nat min, None)
       | Some max =>
         if (MAXREPEAT <=? max)%Z then Raise OverflowError
         else if (max <? min)%Z then Raise ReError
         else Ok (Z.to_nat min, Some (Z.to_nat max))
       end.

(** Whether [r] can match the empty string. *)
Fixpoint nullable (r : regex) : bool :=
  match r with
  | Eps => true
  | Chars _ => false
  | Seq r1 r2 => nullable r1 && nullable r2
  | Alt r1 r2 => nullable r1 || nullable r2
  | Star _ => true
  | Group _ r1 => nullable r1
  end.

(** [r] exactly [n] times, then [tail]. *)
Fixpoint times (n : nat) (r tail : regex) : regex :=
  match n with
  | O => tail
  | S n' => Seq r (times n' r tail)
  end.

(** [r] at most [n] times, as many as possible first. *)
Fixpoint at_most (n : nat) (r : regex) : regex :=
  match n with
  | O => Eps
  | S n' => Alt (Seq r (at_most n' r)) Eps
  end.

Definition counted (min : nat) (max : option nat) (r : regex) : regex :=
  times min r
        match max with
        | None => Star r
        | Some mx => at_most (mx - min) r
        end.

(** The quantifier that follows the item [r], if any.  A quantifier
    on a quantifier, and the repetition of an item that can match the
    empty string, are outside the fragment. *)
Definition quantified (r : regex) (s : string) : result (regex * string) :=
  let follows_quantifier (rest : string) :=
    match rest with
    | String "*" _ | String "+" _ | String "?" _ => true
    | _ => false
    end in
  let accept (r' : regex) (rest : string) : result (regex * string) :=
    if follows_quantifier rest || nullable r
    then Raise ReError else Ok (r', rest) in
  match s with
  | String "*" rest => accept (Star r) rest
  | String "+" rest => accept (Seq r (Star r)) rest
  | String "?" rest =>
    if follows_quantifier rest then Raise ReError else Ok (Alt r Eps, rest)
  | String "{" rest =>
    match repeat_bounds rest with
    | None => Ok (r, s)
    | Some (lo, hi, rest') =>
      match check_bounds lo hi with
      | Raise e => Raise e
      | Ok (min, max) => accept (counted min max r) rest'
      end
    end
  | _ => Ok (r, s)
  end.

Fixpoint parse_alt (fuel : nat) (s : string) (st : pstate)
  : result (regex * string * pstate) :=
  match fuel with
  | O => Raise ReError
  | S fuel' =>
    match parse_seq fuel' s st with
    | Raise e => Raise e
    | Ok (r1, String "|" rest, st1) =>
      match parse_alt fuel' rest st1 with
      | Raise e => Raise e
      | Ok (r2, rest2, st2) => Ok (Alt r1 r2, rest2, st2)
      end
    | Ok x => Ok x
    end
  end

with parse_seq (fuel : nat) (s : string) (st : pstate)
  : result (regex * string * pstate) :=
  match fuel with
  | O => Raise ReError
  | S fuel' =>
    match s with
    | EmptyString | String "|" _ | String ")" _ => Ok (Eps, s, st)
    | _ =>
      match parse_atom fuel' s st with
      | Raise e => Raise e
      | Ok (r1, rest, st1) =>
        match quantified r1 rest with
        | Raise e => Raise e
        | Ok (r1', rest') =>
          match parse_seq fuel' rest' st1 with
          | Raise e => Raise e
          | Ok (r2, rest2, st2) => Ok (Seq r1' r2, rest2, st2)
          end
        end
      end
    end
  end

with parse_atom (fuel : nat) (s : string) (st : pstate)
  : result (regex * string * pstate) :=
  match fuel with
  | O => Raise ReError
  | S fuel' =>
    let closing (x : result (regex * string * pstate))
                (wrap : regex -> regex) :=
      match x with
      | Raise e => Raise e
      | Ok (r, String ")" rest, st') =>
        Ok (wrap r, rest,
            mkP (group_count st') (group_names st') (nesting st))
      | Ok _ => Raise ReError
      end in
    let inside := S (nesting st) in
    match s with
    | EmptyString => Raise ReError
    | String "(" rest0 =>
      if (max_nesting <? inside)%nat then Raise ReError
      else
        match rest0 with
        | String "?" (String ":" rest) =>
          closing (parse_alt fuel' rest
                             (mkP (group_count st) (group_names st) inside))
                  (fun r => r)
        | String "?" (String "P" (String "<" rest)) =>
          match read_name rest "" with
          | None => Raise ReError
          | Some (name, rest') =>
            let i := S (group_count st) in
            closing
              (parse_alt fuel' rest'
                         (mkP i (group_names st ++ [(name, i)])%list inside))
              (Group i)
          end
        | String "?" _ => Raise ReError
        | rest =>
          let i := S (group_count st) in
          closing (parse_alt fuel' rest (mkP i (group_names st) inside))
                  (Group i)
        end
    | String "\" EmptyString => Raise ReError
    | String "\" (String c rest) =>
      match escape_class c with
      | None => Raise ReError
      | Some cs => Ok (Chars cs, rest, st)
      end
    | String "." rest => Ok (Chars CsAny, rest, st)
    | String "*" _ | String "+" _ | String "?" _ => Raise ReError
    | String "{" rest =>
      (* a repetition with nothing to repeat, or a literal brace *)
      match repeat_bounds rest with
      | None => Ok (Chars (CsChar "{"), rest, st)
      | Some (lo, hi, _) =>
        match check_bounds lo hi with
        | Raise e => Raise e
        | Ok _ => Raise ReError
        end
      end
    | String c rest =>
      if is_meta c then Raise ReError else Ok (Chars (CsChar c), rest, st)
    end
  end.

Definition parse (pattern : string) : result (regex * pstate) :=
  match parse_alt (4 * String.length pattern + 4) pattern (mkP 0 [] 0) with
  | Raise e => Raise e
  | Ok (r, EmptyString, st) => Ok (r, st)
  | Ok _ => Raise ReError
  end.

Definition to_match (st : pstate) (c : captures) : match_object :=
  mkMatch (map (fun i => capture i c) (seq 1 (group_count st)))
          (map (fun ni => (fst ni, capture (snd ni) c)) (group_names st)).

Definition compile (pattern : string) : result pattern_object :=
  match parse pattern with
  | Raise e => Raise e
  | Ok (r, st) =>
    Ok (fun text =>
          match search r text with
          | None => None
          | Some c => Some (to_match st c)
          end)
  end.

End MiniRe.

(* ================================================================== *)
(** * Decimal digits outside ASCII

    An instance of [decimal_digit]: the code points of the digit zero of
    every script that has decimal digits (Unicode 14); the digits one to
    nine follow each of them. *)

Module Unicode.

Definition decimal_zeros : list Z :=
  [1632; 1776; 1984; 2406; 2534; 2662; 2790; 2918; 3046; 3174; 3302;
   3430; 3558; 3664; 3792; 3872; 4160; 4240; 6112; 6160; 6470; 6608;
   6784; 6800; 6992; 7088; 7232; 7248; 42528; 43216; 43264; 43472;
   43504; 43600; 44016; 65296; 66720; 68912; 69734; 69872; 69942;
   70096; 70384; 70736; 70864; 71248; 71360; 71472; 71904; 72016;
   72784; 73040; 73120; 92768; 92864; 93008; 120782; 120792; 120802;
   120812; 120822; 123200; 123632; 125264; 130032]%Z.

Definition decimal_digit (c : Z) : option Z :=
  match find (fun z => (z <=? c) && (c <? z + 10))%Z decimal_zeros with
  | Some z => Some (c - z)%Z
  | None => None
  end.

End Unicode.

(** A runtime built on the small engine.  In replacement fields it
    supports no accessors, no conversions, no format specification
    applied to a string and none that contains a field. *)
Definition mini_runtime : runtime :=
  mkRuntime MiniRe.compile Unicode.decimal_digit
            (fun _ _ => Raise ValueError)
            (fun _ _ _ _ _ => Raise ValueError).

(** The pattern object the small engine compiles [pattern] to. *)
Definition compiled (pattern : string) : pattern_object :=
  match MiniRe.compile pattern with
  | Ok rx => rx
  | Raise _ => fun _ => None
  end.

(* ================================================================== *)
(** * What the specification says, in its own words *)

Module Spec.

(** "The first [min(available, max_pages)] pages". *)
Definition leading_pages (pages : list page) (max_pages : Z) : list page :=
  firstn (Z.to_nat (Z.min (Z.of_nat (List.length pages)) max_pages)) pages.

Definition page_ok (p : page) : bool :=
  match p with
  | Ok _ => true
  | Raise _ => false
  end.

Definition page_text (p : page) : string :=
  match p with
  | Ok (Some s) => s
  | _ => ""
  end.

(** "The non-empty page texts, in page order". *)
Definition non_empty_page_texts (ps : list page) : list string :=
  filter truthy (map page_text ps).

(** The extractor's result: the newline-joined non-empty texts of the
    leading pages, and the empty string when the document cannot be
    opened or a page fails. *)
Definition extract_text (f : option pdf_file) (max_pages : Z) : string :=
  match f with
  | Some (Document pages) =>
    let ps := leading_pages pages max_pages in
    if forallb page_ok ps
    then join newline (non_empty_page_texts ps)
    else ""
  | _ => ""
  end.

(** "Lacks a [.pdf] suffix", as a property of the string. *)
Definition has_pdf_suffix (s : string) : Prop :=
  exists stem, s = stem ++ ".pdf".

End Spec.

(** The world after some more events were written. *)
Definition logged (w : world) (evs : list event) : world :=
  mkWorld (dir w) (os_refuses w) (trace w ++ evs)%list.

(** A computation that reads the folder and writes to the trace only:
    its result and the events it writes do not depend on what was
    written before, and it leaves the directory as it is. *)
Definition reads_only {A} (m : M A) : Prop :=
  forall d o, exists r evs,
      forall t, m (mkWorld d o t) = (r, mkWorld d o (t ++ evs)%list).

(** The one log line an extraction writes. *)
Definition extraction_event (name : string) (ev : event) : Prop :=
  (exists total, ev = Log INFO (MsgExtracted total name)) \/
  (exists e, ev = Log ERROR (MsgExtractFailed name e)).

(** No error-level line was written between [w] and [w']. *)
Definition no_error_reported (w w' : world) : Prop :=
  forall m, In (Log ERROR m) (trace w') -> In (Log ERROR m) (trace w).

(** A folder for examples: nothing logged yet, no rename refused. *)
Definition folder (d : list (string * pdf_file)) : world :=
  mkWorld d (fun _ _ => false) [].

(** A document whose pages yield the given texts. *)
Definition document (texts : list string) : pdf_file :=
  Document (map (fun s => Ok (Some s)) texts).

(** ** Shapes of templates *)

Fixpoint string_forallb (f : ascii -> bool) (s : string) : bool :=
  match s with
  | EmptyString => true
  | String c s' => f c && string_forallb f s'
  end.

Definition is_brace (c : ascii) : bool :=
  Ascii.eqb c "{"%char || Ascii.eqb c "}"%char.

(** Literal text without braces. *)
Definition brace_free (s : string) : bool :=
  string_forallb (fun c => negb (is_brace c)) s.

(** A field name without accessor, conversion or format specification,
    as in [{1}] and [{order}]. *)
Definition plain_name (s : string) : bool :=
  string_forallb (fun c => negb (is_brace c) && negb (Format.is_special c)) s.

(** A placeholder for a positional slot: a decimal index. *)
Definition is_index (py : runtime) (name : string) (i : nat) : Prop :=
  Format.get_integer py name = Ok (Some (Z.of_nat i)).

(** A placeholder for a named group: a non-empty plain name that is not
    a number. *)
Definition is_keyword (py : runtime) (name : string) : Prop :=
  plain_name name = true /\ truthy name = true /\
  Format.get_integer py name = Ok None.

(** The pieces of a template that is made of literal text and plain
    placeholders. *)
Inductive piece : Type :=
| Text (s : string)               (* literal text without braces *)
| Doubled (c : ascii)             (* a doubled brace, [{{] or [}}] *)
| Slot (name : string) (k : nat)  (* [{name}], where [name] is a numeral
                                     of [k] *)
| Named (name : string)           (* [{name}] for a group name *)
| Next.                           (* [{}] *)

Definition piece_source (p : piece) : string :=
  match p with
  | Text s => s
  | Doubled c => String c (String c EmptyString)
  | Slot name _ | Named name => "{" ++ name ++ "}"
  | Next => "{}"
  end.

(** The template that the pieces spell. *)
Fixpoint template_of (ps : list piece) : string :=
  match ps with
  | [] => ""
  | p :: ps' => piece_source p ++ template_of ps'
  end.

(** The pieces are what their constructors say, and every placeholder
    names something that is there; [next] is the slot of the next [{}]. *)
Fixpoint resolved (py : runtime) (args : list value)
         (kwargs : list (string * value)) (ps : list piece) (next : nat)
  : Prop :=
  match ps with
  | [] => True
  | Text s :: ps' =>
    brace_free s = true /\ resolved py args kwargs ps' next
  | Doubled c :: ps' =>
    is_brace c = true /\ resolved py args kwargs ps' next
  | Slot name k :: ps' =>
    is_index py name k /\ (k < List.length args)%nat /\
    resolved py args kwargs ps' next
  | Named name :: ps' =>
    is_keyword py name /\ Format.kwargs_get name kwargs <> None /\
    resolved py args kwargs ps' next
  | Next :: ps' =>
    (next < List.length args)%nat /\ resolved py args kwargs ps' (S next)
  end.

(** Numbered placeholders only, or automatic ones only: a template
    cannot mix the two. *)
Definition is_slot (p : piece) : bool :=
  match p with Slot _ _ => true | _ => false end.

Definition is_next (p : piece) : bool :=
  match p with Next => true | _ => false end.

Definition manual (ps : list piece) : bool :=
  forallb (fun p => negb (is_next p)) ps.

Definition automatic (ps : list piece) : bool :=
  forallb (fun p => negb (is_slot p)) ps.

(** What the pieces stand for, given the arguments of [format]: text
    for itself, a placeholder for [str] of what it names. *)
Fixpoint substituted (args : list value) (kwargs : list (string * value))
         (ps : list piece) (next : nat) : string :=
  match ps with
  | [] => ""
  | Text s :: ps' => s ++ substituted args kwargs ps' next
  | Doubled c :: ps' => String c (substituted args kwargs ps' next)
  | Slot _ k :: ps' =>
    str (nth k args None) ++ substituted args kwargs ps' next
  | Named name :: ps' =>
    str (match Format.kwargs_get name kwargs with
         | Some v => v
         | None => None
         end) ++ substituted args kwargs ps' next
  | Next :: ps' =>
    str (nth next args None) ++ substituted args kwargs ps' (S next)
  end.

(** The numbering state after a placeholder. *)
Definition numbering_after (an : auto_number) (p : piece) : auto_number :=
  match p with
  | Slot _ _ => mkAuto ANS_MANUAL (an_field_number an)
  | Next => mkAuto ANS_AUTO (S (an_field_number an))
  | _ => an
  end.

(** Pieces that can follow in the numbering mode [md]. *)
Definition coherent (md : an_state) (ps : list piece) : Prop :=
  match md with
  | ANS_INIT => manual ps = true \/ automatic ps = true
  | ANS_MANUAL => manual ps = true
  | ANS_AUTO => automatic ps = true
  end.

(** ** The batch *)

(** The candidates of a batch: [list(folder.glob("*.pdf"))]. *)
Definition candidates (w : world) : list string :=
  filter (fun n => endswith n ".pdf") (map fst (dir w)).

(** What a batch writes before its first file ... *)
Definition batch_header (pattern template : string) (dry_run : bool)
           (total : nat) : list event :=
  [Log INFO (MsgProcessing total); Log INFO (MsgPattern pattern);
   Log INFO (MsgTemplate template); Log INFO (MsgMode dry_run);
   Print separator].

(** ... and after its last one. *)
Definition batch_footer (dry_run : bool) (matched total : nat)
  : list event :=
  [Print separator; Log INFO (MsgSummary matched total dry_run)] ++
  (if dry_run then [Log INFO MsgRunWithApply] else []).

(** ** Per-file failures that skip the file

    [skipped py rx template pdf text d evs]: with [text] extracted from
    [pdf] and folder contents [d], the file is skipped for one of the
    reasons the loop body handles, and [evs] are the lines written after
    the extraction line. *)
Inductive skipped (py : runtime) (rx : pattern_object) (template pdf : string)
          (text : string) (d : list (string * pdf_file))
  : list event -> Prop :=
| SkipNoText :
    (* extraction failed, or no page yielded text *)
    truthy text = false ->
    skipped py rx template pdf text d [Log WARNING (MsgNoText pdf)]
| SkipPatternNotFound :
    truthy text = true -> rx text = None ->
    skipped py rx template pdf text d [Log WARNING (MsgPatternNotFound pdf)]
| SkipTemplateError (m : match_object) (e : exn) :
    (* the template names a group index or a group name that is missing *)
    truthy text = true -> rx text = Some m ->
    render_name py template m = Raise e ->
    e = IndexError \/ e = KeyError ->
    skipped py rx template pdf text d
            [Log ERROR (MsgTemplateError pdf e);
             Log INFO (MsgCaptured (groups m) (groupdict m))]
| SkipCollision (m : match_object) (new_name : string) (f : pdf_file) :
    truthy text = true -> rx text = Some m ->
    render_name py template m = Ok new_name ->
    contains_char "/" new_name = false ->
    lookup new_name d = Some f -> new_name <> pdf ->
    skipped py rx template pdf text d
            [Log ERROR (MsgTargetExists pdf new_name)].

(** ** Per-file failures that end the batch

    [aborts py rx template dry_run pdf text w e evs]: with [text]
    extracted from [pdf] in the world [w], processing the file raises
    [e], which the loop body does not catch, and [evs] are the lines
    written after the extraction line. *)
Inductive aborts (py : runtime) (rx : pattern_object) (template : string)
          (dry_run : bool) (pdf : string) (text : string) (w : world)
  : exn -> list event -> Prop :=
| AbortRendering (m : match_object) (e : exn) :
    (* rendering raises something else than a missing index or name *)
    truthy text = true -> rx text = Some m ->
    render_name py template m = Raise e ->
    e <> IndexError -> e <> KeyError ->
    aborts py rx template dry_run pdf text w e []
| AbortInvalidName (m : match_object) (new_name : string) :
    (* the rendered name is no file name *)
    truthy text = true -> rx text = Some m ->
    render_name py template m = Ok new_name ->
    never_a_file_name new_name = true ->
    aborts py rx template dry_run pdf text w ValueError []
| AbortRename (m : match_object) (new_name : string) (e : exn) :
    (* the rename itself fails, in apply mode *)
    truthy text = true -> rx text = Some m ->
    render_name py template m = Ok new_name ->
    contains_char "/" new_name = false ->
    lookup new_name (dir w) = None \/ new_name = pdf ->
    dry_run = false ->
    fst (path_rename pdf new_name w) = Raise e ->
    aborts py rx template dry_run pdf text w e
           [Log INFO (MsgRename false pdf new_name)].

(* ================================================================== *)
(** * [main]

    The command line is modelled from [args = parser.parse_args()] on:
    [argparse] guarantees one of the two subcommands with its required
    options.  The paths on the command line are the folder of the
    [world] and, for [extract], a file in it. *)

Inductive namespace : Type :=
| CmdExtract (pdf : string) (pages : Z)
| CmdRename (pattern template : string) (pages : Z) (apply : bool).

(** The log lines that [main] itself writes. *)
Inductive cli_message : Type :=
| MsgFileNotFound (pdf : string)
| MsgNoTextExtracted
| MsgFolderNotFound
| MsgValidationError (e : exn)
| MsgExecutionFailed (e : exn).

(** What a run of [main] yields besides the folder and its trace: the
    exit code, and the lines [main] wrote itself.  Each of these lines
    is written after everything the called function wrote, so the full
    log is the trace followed by them. *)
Record cli_result : Type := mkCli {
  exit_code : Z;
  diagnostics : list (level * cli_message)
}.

Definition frame : string :=
  "============================================================".

(** [except ValueError] comes before [except Exception]. *)
Definition main_handler (e : exn) : cli_result :=
  match e with
  | ValueError => mkCli 2 [(ERROR, MsgValidationError e)]
  | _ => mkCli 1 [(ERROR, MsgExecutionFailed e)]
  end.

(** [main], given what [args.folder.exists()] answers. *)
Definition main (py : runtime) (folder_exists : bool) (args : namespace)
  : M cli_result :=
  try_except
    (match args with
     | CmdExtract pdf pages =>
       file_exists <- path_exists pdf ;;
       if negb file_exists then
         ret (mkCli 2 [(ERROR, MsgFileNotFound pdf)])
       else
         txt <- extract_text pdf pages ;;
         if truthy txt then
           print (newline ++ frame) ;;;
           print txt ;;;
           print frame ;;;
           ret (mkCli 0 [])
         else
           ret (mkCli 1 [(WARNING, MsgNoTextExtracted)])
     | CmdRename pattern template pages apply =>
       if negb folder_exists then
         ret (mkCli 2 [(ERROR, MsgFolderNotFound)])
       else
         matched <- rename_from_text py pattern template pages (negb apply) ;;
         ret (mkCli (if (0 <? matched)%nat then 0 else 1) [])
     end)
    (fun _ => true)
    (fun e => ret (main_handler e)).

(** Whether the command line asks for changes: [rename] with
    [--apply]. *)
Definition asks_to_apply (args : namespace) : bool :=
  match args with
  | CmdRename _ _ _ apply => apply
  | CmdExtract _ _ => false
  end.

(* ================================================================== *)
(** * Relations between folder states *)

(** The names of a folder are pairwise different. *)
Definition distinct_names (d : list (string * pdf_file)) : Prop :=
  NoDup (map fst d).

(** [s1] is a leading part of [s2]. *)
Definition is_prefix (s1 s2 : string) : Prop :=
  exists rest, s2 = s1 ++ rest.

(* ================================================================== *)
(** * What the loop body intends for a file

    Judged from the document alone, before the collision guard: the file
    is skipped, the batch stops on an exception that is not caught, or
    the file is to be moved to the rendered name. *)

Inductive plan : Type :=
| Skip
| Abort
| Move (new_name : string).

Definition plan_for (py : runtime) (rx : pattern_object) (template : string)
           (max_pages : Z) (f : option pdf_file) : plan :=
  let text := Spec.extract_text f max_pages in
  if truthy text then
    match rx text with
    | None => Skip
    | Some m =>
      match render_name py template m with
      | Raise e => if catches_template_error e then Skip else Abort
      | Ok new_name =>
        if contains_char "/" new_name then Abort else Move new_name
      end
    end
  else Skip.

(** The moves intended for the files [pdfs] of folder [d], in order. *)
Fixpoint moves (py : runtime) (rx : pattern_object) (template : string)
         (max_pages : Z) (d : list (string * pdf_file)) (pdfs : list string)
  : list (string * string) :=
  match pdfs with
  | [] => []
  | pdf :: rest =>
    match plan_for py rx template max_pages (lookup pdf d) with
    | Move new_name => (pdf, new_name) :: moves py rx template max_pages d rest
    | _ => moves py rx template max_pages d rest
    end
  end.

(** The folder after the renames [ms], done one after the other. *)
Definition apply_moves (ms : list (string * string))
           (d : list (string * pdf_file)) : list (string * pdf_file) :=
  fold_left (fun d' p => rename_entry (fst p) (snd p) d') ms d.

(** The intended moves of [pdfs] cannot interfere: no file stops the
    batch, every destination is a name that does not exist yet or the
    file's own name, and no two files have the same destination. *)
Definition independent_moves (py : runtime) (rx : pattern_object)
           (template : string) (max_pages : Z) (d : list (string * pdf_file))
           (pdfs : list string) : Prop :=
  (forall pdf,
      In pdf pdfs ->
      plan_for py rx template max_pages (lookup pdf d) <> Abort) /\
  (forall pdf new_name,
      In pdf pdfs ->
      plan_for py rx template max_pages (lookup pdf d) = Move new_name ->
      lookup new_name d = None \/ new_name = pdf) /\
  (forall pdf1 pdf2 new_name,
      In pdf1 pdfs -> In pdf2 pdfs ->
      plan_for py rx template max_pages (lookup pdf1 d) = Move new_name ->
      plan_for py rx template max_pages (lookup pdf2 d) = Move new_name ->
      pdf1 = pdf2).

(* ================================================================== *)
(** * Strings *)

Lemma length_append (s1 s2 : string) :
  String.length (s1 ++ s2) = (String.length s1 + String.length s2)%nat.
Proof.
  induction s1 as [|c s1 IH]; simpl; [reflexivity | now rewrite IH].
Qed.

Lemma append_empty_r (s : string) : s ++ "" = s.
Proof.
  induction s as [|c s IH]; simpl; [reflexivity | now rewrite IH].
Qed.

Lemma append_assoc (s1 s2 s3 : string) : (s1 ++ s2) ++ s3 = s1 ++ s2 ++ s3.
Proof.
  induction s1 as [|c s1 IH]; simpl; [reflexivity | now rewrite IH].
Qed.

Lemma substring_all (s : string) : substring 0 (String.length s) s = s.
Proof.
  induction s as [|c s IH]; simpl; [reflexivity | now rewrite IH].
Qed.

Lemma substring_skip_prefix (p s : string) :
  substring (String.length p) (String.length s) (p ++ s) = s.
Proof.
  induction p as [|c p IH]; simpl; [apply substring_all | exact IH].
Qed.

Lemma substring_split (s : string) :
  forall a b, (a + b = String.length s)%nat ->
              s = substring 0 a s ++ substring a b s.
Proof.
  induction s as [|c s IH]; intros a b H; simpl in *.
  - destruct a; destruct b; simpl; try reflexivity; discriminate.
  - destruct a as [|a]; simpl.
    + destruct b as [|b]; [discriminate|].
      injection H as H. subst b. now rewrite substring_all.
    + injection H as H. f_equal. now apply IH.
Qed.

Lemma endswith_iff (s suffix : string) :
  endswith s suffix = true <-> exists stem, s = stem ++ suffix.
Proof.
  unfold endswith. split.
  - intros H. apply andb_true_iff in H. destruct H as [Hle Heq].
    apply Nat.leb_le in Hle. apply String.eqb_eq in Heq.
    exists (substring 0 (String.length s - String.length suffix) s).
    pose proof (substring_split s (String.length s - String.length suffix)
                                (String.length suffix)) as Hs.
    rewrite Heq in Hs. apply Hs. lia.
  - intros [stem ->]. rewrite length_append.
    apply andb_true_iff. split.
    + apply Nat.leb_le. lia.
    + replace (String.length stem + String.length suffix
               - String.length suffix)%nat with (String.length stem) by lia.
      rewrite substring_skip_prefix. apply String.eqb_refl.
Qed.

Lemma endswith_false_iff (s suffix : string) :
  endswith s suffix = false <-> forall stem, s <> stem ++ suffix.
Proof.
  split.
  - intros H stem E.
    assert (endswith s suffix = true) by (apply endswith_iff; eauto).
    congruence.
  - intros H. destruct (endswith s suffix) eqn:E; [|reflexivity].
    apply endswith_iff in E. destruct E as [stem E]. now apply H in E.
Qed.

(* ================================================================== *)
(** * The monad *)

Lemma logged_nil (w : world) : logged w [] = w.
Proof.
  destruct w; unfold logged; simpl. now rewrite app_nil_r.
Qed.

Lemma logged_logged (w : world) (e1 e2 : list event) :
  logged (logged w e1) e2 = logged w (e1 ++ e2).
Proof.
  unfold logged; simpl. now rewrite app_assoc.
Qed.

Lemma emit_logged (ev : event) (w : world) : emit ev w = (Ok tt, logged w [ev]).
Proof. reflexivity. Qed.

Lemma for_each_cons {A S} (x : A) (xs : list A) (body : A -> S -> M S)
      (s s' : S) (w w' : world) :
  body x s w = (Ok s', w') ->
  for_each (x :: xs) body s w = for_each xs body s' w'.
Proof.
  intros H. simpl. unfold bind. now rewrite H.
Qed.

Lemma for_each_raise {A S} (x : A) (xs : list A) (body : A -> S -> M S)
      (s : S) (e : exn) (w w' : world) :
  body x s w = (Raise e, w') ->
  for_each (x :: xs) body s w = (Raise e, w').
Proof.
  intros H. simpl. unfold bind. now rewrite H.
Qed.

Section ReadsOnly.

Lemma reads_only_ret {A} (a : A) : reads_only (ret a).
Proof.
  intros d o. exists (Ok a), []. intros t. unfold ret.
  now rewrite app_nil_r.
Qed.

Lemma reads_only_raise {A} (e : exn) : reads_only (@raise A e).
Proof.
  intros d o. exists (Raise e), []. intros t. unfold raise.
  now rewrite app_nil_r.
Qed.

Lemma reads_only_lift {A} (r : result A) : reads_only (lift r).
Proof.
  intros d o. exists r, []. intros t. unfold lift.
  now rewrite app_nil_r.
Qed.

Lemma reads_only_emit (ev : event) : reads_only (emit ev).
Proof.
  intros d o. exists (Ok tt), [ev]. reflexivity.
Qed.

Lemma reads_only_bind {A B} (m : M A) (k : A -> M B) :
  reads_only m -> (forall a, reads_only (k a)) -> reads_only (bind m k).
Proof.
  intros Hm Hk d o. destruct (Hm d o) as (r & evs & Hr).
  destruct r as [a|e].
  - destruct (Hk a d o) as (r2 & evs2 & Hr2).
    exists r2, (evs ++ evs2)%list. intros t. unfold bind.
    rewrite Hr, Hr2. now rewrite app_assoc.
  - exists (Raise e), evs. intros t. unfold bind. now rewrite Hr.
Qed.

Lemma reads_only_try_except {A} (body : M A) (catches : exn -> bool)
      (handler : exn -> M A) :
  reads_only body -> (forall e, reads_only (handler e)) ->
  reads_only (try_except body catches handler).
Proof.
  intros Hm Hk d o. destruct (Hm d o) as (r & evs & Hr).
  destruct r as [a|e].
  - exists (Ok a), evs. intros t. unfold try_except. now rewrite Hr.
  - destruct (catches e) eqn:Hc.
    + destruct (Hk e d o) as (r2 & evs2 & Hr2).
      exists r2, (evs ++ evs2)%list. intros t. unfold try_except.
      rewrite Hr, Hc, Hr2. now rewrite app_assoc.
    + exists (Raise e), evs. intros t. unfold try_except.
      now rewrite Hr, Hc.
Qed.

Lemma reads_only_for_each {A S} (xs : list A) (body : A -> S -> M S) :
  (forall x s, reads_only (body x s)) ->
  forall s, reads_only (for_each xs body s).
Proof.
  intros Hb. induction xs as [|x xs IH]; intros s; simpl.
  - apply reads_only_ret.
  - apply reads_only_bind; [apply Hb | intros s'; apply IH].
Qed.

Lemma reads_only_pdfplumber_open (name : string) :
  reads_only (pdfplumber_open name).
Proof.
  intros d o. unfold pdfplumber_open; simpl.
  destruct (lookup name d) as [[e|pages]|].
  - exists (Raise e), []. intros t. now rewrite app_nil_r.
  - exists (Ok pages), []. intros t. now rewrite app_nil_r.
  - exists (Raise OSError), []. intros t. now rewrite app_nil_r.
Qed.

Lemma reads_only_glob_pdf : reads_only glob_pdf.
Proof.
  intros d o. unfold glob_pdf; simpl. eexists _, []. intros t.
  now rewrite app_nil_r.
Qed.

Lemma reads_only_path_exists (name : string) :
  reads_only (path_exists name).
Proof.
  intros d o. unfold path_exists; simpl. eexists _, []. intros t.
  now rewrite app_nil_r.
Qed.

Lemma reads_only_with_name (pdf new_name : string) :
  reads_only (with_name pdf new_name).
Proof.
  unfold with_name. destruct (contains_char "/" new_name).
  - apply reads_only_raise.
  - apply reads_only_ret.
Qed.

Lemma reads_only_logger_info (m : message) : reads_only (logger_info m).
Proof. apply reads_only_emit. Qed.

Lemma reads_only_logger_warning (m : message) :
  reads_only (logger_warning m).
Proof. apply reads_only_emit. Qed.

Lemma reads_only_logger_error (m : message) : reads_only (logger_error m).
Proof. apply reads_only_emit. Qed.

Lemma reads_only_print (s : string) : reads_only (print s).
Proof. apply reads_only_emit. Qed.

End ReadsOnly.

Create HintDb reads_only discriminated.
#[export] Hint Resolve reads_only_ret reads_only_raise reads_only_lift
  reads_only_emit reads_only_pdfplumber_open reads_only_glob_pdf
  reads_only_path_exists reads_only_with_name reads_only_logger_info
  reads_only_logger_warning reads_only_logger_error reads_only_print
  : reads_only.

(** Peels one sequencing step off a goal [reads_only (x <- m ;; k)]. *)
Ltac reads_only_seq :=
  apply reads_only_bind; [try solve [auto with reads_only] | intros ?].

(* ================================================================== *)
(** * [extract_text] *)

Lemma py_min_spec (a b : Z) : Py.min a b = Z.min a b.
Proof.
  unfold Py.min. destruct (Z.ltb_spec b a); lia.
Qed.

Lemma skipn_nth_error {A} (l : list A) :
  forall i x, nth_error l i = Some x -> skipn i l = x :: skipn (S i) l.
Proof.
  induction l as [|y l IH]; intros [|i] x H; simpl in *; try discriminate.
  - now injection H as ->.
  - now apply IH.
Qed.

Lemma nth_error_in_range {A} (l : list A) (i : nat) :
  (i < List.length l)%nat -> exists x, nth_error l i = Some x.
Proof.
  intros H. destruct (nth_error l i) eqn:E; [eauto|].
  apply nth_error_None in E. lia.
Qed.

Lemma non_empty_page_texts_cons (p : page) (ps : list page) :
  Spec.non_empty_page_texts (p :: ps) =
  (if truthy (Spec.page_text p)
   then Spec.page_text p :: Spec.non_empty_page_texts ps
   else Spec.non_empty_page_texts ps).
Proof. reflexivity. Qed.

(** The page loop, run over the indices [a, a+1, ..., a+n-1]. *)
Lemma extract_loop_ok (pages : list page) (w : world) :
  forall n a text_parts,
    (a + n <= List.length pages)%nat ->
    forallb Spec.page_ok (firstn n (skipn a pages)) = true ->
    for_each (seq a n) (extract_page pages) text_parts w =
    (Ok (text_parts ++ Spec.non_empty_page_texts (firstn n (skipn a pages)))%list,
     w).
Proof.
  induction n as [|n IH]; intros a text_parts Hlen Hok.
  - simpl. unfold ret. now rewrite app_nil_r.
  - destruct (nth_error_in_range pages a) as [p Hp]; [lia|].
    rewrite (skipn_nth_error _ _ _ Hp) in *.
    change (firstn (S n) (p :: skipn (S a) pages))
      with (p :: firstn n (skipn (S a) pages)) in *.
    cbn [forallb] in Hok. apply andb_true_iff in Hok. destruct Hok as [Hp_ok Hok].
    destruct p as [v|e]; [|discriminate].
    rewrite non_empty_page_texts_cons.
    assert (Hstep : extract_page pages a text_parts w =
                    (Ok (if truthy_value v
                         then (text_parts ++ [str v])%list
                         else text_parts), w)).
    { unfold extract_page, page_extract_text, bind, lift, ret.
      rewrite Hp. now destruct (truthy_value v). }
    change (seq a (S n)) with (a :: seq (S a) n).
    rewrite (for_each_cons _ _ _ _ _ _ _ Hstep).
    rewrite IH by (assumption || lia).
    destruct v as [s|]; simpl.
    + destruct (truthy s); [|reflexivity].
      now rewrite <- app_assoc.
    + reflexivity.
Qed.

Lemma extract_loop_raise (pages : list page) (w : world) :
  forall n a text_parts,
    (a + n <= List.length pages)%nat ->
    forallb Spec.page_ok (firstn n (skipn a pages)) = false ->
    exists e,
      for_each (seq a n) (extract_page pages) text_parts w = (Raise e, w).
Proof.
  induction n as [|n IH]; intros a text_parts Hlen Hok.
  - discriminate.
  - destruct (nth_error_in_range pages a) as [p Hp]; [lia|].
    rewrite (skipn_nth_error _ _ _ Hp) in *.
    change (firstn (S n) (p :: skipn (S a) pages))
      with (p :: firstn n (skipn (S a) pages)) in *.
    cbn [forallb] in Hok. change (seq a (S n)) with (a :: seq (S a) n).
    destruct p as [v|e].
    + simpl in Hok.
      assert (Hstep : extract_page pages a text_parts w =
                      (Ok (if truthy_value v
                           then (text_parts ++ [str v])%list
                           else text_parts), w)).
      { unfold extract_page, page_extract_text, bind, lift, ret.
        rewrite Hp. now destruct (truthy_value v). }
      rewrite (for_each_cons _ _ _ _ _ _ _ Hstep). apply IH; [lia | assumption].
    + exists e. apply for_each_raise.
      unfold extract_page, page_extract_text, bind, lift. now rewrite Hp.
Qed.

(** [extract_text] computes the specified text, never raises, and writes
    exactly one log line. *)
Lemma extract_text_run (pdf_path : string) (max_pages : Z) (w : world) :
  exists ev,
    extract_text pdf_path max_pages w =
    (Ok (Spec.extract_text (lookup pdf_path (dir w)) max_pages),
     logged w [ev]) /\
    extraction_event pdf_path ev.
Proof.
  unfold extract_text, try_except, bind at 1, pdfplumber_open, bind at 1.
  destruct (lookup pdf_path (dir w)) as [[e|pages]|] eqn:Hf; simpl.
  - eexists; split; [reflexivity | right; eauto].
  - set (total := Py.min (Z.of_nat (List.length pages)) max_pages).
    assert (Htot : Z.to_nat total =
                   Z.to_nat (Z.min (Z.of_nat (List.length pages)) max_pages))
      by (unfold total; now rewrite py_min_spec).
    unfold Spec.leading_pages. rewrite <- Htot.
    assert (Hlen : (0 + Z.to_nat total <= List.length pages)%nat)
      by (rewrite Htot; lia).
    unfold range, bind.
    destruct (forallb Spec.page_ok (firstn (Z.to_nat total) pages)) eqn:Hok.
    + rewrite (extract_loop_ok pages w _ 0 [] Hlen Hok). simpl.
      eexists; split; [reflexivity | left; eauto].
    + destruct (extract_loop_raise pages w _ 0 [] Hlen Hok) as [e He].
      rewrite He. simpl.
      eexists; split; [reflexivity | right; eauto].
  - eexists; split; [reflexivity | right; eauto].
Qed.

Lemma reads_only_extract_page (pages : list page) (i : nat)
      (text_parts : list string) :
  reads_only (extract_page pages i text_parts).
Proof.
  unfold extract_page, page_extract_text.
  apply reads_only_bind.
  - destruct (nth_error pages i); auto with reads_only.
  - intros v. destruct (truthy_value v); auto with reads_only.
Qed.

Lemma reads_only_extract_text (pdf_path : string) (max_pages : Z) :
  reads_only (extract_text pdf_path max_pages).
Proof.
  unfold extract_text. reads_only_seq.
  - apply reads_only_try_except.
    + reads_only_seq. reads_only_seq.
      * apply reads_only_for_each. intros i parts.
        apply reads_only_extract_page.
      * reads_only_seq. auto with reads_only.
    + intros e. reads_only_seq. auto with reads_only.
  - destruct a; auto with reads_only.
Qed.

(** C4. For every document path and every [max_pages >= 1] the extractor
    never raises.  It returns the newline-joined concatenation, in page
    order, of the non-empty texts of the first [min(available,
    max_pages)] pages, and the empty string when the document cannot be
    opened, a page fails, or no page yields text.  It writes one log
    line and leaves the folder as it is. *)
Theorem extract_text_total_joins_leading_pages
        (w : world) (pdf_path : string) (max_pages : Z) :
  (1 <= max_pages)%Z ->
  exists text ev,
    extract_text pdf_path max_pages w = (Ok text, logged w [ev]) /\
    extraction_event pdf_path ev /\
    match lookup pdf_path (dir w) with
    | Some (Document pages) =>
      let ps := Spec.leading_pages pages max_pages in
      (forallb Spec.page_ok ps = true ->
       text = join newline (Spec.non_empty_page_texts ps)) /\
      (forallb Spec.page_ok ps = false -> text = "") /\
      (Spec.non_empty_page_texts ps = [] -> text = "")
    | _ => text = ""
    end.
Proof.
  intros _.
  destruct (extract_text_run pdf_path max_pages w) as (ev & Hrun & Hev).
  exists (Spec.extract_text (lookup pdf_path (dir w)) max_pages), ev.
  repeat split; try assumption.
  destruct (lookup pdf_path (dir w)) as [[e|pages]|]; simpl; try reflexivity.
  destruct (forallb Spec.page_ok (Spec.leading_pages pages max_pages));
    repeat split; intros H; try reflexivity; try discriminate.
  now rewrite H.
Qed.

Lemma extract_text_total_joins_leading_pages_witness :
  (1 <= 2)%Z /\
  exists text ev,
    extract_text "a.pdf" 2
                 (folder [("a.pdf",
                           Document [Ok (Some "first"); Ok None;
                                     Ok (Some "third")])]) =
    (Ok text,
     logged (folder [("a.pdf",
                      Document [Ok (Some "first"); Ok None;
                                Ok (Some "third")])]) [ev]) /\
    extraction_event "a.pdf" ev /\
    match lookup "a.pdf"
                 (dir (folder [("a.pdf",
                                Document [Ok (Some "first"); Ok None;
                                          Ok (Some "third")])])) with
    | Some (Document pages) =>
      let ps := Spec.leading_pages pages 2 in
      (forallb Spec.page_ok ps = true ->
       text = join newline (Spec.non_empty_page_texts ps)) /\
      (forallb Spec.page_ok ps = false -> text = "") /\
      (Spec.non_empty_page_texts ps = [] -> text = "")
    | _ => text = ""
    end.
Proof.
  split; [lia |].
  apply (extract_text_total_joins_leading_pages
           (folder [("a.pdf",
                     Document [Ok (Some "first"); Ok None;
                               Ok (Some "third")])]) "a.pdf" 2).
  lia.
Defined.

(** The claim C9 as it is worded fails on a file that cannot be opened:
    with [max_pages = 0] the extractor still reports the failure as an
    error. *)
Lemma extract_text_zero_pages_unreadable_reports_error :
  ~ (forall (w : world) (pdf_path : string) (max_pages : Z),
        (max_pages <= 0)%Z ->
        fst (extract_text pdf_path max_pages w) = Ok "" /\
        no_error_reported w (snd (extract_text pdf_path max_pages w))).
Proof.
  intros H.
  destruct (H (folder [("scan.pdf", Unreadable PdfError)]) "scan.pdf" 0%Z)
    as [_ Hno]; [lia |].
  apply (Hno (MsgExtractFailed "scan.pdf" PdfError)).
  simpl. now left.
Qed.

(** C9, amended.  For every [max_pages <= 0] the extractor returns the
    empty string without raising.  When the document can be opened it
    processes zero pages and reports no error: the only line written is
    the success line, with the non-positive page count.  When the
    document cannot be opened the failure is reported as an error. *)
Theorem extract_text_non_positive_max_pages
        (w : world) (pdf_path : string) (max_pages : Z) :
  (max_pages <= 0)%Z ->
  match lookup pdf_path (dir w) with
  | Some (Document pages) =>
    let total := Z.min (Z.of_nat (List.length pages)) max_pages in
    range total = [] /\
    extract_text pdf_path max_pages w =
    (Ok "", logged w [Log INFO (MsgExtracted total pdf_path)]) /\
    no_error_reported w (snd (extract_text pdf_path max_pages w))
  | Some (Unreadable e) =>
    extract_text pdf_path max_pages w =
    (Ok "", logged w [Log ERROR (MsgExtractFailed pdf_path e)])
  | None =>
    extract_text pdf_path max_pages w =
    (Ok "", logged w [Log ERROR (MsgExtractFailed pdf_path OSError)])
  end.
Proof.
  intros Hmax.
  destruct (lookup pdf_path (dir w)) as [[e|pages]|] eqn:Hf.
  - unfold extract_text, try_except, bind, pdfplumber_open. now rewrite Hf.
  - assert (Hrange : range (Z.min (Z.of_nat (List.length pages)) max_pages)
                     = []).
    { unfold range.
      replace (Z.to_nat (Z.min (Z.of_nat (List.length pages)) max_pages))
        with 0%nat by lia.
      reflexivity. }
    assert (Hrun : extract_text pdf_path max_pages w =
                   (Ok "",
                    logged w [Log INFO
                                  (MsgExtracted
                                     (Z.min (Z.of_nat (List.length pages))
                                            max_pages) pdf_path)])).
    { unfold extract_text, try_except, bind, pdfplumber_open.
      rewrite Hf, py_min_spec, Hrange. reflexivity. }
    cbv zeta. repeat split; try assumption.
    rewrite Hrun. intros m Hin. simpl in Hin.
    apply in_app_or in Hin. destruct Hin as [Hin | [Hin | []]].
    + assumption.
    + discriminate.
  - unfold extract_text, try_except, bind, pdfplumber_open. now rewrite Hf.
Qed.

Lemma extract_text_non_positive_max_pages_witness :
  (-3 <= 0)%Z /\
  match lookup "a.pdf" (dir (folder [("a.pdf", document ["text"])])) with
  | Some (Document pages) =>
    let total := Z.min (Z.of_nat (List.length pages)) (-3) in
    range total = [] /\
    extract_text "a.pdf" (-3) (folder [("a.pdf", document ["text"])]) =
    (Ok "",
     logged (folder [("a.pdf", document ["text"])])
            [Log INFO (MsgExtracted total "a.pdf")]) /\
    no_error_reported
      (folder [("a.pdf", document ["text"])])
      (snd (extract_text "a.pdf" (-3)
                         (folder [("a.pdf", document ["text"])])))
  | Some (Unreadable e) =>
    extract_text "a.pdf" (-3) (folder [("a.pdf", document ["text"])]) =
    (Ok "",
     logged (folder [("a.pdf", document ["text"])])
            [Log ERROR (MsgExtractFailed "a.pdf" e)])
  | None =>
    extract_text "a.pdf" (-3) (folder [("a.pdf", document ["text"])]) =
    (Ok "",
     logged (folder [("a.pdf", document ["text"])])
            [Log ERROR (MsgExtractFailed "a.pdf" OSError)])
  end.
Proof.
  split; [lia |].
  apply (extract_text_non_positive_max_pages
           (folder [("a.pdf", document ["text"])]) "a.pdf" (-3)).
  lia.
Defined.

(* ================================================================== *)
(** * [str.format] *)

Section FormatLemmas.
Variable py : runtime.
Variable args : list value.
Variable kwargs : list (string * value).

Lemma is_brace_false (c : ascii) :
  is_brace c = false ->
  Ascii.eqb c "{" = false /\ Ascii.eqb c "}" = false.
Proof.
  unfold is_brace. intros H. now apply orb_false_iff in H.
Qed.

Lemma is_special_false (c : ascii) :
  Format.is_special c = false ->
  Ascii.eqb c ":" = false.
Proof.
  unfold Format.is_special. intros H.
  apply orb_false_iff in H. apply H.
Qed.

Lemma render_literal_char (c : ascii) (rest out : string)
      (an : auto_number) :
  is_brace c = false ->
  Format.render py args kwargs (String c rest) Format.Literal out an =
  Format.render py args kwargs rest Format.Literal
                (out ++ String c EmptyString) an.
Proof.
  intros H. destruct (is_brace_false _ H) as [Ho Hc].
  cbn [Format.render]. now rewrite Ho, Hc.
Qed.

Lemma render_literal (s : string) :
  forall rest out an,
    brace_free s = true ->
    Format.render py args kwargs (s ++ rest) Format.Literal out an =
    Format.render py args kwargs rest Format.Literal (out ++ s) an.
Proof.
  induction s as [|c s IH]; intros rest out an H.
  - simpl. now rewrite append_empty_r.
  - simpl in H. apply andb_true_iff in H. destruct H as [Hc Hs].
    apply negb_true_iff in Hc.
    change (String c s ++ rest) with (String c (s ++ rest)).
    rewrite render_literal_char by assumption.
    rewrite IH by assumption.
    now rewrite append_assoc.
Qed.

Lemma render_doubled (c : ascii) (rest out : string) (an : auto_number) :
  is_brace c = true ->
  Format.render py args kwargs (String c (String c rest)) Format.Literal
                out an =
  Format.render py args kwargs rest Format.Literal
                (out ++ String c EmptyString) an.
Proof.
  unfold is_brace. intros H. apply orb_true_iff in H.
  destruct H as [H | H]; apply Ascii.eqb_eq in H; subst c; reflexivity.
Qed.

(** An opening brace that is not doubled starts a replacement field. *)
Lemma render_open (body out : string) (an : auto_number) :
  body <> "" -> (forall r, body <> String "{" r) ->
  Format.render py args kwargs (String "{" body) Format.Literal out an =
  Format.render py args kwargs body (Format.Field "") out an.
Proof.
  intros Hne Hnb. destruct body as [|c body]; [congruence|].
  cbn [Format.render]. cbn [Ascii.eqb Bool.eqb].
  destruct (Ascii.eqb_spec c "{") as [->|_]; [|reflexivity].
  exfalso. now apply (Hnb body).
Qed.

Lemma render_field_char (c : ascii) (rest name out : string)
      (an : auto_number) :
  is_brace c = false -> Format.is_special c = false ->
  Format.render py args kwargs (String c rest) (Format.Field name) out an =
  Format.render py args kwargs rest
                (Format.Field (name ++ String c EmptyString)) out an.
Proof.
  intros Hb Hs. destruct (is_brace_false _ Hb) as [Ho Hc].
  cbn [Format.render]. now rewrite Ho, Hc, (is_special_false _ Hs), Hs.
Qed.

(** The plain part of a field name is read to its end. *)
Lemma render_field_name (name : string) :
  forall acc rest out an,
    plain_name name = true ->
    Format.render py args kwargs (name ++ rest) (Format.Field acc) out an =
    Format.render py args kwargs rest (Format.Field (acc ++ name)) out an.
Proof.
  induction name as [|c name IH]; intros acc rest out an H.
  - simpl. now rewrite append_empty_r.
  - simpl in H. apply andb_true_iff in H. destruct H as [Hc Hname].
    apply andb_true_iff in Hc. destruct Hc as [Hb Hs].
    apply negb_true_iff in Hb. apply negb_true_iff in Hs.
    change (String c name ++ rest) with (String c (name ++ rest)).
    rewrite render_field_char by assumption.
    rewrite IH by assumption.
    now rewrite append_assoc.
Qed.

Lemma format_value_empty_spec (v : value) :
  Format.format_value py v "" = Ok (str v).
Proof. now destruct v. Qed.

Lemma output_markup_empty_spec (name : string) (an : auto_number) :
  Format.output_markup py args kwargs name "" an =
  match Format.get_field py args kwargs name an with
  | Raise e => Raise e
  | Ok (v, an') => Ok (str v, an')
  end.
Proof.
  unfold Format.output_markup.
  destruct (Format.get_field py args kwargs name an) as [[v an']|e];
    [|reflexivity].
  now rewrite format_value_empty_spec.
Qed.

Lemma render_field (name : string) :
  forall acc rest out an,
    plain_name name = true ->
    Format.render py args kwargs (name ++ String "}" rest)
                  (Format.Field acc) out an =
    match Format.get_field py args kwargs (acc ++ name) an with
    | Raise e => Raise e
    | Ok (v, an') =>
      Format.render py args kwargs rest Format.Literal (out ++ str v) an'
    end.
Proof.
  intros acc rest out an H.
  rewrite render_field_name by assumption.
  cbn [Format.render]. cbn [Ascii.eqb Bool.eqb].
  rewrite output_markup_empty_spec.
  now destruct (Format.get_field py args kwargs (acc ++ name) an)
    as [[v an']|e].
Qed.

(** The format specification is read up to the closing brace. *)
Lemma render_specification (spec : string) :
  forall name acc rest out an,
    brace_free spec = true ->
    Format.render py args kwargs (spec ++ String "}" rest)
                  (Format.Specification name acc) out an =
    match Format.output_markup py args kwargs name (acc ++ spec) an with
    | Raise e => Raise e
    | Ok (s, an') =>
      Format.render py args kwargs rest Format.Literal (out ++ s) an'
    end.
Proof.
  induction spec as [|c spec IH]; intros name acc rest out an H.
  - simpl. now rewrite append_empty_r.
  - simpl in H. apply andb_true_iff in H. destruct H as [Hc Hspec].
    apply negb_true_iff in Hc. destruct (is_brace_false _ Hc) as [Ho Hcl].
    change (String c spec ++ String "}" rest)
      with (String c (spec ++ String "}" rest)).
    cbn [Format.render]. rewrite Ho, Hcl.
    rewrite IH by assumption.
    now rewrite append_assoc.
Qed.

(** A field [{name:spec}] with a plain name and a specification without
    braces. *)
Lemma render_field_with_specification (name spec rest out : string)
      (an : auto_number) :
  plain_name name = true -> brace_free spec = true ->
  Format.render py args kwargs
                (name ++ String ":" (spec ++ String "}" rest))
                (Format.Field "") out an =
  match Format.output_markup py args kwargs name spec an with
  | Raise e => Raise e
  | Ok (s, an') =>
    Format.render py args kwargs rest Format.Literal (out ++ s) an'
  end.
Proof.
  intros Hname Hspec.
  rewrite render_field_name by assumption.
  cbn [Format.render]. cbn [Ascii.eqb Bool.eqb].
  now rewrite render_specification by assumption.
Qed.

(** A template [pre{name}post] with brace-free literal text around one
    plain field. *)
Lemma format_single_field (pre name post : string) :
  brace_free pre = true -> plain_name name = true ->
  brace_free post = true ->
  Format.format py (pre ++ "{" ++ name ++ "}" ++ post) args kwargs =
  match Format.get_field py args kwargs name (mkAuto ANS_INIT 0)
  with
  | Raise e => Raise e
  | Ok (v, _) => Ok (pre ++ str v ++ post)
  end.
Proof.
  intros Hpre Hname Hpost. unfold Format.format.
  rewrite render_literal by assumption.
  change ("{" ++ name ++ "}" ++ post)
    with (String "{" (name ++ String "}" post)).
  rewrite render_open.
  - rewrite render_field by assumption. simpl.
    destruct (Format.get_field py args kwargs name _) as [[v an']|e];
      [|reflexivity].
    rewrite <- (append_empty_r post) at 1.
    rewrite render_literal by assumption. simpl.
    now rewrite append_assoc.
  - destruct name; discriminate.
  - intros r E. destruct name as [|c name]; [discriminate|].
    simpl in Hname. injection E as Ec _. subst c. discriminate.
Qed.

End FormatLemmas.

(** ** Field names that are numbers *)

Lemma ascii_digit_is_plain (py : runtime) (c : ascii) (d : Z) :
  (Format.byte c <? 128)%Z = true ->
  Format.to_decimal py (Format.byte c) = Some d ->
  negb (is_brace c) && negb (Format.is_special c) = true.
Proof.
  destruct c as [[] [] [] [] [] [] [] []]; intros H1 H2;
    try discriminate H1; try discriminate H2; reflexivity.
Qed.

Lemma high_byte_is_plain (c : ascii) :
  (Format.byte c <? 128)%Z = false ->
  negb (is_brace c) && negb (Format.is_special c) = true.
Proof.
  destruct c as [[] [] [] [] [] [] [] []]; intros H;
    try discriminate H; reflexivity.
Qed.

Lemma continuation_is_high (n : Z) :
  Format.is_continuation n = true -> (n <? 128)%Z = false.
Proof.
  unfold Format.is_continuation. intros H.
  apply andb_true_iff in H. destruct H as [H _].
  apply Z.leb_le in H. apply Z.ltb_ge. exact H.
Qed.

Lemma get_integer_from_cons (py : runtime) (c : Z) (cs : list Z)
      (acc z : Z) :
  Format.get_integer_from py (c :: cs) acc = Ok (Some z) ->
  exists d,
    Format.to_decimal py c = Some d /\
    Format.get_integer_from py cs (acc * 10 + d) = Ok (Some z).
Proof.
  cbn [Format.get_integer_from].
  destruct (Format.to_decimal py c) as [d|]; [|discriminate].
  destruct (_ >? _)%Z; [discriminate|]. eauto.
Qed.

(** A name that reads as a number holds digits only, so none of the
    characters that end a field name. *)
Lemma code_points_number_plain (py : runtime) (s : string) :
  forall cp more cs acc z,
    Format.code_points_from s cp more = Some cs ->
    Format.get_integer_from py cs acc = Ok (Some z) ->
    plain_name s = true.
Proof.
  induction s as [|b s IH]; intros cp more cs acc z Hcs Hint;
    [reflexivity|].
  cbn [plain_name string_forallb].
  fold (plain_name s).
  cbn [Format.code_points_from] in Hcs.
  destruct more as [|more].
  - destruct (Format.byte b <? 128)%Z eqn:Hascii.
    + destruct (Format.code_points_from s 0 0) as [cs'|] eqn:Hcs';
        [|discriminate].
      injection Hcs as <-.
      destruct (get_integer_from_cons _ _ _ _ _ Hint) as (d & Hd & Hrest).
      rewrite (ascii_digit_is_plain py b d Hascii Hd).
      eapply IH; eassumption.
    + rewrite (high_byte_is_plain b Hascii).
      destruct (Format.byte b <? 192)%Z; [discriminate|].
      destruct (Format.byte b <? 224)%Z; [eapply IH; eassumption|].
      destruct (Format.byte b <? 240)%Z; [eapply IH; eassumption|].
      destruct (Format.byte b <? 248)%Z; [eapply IH; eassumption|].
      discriminate.
  - destruct (Format.is_continuation (Format.byte b)) eqn:Hcont;
      [|discriminate].
    rewrite (high_byte_is_plain b (continuation_is_high _ Hcont)).
    destruct more as [|more].
    + destruct (Format.code_points_from s 0 0) as [cs'|] eqn:Hcs';
        [|discriminate].
      injection Hcs as <-.
      destruct (get_integer_from_cons _ _ _ _ _ Hint) as (d & Hd & Hrest).
      eapply IH; eassumption.
    + eapply IH; eassumption.
Qed.

Lemma is_index_plain (py : runtime) (name : string) (i : nat) :
  is_index py name i -> plain_name name = true /\ truthy name = true.
Proof.
  unfold is_index, Format.get_integer, Format.code_points. intros H.
  destruct (Format.code_points_from name 0 0) as [cs|] eqn:Hcs;
    [|discriminate].
  destruct cs as [|c cs]; [discriminate|].
  split.
  - eapply code_points_number_plain; eassumption.
  - destruct name; [discriminate | reflexivity].
Qed.

Lemma sequence_get_item_nat (args : list value) (i : nat) :
  Format.sequence_get_item args (Z.of_nat i) = nth_error args i.
Proof.
  unfold Format.sequence_get_item. rewrite Nat2Z.id.
  destruct (Z.ltb_spec (Z.of_nat i) (Z.of_nat (List.length args)));
    [reflexivity|].
  symmetry. apply nth_error_None. lia.
Qed.

(** A numbered field, unless automatic numbering is in use. *)
Lemma get_field_slot (py : runtime) (name : string) (i : nat)
      (args : list value) (kwargs : list (string * value))
      (an : auto_number) :
  is_index py name i -> an_mode an <> ANS_AUTO ->
  Format.get_field py args kwargs name an =
  match nth_error args i with
  | None => Raise IndexError
  | Some v => Ok (v, mkAuto ANS_MANUAL (an_field_number an))
  end.
Proof.
  intros H Hmode. destruct (is_index_plain _ _ _ H) as [_ Hne].
  unfold Format.get_field. rewrite H, Hne.
  cbn [negb]. rewrite sequence_get_item_nat.
  destruct (an_mode an); [reflexivity | congruence | reflexivity].
Qed.

Lemma get_field_index (py : runtime) (name : string) (i : nat)
      (args : list value) (kwargs : list (string * value)) :
  is_index py name i ->
  Format.get_field py args kwargs name (mkAuto ANS_INIT 0) =
  match nth_error args i with
  | None => Raise IndexError
  | Some v => Ok (v, mkAuto ANS_MANUAL 0)
  end.
Proof.
  intros H.
  now rewrite (get_field_slot py name i args kwargs (mkAuto ANS_INIT 0) H).
Qed.

Lemma get_field_keyword (py : runtime) (name : string) (args : list value)
      (kwargs : list (string * value)) (an : auto_number) :
  is_keyword py name ->
  Format.get_field py args kwargs name an =
  match Format.kwargs_get name kwargs with
  | None => Raise KeyError
  | Some v => Ok (v, an)
  end.
Proof.
  intros (_ & Hne & Hint). unfold Format.get_field.
  now rewrite Hint, Hne.
Qed.

(** The empty field name, unless manual numbering is in use. *)
Lemma get_field_next (py : runtime) (args : list value)
      (kwargs : list (string * value)) (an : auto_number) :
  an_mode an <> ANS_MANUAL ->
  Format.get_field py args kwargs "" an =
  match nth_error args (an_field_number an) with
  | None => Raise IndexError
  | Some v => Ok (v, mkAuto ANS_AUTO (S (an_field_number an)))
  end.
Proof.
  intros Hmode. unfold Format.get_field.
  change (Format.get_integer py "") with (@Ok (option Z) None).
  cbn [truthy negb]. rewrite sequence_get_item_nat.
  destruct (an_mode an); [reflexivity | reflexivity | congruence].
Qed.

Lemma format_positional (py : runtime) (args : list value)
      (kwargs : list (string * value)) (pre name post : string)
      (i : nat) (v : value) :
  brace_free pre = true -> brace_free post = true ->
  is_index py name i -> nth_error args i = Some v ->
  Format.format py (pre ++ "{" ++ name ++ "}" ++ post) args kwargs =
  Ok (pre ++ str v ++ post).
Proof.
  intros Hpre Hpost Hidx Hv.
  destruct (is_index_plain _ _ _ Hidx) as [Hplain _].
  rewrite format_single_field by assumption.
  now rewrite (get_field_index _ _ _ _ _ Hidx), Hv.
Qed.

Lemma format_keyword (py : runtime) (args : list value)
      (kwargs : list (string * value)) (pre name post : string) (v : value) :
  brace_free pre = true -> brace_free post = true ->
  is_keyword py name -> Format.kwargs_get name kwargs = Some v ->
  Format.format py (pre ++ "{" ++ name ++ "}" ++ post) args kwargs =
  Ok (pre ++ str v ++ post).
Proof.
  intros Hpre Hpost Hkw Hv.
  rewrite format_single_field by (assumption || apply Hkw).
  now rewrite (get_field_keyword _ _ _ _ _ Hkw), Hv.
Qed.

(* ================================================================== *)
(** * Templates made of text and plain placeholders *)

Lemma template_of_app (ps qs : list piece) :
  template_of (ps ++ qs) = template_of ps ++ template_of qs.
Proof.
  induction ps as [|p ps IH]; [reflexivity|].
  simpl. now rewrite IH, append_assoc.
Qed.

Lemma manual_app (ps qs : list piece) :
  manual (ps ++ qs) = manual ps && manual qs.
Proof. apply forallb_app. Qed.

Lemma substituted_app (args : list value) (kwargs : list (string * value))
      (ps qs : list piece) :
  manual ps = true ->
  forall next,
    substituted args kwargs (ps ++ qs) next =
    substituted args kwargs ps next ++ substituted args kwargs qs next.
Proof.
  induction ps as [|p ps IH]; intros Hm next; [reflexivity|].
  simpl in Hm. apply andb_true_iff in Hm. destruct Hm as [Hp Hm].
  destruct p; try discriminate Hp; simpl;
    rewrite (IH Hm); now rewrite ?append_assoc.
Qed.

Lemma resolved_app (py : runtime) (args : list value)
      (kwargs : list (string * value)) (ps qs : list piece) :
  manual ps = true ->
  forall next,
    resolved py args kwargs (ps ++ qs) next ->
    resolved py args kwargs ps next /\ resolved py args kwargs qs next.
Proof.
  induction ps as [|p ps IH]; intros Hm next H; [now split|].
  simpl in Hm. apply andb_true_iff in Hm. destruct Hm as [Hp Hm].
  destruct p; try discriminate Hp; simpl in *.
  - destruct H as [H1 H]. destruct (IH Hm _ H). auto.
  - destruct H as [H1 H]. destruct (IH Hm _ H). auto.
  - destruct H as (H1 & H2 & H). destruct (IH Hm _ H). auto.
  - destruct H as (H1 & H2 & H). destruct (IH Hm _ H). auto.
Qed.

(** Numbered placeholders never switch to automatic numbering. *)
Lemma manual_numbering (ps : list piece) :
  manual ps = true ->
  forall an,
    an_mode an <> ANS_AUTO ->
    an_mode (fold_left numbering_after ps an) <> ANS_AUTO /\
    an_field_number (fold_left numbering_after ps an) = an_field_number an.
Proof.
  induction ps as [|p ps IH]; intros Hm an Han; [now split|].
  simpl in Hm. apply andb_true_iff in Hm. destruct Hm as [Hp Hm].
  destruct p; try discriminate Hp; cbn [fold_left numbering_after];
    try (now apply IH).
  destruct (IH Hm (mkAuto ANS_MANUAL (an_field_number an))) as [H1 H2];
    [discriminate|].
  split; [exact H1 | exact H2].
Qed.

Lemma coherent_tail (md : an_state) (p : piece) (ps : list piece) :
  coherent md (p :: ps) ->
  coherent (an_mode (numbering_after (mkAuto md 0) p)) ps.
Proof.
  unfold coherent, manual, automatic.
  destruct md, p; simpl; intros H; try assumption;
    try (destruct H as [H | H]; (assumption || discriminate));
    try discriminate.
Qed.

Section Pieces.
Variable py : runtime.
Variable args : list value.
Variable kwargs : list (string * value).

Lemma render_placeholder (name rest out : string) (an : auto_number) :
  plain_name name = true ->
  Format.render py args kwargs (String "{" (name ++ String "}" rest))
                Format.Literal out an =
  match Format.get_field py args kwargs name an with
  | Raise e => Raise e
  | Ok (v, an') =>
    Format.render py args kwargs rest Format.Literal (out ++ str v) an'
  end.
Proof.
  intros Hname. rewrite render_open.
  - now rewrite render_field.
  - destruct name; discriminate.
  - intros r E. destruct name as [|c name]; [discriminate|].
    simpl in Hname. injection E as Ec _. subst c. discriminate.
Qed.

(** A template of resolved pieces renders piece by piece. *)
Lemma render_pieces (ps : list piece) :
  forall rest out an,
    resolved py args kwargs ps (an_field_number an) ->
    coherent (an_mode an) ps ->
    Format.render py args kwargs (template_of ps ++ rest)
                  Format.Literal out an =
    Format.render py args kwargs rest Format.Literal
                  (out ++ substituted args kwargs ps (an_field_number an))
                  (fold_left numbering_after ps an).
Proof.
  induction ps as [|p ps IH]; intros rest out an Hres Hco.
  - simpl. now rewrite append_empty_r.
  - pose proof (coherent_tail _ _ _ Hco) as Htail.
    cbn [template_of]. rewrite append_assoc.
    destruct p as [s | c | name k | name |]; cbn [piece_source].
    + destruct Hres as [Hs Hres].
      rewrite render_literal by assumption.
      rewrite IH by assumption.
      cbn [substituted fold_left numbering_after].
      now rewrite append_assoc.
    + destruct Hres as [Hc Hres].
      change (String c (String c "") ++ template_of ps ++ rest)
        with (String c (String c (template_of ps ++ rest))).
      rewrite render_doubled by assumption.
      rewrite IH by assumption.
      cbn [substituted fold_left numbering_after].
      now rewrite append_assoc.
    + destruct Hres as (Hidx & Hk & Hres).
      destruct (is_index_plain _ _ _ Hidx) as [Hplain _].
      change (("{" ++ name ++ "}") ++ template_of ps ++ rest)
        with (String "{" ((name ++ "}") ++ template_of ps ++ rest)).
      rewrite append_assoc.
      change ("}" ++ template_of ps ++ rest)
        with (String "}" (template_of ps ++ rest)).
      rewrite render_placeholder by assumption.
      rewrite (get_field_slot py name k args kwargs an Hidx).
      * destruct (nth_error args k) as [v|] eqn:Hv.
        -- rewrite IH; [| assumption | exact Htail].
           cbn [substituted fold_left numbering_after an_field_number].
           replace (nth k args None) with v
             by (symmetry; now apply nth_error_nth).
           now rewrite append_assoc.
        -- apply nth_error_None in Hv. lia.
      * intros E. unfold coherent in Hco. rewrite E in Hco. discriminate.
    + destruct Hres as (Hkw & Hv & Hres).
      change (("{" ++ name ++ "}") ++ template_of ps ++ rest)
        with (String "{" ((name ++ "}") ++ template_of ps ++ rest)).
      rewrite append_assoc.
      change ("}" ++ template_of ps ++ rest)
        with (String "}" (template_of ps ++ rest)).
      rewrite render_placeholder by apply Hkw.
      rewrite (get_field_keyword py name args kwargs an Hkw).
      destruct (Format.kwargs_get name kwargs) as [v|] eqn:Ev; [|congruence].
      rewrite IH by assumption.
      cbn [substituted fold_left numbering_after].
      now rewrite Ev, append_assoc.
    + destruct Hres as [Hn Hres].
      change ("{}" ++ template_of ps ++ rest)
        with (String "{" ("" ++ String "}" (template_of ps ++ rest))).
      rewrite render_placeholder by reflexivity.
      rewrite get_field_next.
      * destruct (nth_error args (an_field_number an)) as [v|] eqn:Hv.
        -- rewrite IH; [| assumption | exact Htail].
           cbn [substituted fold_left numbering_after an_field_number].
           replace (nth (an_field_number an) args None) with v
             by (symmetry; now apply nth_error_nth).
           now rewrite append_assoc.
        -- apply nth_error_None in Hv. lia.
      * intros E. unfold coherent in Hco. rewrite E in Hco. discriminate.
Qed.

(** The whole template. *)
Lemma format_pieces (ps : list piece) :
  resolved py args kwargs ps 0 ->
  manual ps = true \/ automatic ps = true ->
  Format.format py (template_of ps) args kwargs =
  Ok (substituted args kwargs ps 0).
Proof.
  intros Hres Hco. unfold Format.format.
  rewrite <- (append_empty_r (template_of ps)).
  now rewrite render_pieces.
Qed.

End Pieces.

(* ================================================================== *)
(** * Template rendering in the renamer *)

(** C7. If the rendered file name lacks the suffix [.pdf] (a literal,
    case-sensitive check) then [.pdf] is appended, and otherwise the
    name is left as it is.  A template that renders to [foo] gives
    [foo.pdf], one that renders to [foo.pdf] gives [foo.pdf], and
    [foo.PDF] does not count as having the suffix. *)
Theorem render_name_forces_pdf_suffix (py : runtime) (m : match_object) :
  (forall template rendered,
      Format.format py template (groups_1indexed m) (groupdict m)
      = Ok rendered ->
      (~ Spec.has_pdf_suffix rendered ->
       render_name py template m = Ok (rendered ++ ".pdf")) /\
      (Spec.has_pdf_suffix rendered ->
       render_name py template m = Ok rendered)) /\
  render_name py "foo" m = Ok "foo.pdf" /\
  render_name py "foo.pdf" m = Ok "foo.pdf" /\
  render_name py "foo.PDF" m = Ok "foo.PDF.pdf".
Proof.
  split; [|split; [|split]]; [| reflexivity ..].
  intros template rendered H. unfold render_name. rewrite H.
  split; intros Hs.
  - assert (E : endswith rendered ".pdf" = false).
    { apply endswith_false_iff. intros stem Hstem. apply Hs.
      now exists stem. }
    now rewrite E.
  - assert (E : endswith rendered ".pdf" = true)
      by (now apply endswith_iff).
    now rewrite E.
Qed.

Lemma render_name_forces_pdf_suffix_witness :
  render_name mini_runtime "INV_{1}" (mkMatch [Some "4521"] [])
  = Ok "INV_4521.pdf" /\
  render_name mini_runtime "INV_{1}.pdf" (mkMatch [Some "4521"] [])
  = Ok "INV_4521.pdf".
Proof.
  destruct (render_name_forces_pdf_suffix
              mini_runtime (mkMatch [Some "4521"] [])) as [H _].
  split.
  - apply (H "INV_{1}" "INV_4521"); [reflexivity |].
    intros [stem Hstem].
    assert (E : endswith "INV_4521" ".pdf" = true)
      by (apply endswith_iff; now exists stem).
    discriminate E.
  - apply (H "INV_{1}.pdf" "INV_4521.pdf"); [reflexivity |].
    now exists "INV_4521".
Defined.

(* ================================================================== *)
(** * The folder *)

Lemma lookup_remove_other (name x : string) (d : list (string * pdf_file)) :
  name <> x -> lookup name (remove x d) = lookup name d.
Proof.
  intros Hne. induction d as [|[n f] d IH]; [reflexivity|].
  unfold remove in *. simpl.
  destruct (String.eqb_spec n x) as [->|Hnx]; simpl.
  - destruct (String.eqb_spec x name) as [E|_]; [congruence | exact IH].
  - now rewrite IH.
Qed.

Lemma remove_absent (x : string) (d : list (string * pdf_file)) :
  lookup x d = None -> remove x d = d.
Proof.
  induction d as [|[n f] d IH]; intros H; [reflexivity|].
  unfold remove in *. simpl in *.
  destruct (String.eqb n x); [discriminate|]. simpl. now rewrite IH.
Qed.

Lemma lookup_rename_other (name src dst : string)
      (d : list (string * pdf_file)) :
  name <> src -> name <> dst ->
  lookup name (rename_entry src dst d) = lookup name d.
Proof.
  intros Hs Hd. induction d as [|[n f] d IH]; [reflexivity|].
  unfold rename_entry in *. simpl.
  destruct (String.eqb_spec n src) as [->|Hn]; simpl.
  - destruct (String.eqb_spec dst name) as [E|_]; [congruence|].
    destruct (String.eqb_spec src name) as [E|_]; [congruence | exact IH].
  - now rewrite IH.
Qed.

Lemma lookup_rename_dst (src dst : string) (d : list (string * pdf_file)) :
  lookup dst d = None ->
  lookup dst (rename_entry src dst d) = lookup src d.
Proof.
  induction d as [|[n f] d IH]; intros H; [reflexivity|].
  unfold rename_entry in *. simpl in *.
  destruct (String.eqb_spec n dst) as [->|Hn]; [discriminate|].
  destruct (String.eqb_spec n src) as [->|Hs]; simpl.
  - now rewrite String.eqb_refl.
  - destruct (String.eqb_spec n dst) as [E|_]; [congruence | now apply IH].
Qed.

(* ================================================================== *)
(** * One file of the batch *)

Lemma rename_error_uncaught (dst : string) :
  catches_template_error (rename_error dst) = false.
Proof.
  unfold rename_error. now destruct (contains_char NUL dst).
Qed.

Section OneFile.
Variable py : runtime.
Variable template : string.
Variable pdf : string.
Variable matched : nat.
Variable m : match_object.

Lemma try_rename_template_error (dry_run : bool) (e : exn) (w : world) :
  render_name py template m = Raise e ->
  catches_template_error e = true ->
  try_rename py template dry_run pdf matched m w =
  (Ok matched,
   logged w [Log ERROR (MsgTemplateError pdf e);
             Log INFO (MsgCaptured (groups m) (groupdict m))]).
Proof.
  intros Hr Hc. unfold try_rename, try_except, bind, lift.
  rewrite Hr, Hc. unfold logged; simpl. now rewrite <- app_assoc.
Qed.

Lemma try_rename_uncaught (dry_run : bool) (e : exn) (w : world) :
  render_name py template m = Raise e ->
  catches_template_error e = false ->
  try_rename py template dry_run pdf matched m w = (Raise e, w).
Proof.
  intros Hr Hc. unfold try_rename, try_except, bind, lift.
  now rewrite Hr, Hc.
Qed.

Lemma try_rename_invalid_name (dry_run : bool) (new_name : string)
      (w : world) :
  render_name py template m = Ok new_name ->
  contains_char "/" new_name = true ->
  try_rename py template dry_run pdf matched m w = (Raise ValueError, w).
Proof.
  intros Hr Hc. unfold try_rename, try_except, bind, lift, with_name.
  now rewrite Hr, Hc.
Qed.

Lemma try_rename_collision (dry_run : bool) (new_name : string)
      (f : pdf_file) (w : world) :
  render_name py template m = Ok new_name ->
  contains_char "/" new_name = false ->
  lookup new_name (dir w) = Some f ->
  new_name <> pdf ->
  try_rename py template dry_run pdf matched m w =
  (Ok matched, logged w [Log ERROR (MsgTargetExists pdf new_name)]).
Proof.
  intros Hr Hc Hl Hne. apply String.eqb_neq in Hne.
  unfold try_rename, try_except, bind, lift, with_name, path_exists, ret.
  now rewrite Hr, Hc, Hl, Hne.
Qed.

Lemma try_rename_preview (new_name : string) (w : world) :
  render_name py template m = Ok new_name ->
  contains_char "/" new_name = false ->
  lookup new_name (dir w) = None \/ new_name = pdf ->
  try_rename py template true pdf matched m w =
  (Ok (matched + 1)%nat, logged w [Log INFO (MsgRename true pdf new_name)]).
Proof.
  intros Hr Hc Hfree.
  unfold try_rename, try_except, bind, lift, with_name, path_exists, ret.
  rewrite Hr, Hc.
  destruct Hfree as [Hl | ->].
  - now rewrite Hl.
  - rewrite String.eqb_refl, andb_false_r. reflexivity.
Qed.

Lemma try_rename_apply (new_name : string) (w : world) :
  render_name py template m = Ok new_name ->
  contains_char "/" new_name = false ->
  lookup new_name (dir w) = None \/ new_name = pdf ->
  try_rename py template false pdf matched m w =
  match path_rename pdf new_name
                    (logged w [Log INFO (MsgRename false pdf new_name)])
  with
  | (Ok _, w') => (Ok (matched + 1)%nat, w')
  | (Raise e, w') => (Raise e, w')
  end.
Proof.
  intros Hr Hc Hfree.
  assert (Hguard :
            (match lookup new_name (dir w) with
             | Some _ => true
             | None => false
             end && negb (String.eqb new_name pdf)) = false).
  { destruct Hfree as [Hl | ->].
    - now rewrite Hl.
    - now rewrite String.eqb_refl, andb_false_r. }
  unfold try_rename, try_except, bind, lift, with_name, path_exists, ret.
  rewrite Hr, Hc, Hguard. simpl.
  unfold path_rename. simpl.
  destruct (os_refuses w pdf new_name);
    [now rewrite rename_error_uncaught|].
  destruct (lookup pdf (dir w)); [|reflexivity].
  destruct (String.eqb pdf new_name); reflexivity.
Qed.

End OneFile.

Lemma process_pdf_run (max_pages : Z) (pdf : string) (w : world) :
  exists ev,
    extraction_event pdf ev /\
    forall py rx template dry_run matched,
      process_pdf py rx template max_pages dry_run pdf matched w =
      search_and_rename py rx template dry_run pdf matched
                        (Spec.extract_text (lookup pdf (dir w)) max_pages)
                        (logged w [ev]).
Proof.
  destruct (extract_text_run pdf max_pages w) as (ev & Hrun & Hev).
  exists ev. split; [assumption|]. intros.
  unfold process_pdf, bind. now rewrite Hrun.
Qed.

(* ================================================================== *)
(** * The batch *)

Lemma rename_from_text_bad_pattern (py : runtime)
      (pattern template : string) (max_pages : Z) (dry_run : bool)
      (w : world) :
  re_compile py pattern = Raise ReError ->
  rename_from_text py pattern template max_pages dry_run w =
  (Ok 0%nat, logged w [Log ERROR MsgInvalidRegex]).
Proof.
  intros H. unfold rename_from_text, try_except, bind, lift.
  now rewrite H.
Qed.

Lemma rename_from_text_compile_raises (py : runtime)
      (pattern template : string) (max_pages : Z) (dry_run : bool)
      (w : world) (e : exn) :
  re_compile py pattern = Raise e -> e <> ReError ->
  rename_from_text py pattern template max_pages dry_run w = (Raise e, w).
Proof.
  intros H He. unfold rename_from_text, try_except, bind, lift.
  rewrite H. destruct e; try reflexivity. congruence.
Qed.

Lemma rename_from_text_compiled (py : runtime) (rx : pattern_object)
      (pattern template : string) (max_pages : Z) (dry_run : bool)
      (w : world) :
  re_compile py pattern = Ok rx ->
  rename_from_text py pattern template max_pages dry_run w =
  rename_with py rx pattern template max_pages dry_run w.
Proof.
  intros H. unfold rename_from_text, try_except, bind, lift.
  now rewrite H.
Qed.

Lemma rename_from_text_no_candidates (py : runtime) (rx : pattern_object)
      (pattern template : string) (max_pages : Z) (dry_run : bool)
      (w : world) :
  re_compile py pattern = Ok rx ->
  candidates w = [] ->
  rename_from_text py pattern template max_pages dry_run w =
  (Ok 0%nat, logged w [Log WARNING MsgNoPdfFound]).
Proof.
  intros H Hc. rewrite (rename_from_text_compiled _ _ _ _ _ _ _ H).
  unfold rename_with, bind, glob_pdf.
  unfold candidates in Hc. now rewrite Hc.
Qed.

(** A batch with candidates is the header, the loop, and the footer. *)
Lemma rename_from_text_run (py : runtime) (rx : pattern_object)
      (pattern template : string) (max_pages : Z) (dry_run : bool)
      (w : world) :
  re_compile py pattern = Ok rx ->
  candidates w <> [] ->
  rename_from_text py pattern template max_pages dry_run w =
  match for_each (candidates w)
                 (process_pdf py rx template max_pages dry_run) 0%nat
                 (logged w (batch_header pattern template dry_run
                                         (List.length (candidates w))))
  with
  | (Ok matched, w') =>
    (Ok matched,
     logged w' (batch_footer dry_run matched (List.length (candidates w))))
  | (Raise e, w') => (Raise e, w')
  end.
Proof.
  intros H Hc. rewrite (rename_from_text_compiled _ _ _ _ _ _ _ H).
  unfold rename_with, glob_pdf.
  unfold bind at 1. fold (candidates w).
  destruct (candidates w) as [|pdf pdfs] eqn:E; [congruence|].
  set (loop := for_each (pdf :: pdfs) _ _).
  unfold bind, logger_info, print, emit, ret; simpl.
  unfold logged, batch_header; simpl.
  repeat rewrite <- app_assoc. simpl.
  destruct (loop _) as [[matched|e] w']; [|reflexivity].
  destruct dry_run; simpl; repeat rewrite <- app_assoc; reflexivity.
Qed.

(** The claim C5 as it is worded fails on a pattern that [re.compile]
    refuses with an exception that is not [re.error]: a repetition count
    that is too large raises [OverflowError], which leaves the batch
    renamer although the folder holds no [*.pdf] file. *)
Lemma oversized_repetition_leaves_the_renamer :
  candidates (folder [("notes.txt", document ["Invoice #4521"])]) = [] /\
  rename_from_text mini_runtime "Invoice #\d{99999999999}" "INV_{1}.pdf" 1
                   true (folder [("notes.txt", document ["Invoice #4521"])])
  = (Raise OverflowError,
     folder [("notes.txt", document ["Invoice #4521"])]).
Proof. vm_compute. split; reflexivity. Qed.

(** C5, amended.  For every pattern that [re.compile] rejects with
    [re.error], whatever the folder holds, and for every pattern that
    compiles when the folder has no [*.pdf] entry, the batch renamer
    returns 0 and leaves the folder as it is: it stops before any file
    is extracted, having written a single log line.  The two conditions
    are reported by different lines: an error for the pattern, a warning
    for the empty candidate set.  When [re.compile] raises an exception
    of another class, that exception leaves the batch renamer before the
    folder is read and nothing is written; on a folder without
    candidates these are the only outcomes. *)
Theorem rename_from_text_aborts_before_any_file
        (py : runtime) (pattern template : string) (max_pages : Z)
        (dry_run : bool) (w : world) :
  (re_compile py pattern = Raise ReError ->
   rename_from_text py pattern template max_pages dry_run w =
   (Ok 0%nat, logged w [Log ERROR MsgInvalidRegex])) /\
  (forall rx,
      re_compile py pattern = Ok rx -> candidates w = [] ->
      rename_from_text py pattern template max_pages dry_run w =
      (Ok 0%nat, logged w [Log WARNING MsgNoPdfFound])) /\
  (forall e,
      re_compile py pattern = Raise e -> e <> ReError ->
      rename_from_text py pattern template max_pages dry_run w =
      (Raise e, w)) /\
  (candidates w = [] ->
   (exists ev,
       rename_from_text py pattern template max_pages dry_run w =
       (Ok 0%nat, logged w [ev])) \/
   (exists e,
       re_compile py pattern = Raise e /\ e <> ReError /\
       rename_from_text py pattern template max_pages dry_run w =
       (Raise e, w))) /\
  Log ERROR MsgInvalidRegex <> Log WARNING MsgNoPdfFound.
Proof.
  split; [|split; [|split; [|split]]].
  - apply rename_from_text_bad_pattern.
  - intros rx. apply rename_from_text_no_candidates.
  - intros e. apply rename_from_text_compile_raises.
  - intros Hc. destruct (re_compile py pattern) as [rx|e] eqn:E.
    + left. eexists. eapply rename_from_text_no_candidates; eassumption.
    + assert (He : e = ReError \/ e <> ReError)
        by (destruct e; (now left) || (right; discriminate)).
      destruct He as [-> | He].
      * left. eexists. now apply rename_from_text_bad_pattern.
      * right. exists e. repeat split; try assumption.
        now apply rename_from_text_compile_raises.
  - discriminate.
Qed.

Lemma rename_from_text_aborts_before_any_file_witness :
  rename_from_text mini_runtime "Invoice #(\d+" "INV_{1}.pdf" 1 false
                   (folder [("a.pdf", document ["Invoice #4521"])]) =
  (Ok 0%nat,
   logged (folder [("a.pdf", document ["Invoice #4521"])])
          [Log ERROR MsgInvalidRegex]) /\
  rename_from_text mini_runtime "Invoice #(\d+)" "INV_{1}.pdf" 1 false
                   (folder [("notes.txt", document ["Invoice #4521"]);
                            ("A.PDF", document ["Invoice #7"])]) =
  (Ok 0%nat,
   logged (folder [("notes.txt", document ["Invoice #4521"]);
                   ("A.PDF", document ["Invoice #7"])])
          [Log WARNING MsgNoPdfFound]) /\
  rename_from_text mini_runtime "Invoice #\d{4294967295}" "INV_{1}.pdf" 1
                   false (folder [("a.pdf", document ["Invoice #4521"])]) =
  (Raise OverflowError, folder [("a.pdf", document ["Invoice #4521"])]).
Proof.
  split; [|split].
  - apply (rename_from_text_aborts_before_any_file
             mini_runtime "Invoice #(\d+" "INV_{1}.pdf" 1 false
             (folder [("a.pdf", document ["Invoice #4521"])])).
    vm_compute. reflexivity.
  - apply (proj1 (proj2
             (rename_from_text_aborts_before_any_file
                mini_runtime "Invoice #(\d+)" "INV_{1}.pdf" 1 false
                (folder [("notes.txt", document ["Invoice #4521"]);
                         ("A.PDF", document ["Invoice #7"])])))
             (compiled "Invoice #(\d+)")).
    + vm_compute. reflexivity.
    + reflexivity.
  - apply (proj1 (proj2 (proj2
             (rename_from_text_aborts_before_any_file
                mini_runtime "Invoice #\d{4294967295}" "INV_{1}.pdf" 1 false
                (folder [("a.pdf", document ["Invoice #4521"])]))))
             OverflowError).
    + vm_compute. reflexivity.
    + discriminate.
Defined.

(** A batch over a folder that holds the single document [scan.pdf], in
    apply mode, when the pattern's first match in the text is [m] and
    the template renders to [new_name]. *)
Lemma rename_single_document (py : runtime) (rx : pattern_object)
      (pattern template text new_name : string) (m : match_object) :
  re_compile py pattern = Ok rx ->
  truthy text = true ->
  rx text = Some m ->
  render_name py template m = Ok new_name ->
  contains_char "/" new_name = false ->
  new_name <> "scan.pdf" ->
  let run := rename_from_text py pattern template 1 false
                              (folder [("scan.pdf", document [text])]) in
  fst run = Ok 1%nat /\
  dir (snd run) = [(new_name, document [text])] /\
  planned_renames (trace (snd run)) = [("scan.pdf", new_name)].
Proof.
  intros Hc Ht Hm Hr Hsep Hne.
  set (w := folder [("scan.pdf", document [text])]).
  assert (Hcand : candidates w = ["scan.pdf"]) by reflexivity.
  assert (Htext : Spec.extract_text (lookup "scan.pdf" (dir w)) 1 = text).
  { simpl. destruct text; [discriminate | reflexivity]. }
  cbv zeta. rewrite (rename_from_text_run _ _ _ _ _ _ _ Hc)
    by (rewrite Hcand; discriminate).
  rewrite Hcand.
  set (w1 := logged w _).
  destruct (process_pdf_run 1 "scan.pdf" w1) as (ev & Hev & Hstep).
  assert (Hone :
            process_pdf py rx template 1 false "scan.pdf" 0 w1 =
            (Ok 1%nat,
             mkWorld [(new_name, document [text])] (os_refuses w)
                     (trace (logged w1 [ev]) ++
                      [Log INFO (MsgRename false "scan.pdf" new_name)]))).
  { rewrite Hstep. change (dir w1) with (dir w). rewrite Htext.
    unfold search_and_rename. rewrite Ht, Hm. cbn [negb].
    rewrite (try_rename_apply _ _ _ _ _ _ _ Hr Hsep).
    - assert (Hne' : String.eqb "scan.pdf" new_name = false)
        by (apply String.eqb_neq; congruence).
      unfold path_rename, rename_entry, remove.
      cbn -[String.eqb]. rewrite Hne'. reflexivity.
    - left. cbn -[String.eqb].
      assert (Hne' : String.eqb "scan.pdf" new_name = false)
        by (apply String.eqb_neq; congruence).
      now rewrite Hne'. }
  rewrite (for_each_cons _ _ _ _ _ _ _ Hone). simpl for_each. unfold ret.
  repeat split.
  destruct Hev as [[total ->] | [e ->]]; reflexivity.
Qed.

(** C8. The substitution context holds the positional groups shifted by
    one: slot 0 is the reserved dummy, group [k] sits in slot [k], and a
    placeholder [{k}] renders group [k]; the named groups are passed by
    name, and a placeholder [{name}] renders the group of that name.
    With pattern [Invoice #(\d+)] and template [INV_{1}.pdf], a document
    in whose text the pattern first matches with group 1 = [4521] is
    renamed to [INV_4521.pdf]; with pattern [Order ID: (?P<order>\w+)]
    and template [ORDER_{order}.pdf], the text [Order ID: AB99] gives
    [ORDER_AB99.pdf]. *)
Theorem groups_occupy_their_own_slots (py : runtime) :
  (forall m,
      nth_error (groups_1indexed m) 0 = Some None /\
      forall k, nth_error (groups_1indexed m) (S k) = nth_error (groups m) k) /\
  (forall m pre name post k v,
      brace_free pre = true -> brace_free post = true ->
      is_index py name (S k) -> nth_error (groups m) k = Some v ->
      Format.format py (pre ++ "{" ++ name ++ "}" ++ post)
                    (groups_1indexed m) (groupdict m)
      = Ok (pre ++ str v ++ post)) /\
  (forall m pre name post v,
      brace_free pre = true -> brace_free post = true ->
      is_keyword py name ->
      Format.kwargs_get name (groupdict m) = Some v ->
      Format.format py (pre ++ "{" ++ name ++ "}" ++ post)
                    (groups_1indexed m) (groupdict m)
      = Ok (pre ++ str v ++ post)) /\
  (forall rx text,
      re_compile py "Invoice #(\d+)" = Ok rx ->
      truthy text = true ->
      rx text = Some (mkMatch [Some "4521"] []) ->
      let run := rename_from_text py "Invoice #(\d+)" "INV_{1}.pdf" 1 false
                                  (folder [("scan.pdf", document [text])]) in
      fst run = Ok 1%nat /\
      dir (snd run) = [("INV_4521.pdf", document [text])] /\
      planned_renames (trace (snd run)) = [("scan.pdf", "INV_4521.pdf")]) /\
  (forall rx,
      re_compile py "Order ID: (?P<order>\w+)" = Ok rx ->
      rx "Order ID: AB99" =
      Some (mkMatch [Some "AB99"] [("order", Some "AB99")]) ->
      let run := rename_from_text
                   py "Order ID: (?P<order>\w+)" "ORDER_{order}.pdf" 1 false
                   (folder [("scan.pdf", document ["Order ID: AB99"])]) in
      fst run = Ok 1%nat /\
      dir (snd run) = [("ORDER_AB99.pdf", document ["Order ID: AB99"])] /\
      planned_renames (trace (snd run)) = [("scan.pdf", "ORDER_AB99.pdf")]).
Proof.
  split; [|split; [|split; [|split]]].
  - intros m. split; [reflexivity | intros k; reflexivity].
  - intros m pre name post k v Hpre Hpost Hidx Hv.
    now apply format_positional with (i := S k).
  - intros m pre name post v Hpre Hpost Hkw Hv.
    now apply format_keyword.
  - intros rx text Hc Ht Hm.
    apply (rename_single_document py rx _ _ _ _ _ Hc Ht Hm);
      [reflexivity | reflexivity | discriminate].
  - intros rx Hc Hm.
    apply (rename_single_document
             py rx _ _ "Order ID: AB99" _ _ Hc eq_refl Hm);
      [reflexivity | reflexivity | discriminate].
Qed.

Lemma groups_occupy_their_own_slots_witness :
  let run := rename_from_text
               mini_runtime "Invoice #(\d+)" "INV_{1}.pdf" 1 false
               (folder [("scan.pdf",
                         document ["Total due. Invoice #4521 of May"])]) in
  fst run = Ok 1%nat /\
  dir (snd run) =
  [("INV_4521.pdf", document ["Total due. Invoice #4521 of May"])] /\
  planned_renames (trace (snd run)) = [("scan.pdf", "INV_4521.pdf")].
Proof.
  apply (proj1 (proj2 (proj2 (proj2
           (groups_occupy_their_own_slots mini_runtime))))
           (compiled "Invoice #(\d+)")).
  - vm_compute. reflexivity.
  - reflexivity.
  - vm_compute. reflexivity.
Defined.

Lemma render_name_of_format (py : runtime) (template : string)
      (m : match_object) (rendered : string) :
  Format.format py template (groups_1indexed m) (groupdict m) = Ok rendered ->
  render_name py template m =
  Ok (if endswith rendered ".pdf" then rendered else rendered ++ ".pdf").
Proof.
  intros H. unfold render_name. rewrite H.
  now destruct (endswith rendered ".pdf").
Qed.




(** The same, end to end: the first alternative of the pattern does not
    take part in the match on [Receipt #77]. *)
Example absent_group_end_to_end :
  let run := rename_from_text
               mini_runtime "Invoice #(\d+)|Receipt #(\d+)" "DOC_{1}" 1 false
               (folder [("scan.pdf", document ["Receipt #77"])]) in
  fst run = Ok 1%nat /\
  dir (snd run) = [("DOC_None.pdf", document ["Receipt #77"])].
Proof. vm_compute. split; reflexivity. Qed.

Lemma planned_renames_app (t1 t2 : list event) :
  planned_renames (t1 ++ t2) = (planned_renames t1 ++ planned_renames t2)%list.
Proof.
  induction t1 as [|ev t1 IH]; [reflexivity|].
  simpl. destruct ev as [[] [] |]; simpl; now rewrite ?IH.
Qed.

(* ================================================================== *)
(** * Preview mode *)

Lemma reads_only_try_rename_preview (py : runtime) (template pdf : string)
      (matched : nat) (m : match_object) :
  reads_only (try_rename py template true pdf matched m).
Proof.
  unfold try_rename. apply reads_only_try_except.
  - reads_only_seq. reads_only_seq. reads_only_seq.
    destruct (a1 && negb (String.eqb a0 pdf)).
    + reads_only_seq. auto with reads_only.
    + reads_only_seq.
      apply reads_only_bind; [simpl | intros ?]; auto with reads_only.
  - intros e. reads_only_seq. reads_only_seq. auto with reads_only.
Qed.

Lemma reads_only_process_pdf_preview (py : runtime) (rx : pattern_object)
      (template : string) (max_pages : Z) (pdf : string) (matched : nat) :
  reads_only (process_pdf py rx template max_pages true pdf matched).
Proof.
  unfold process_pdf. apply reads_only_bind.
  - apply reads_only_extract_text.
  - intros txt. unfold search_and_rename.
    destruct (negb (truthy txt)).
    + reads_only_seq. auto with reads_only.
    + destruct (rx txt) as [m|].
      * apply reads_only_try_rename_preview.
      * reads_only_seq. auto with reads_only.
Qed.

Lemma reads_only_rename_with_preview (py : runtime) (rx : pattern_object)
      (pattern template : string) (max_pages : Z) :
  reads_only (rename_with py rx pattern template max_pages true).
Proof.
  unfold rename_with. reads_only_seq. destruct a as [|pdf pdfs].
  - reads_only_seq. auto with reads_only.
  - do 5 reads_only_seq. reads_only_seq.
    + apply reads_only_for_each. intros x s.
      apply reads_only_process_pdf_preview.
    + do 3 reads_only_seq. auto with reads_only.
Qed.

Lemma reads_only_rename_from_text_preview (py : runtime)
      (pattern template : string) (max_pages : Z) :
  reads_only (rename_from_text py pattern template max_pages true).
Proof.
  unfold rename_from_text. apply reads_only_bind.
  - apply reads_only_try_except.
    + reads_only_seq. auto with reads_only.
    + intros e. reads_only_seq. auto with reads_only.
  - intros [rx|].
    + apply reads_only_rename_with_preview.
    + auto with reads_only.
Qed.

(** Whether a rename succeeds does not depend on the log. *)
Lemma path_rename_logged (src dst : string) (w : world)
      (evs : list event) :
  fst (path_rename src dst (logged w evs)) = fst (path_rename src dst w).
Proof.
  unfold path_rename. cbn [dir os_refuses logged].
  destruct (os_refuses w src dst); [reflexivity|].
  destruct (lookup src (dir w)); [|reflexivity].
  now destruct (String.eqb src dst).
Qed.

(** In either mode the loop body counts the file under the same
    conditions; the modes differ only when the rename itself fails, and
    the exception is then the one of the rename. *)
Lemma try_rename_counts_alike (py : runtime) (template pdf : string)
      (matched : nat) (m : match_object) (w : world) :
  match fst (try_rename py template true pdf matched m w),
        fst (try_rename py template false pdf matched m w) with
  | Ok n, Ok n' => n = n'
  | Raise e, Raise e' => e = e'
  | Ok n, Raise e =>
    n = (matched + 1)%nat /\
    exists new_name,
      render_name py template m = Ok new_name /\
      fst (path_rename pdf new_name w) = Raise e
  | Raise _, Ok _ => False
  end.
Proof.
  assert (Hfree :
            forall new_name,
              render_name py template m = Ok new_name ->
              contains_char "/" new_name = false ->
              lookup new_name (dir w) = None \/ new_name = pdf ->
              match fst (try_rename py template true pdf matched m w),
                    fst (try_rename py template false pdf matched m w) with
              | Ok n, Ok n' => n = n'
              | Raise e, Raise e' => e = e'
              | Ok n, Raise e =>
                n = (matched + 1)%nat /\
                exists new_name,
                  render_name py template m = Ok new_name /\
                  fst (path_rename pdf new_name w) = Raise e
              | Raise _, Ok _ => False
              end).
  { intros new_name Hr Hsep H.
    rewrite (try_rename_preview _ _ _ _ _ _ _ Hr Hsep H).
    rewrite (try_rename_apply _ _ _ _ _ _ _ Hr Hsep H).
    pose proof (path_rename_logged
                  pdf new_name w [Log INFO (MsgRename false pdf new_name)])
      as Hrename.
    destruct (path_rename pdf new_name (logged w _)) as [[u|e] w'];
      cbn [fst] in *; [reflexivity|].
    split; [reflexivity|]. exists new_name. now split. }
  destruct (render_name py template m) as [new_name|e] eqn:Hr.
  - destruct (contains_char "/" new_name) eqn:Hsep.
    + now rewrite !(try_rename_invalid_name _ _ _ _ _ _ _ _ Hr Hsep).
    + destruct (lookup new_name (dir w)) as [f|] eqn:Hl.
      * destruct (String.eqb_spec new_name pdf) as [E|Hne].
        -- apply (Hfree new_name eq_refl Hsep (or_intror E)).
        -- now rewrite !(try_rename_collision _ _ _ _ _ _ _ _ _ Hr Hsep Hl Hne).
      * apply (Hfree new_name eq_refl Hsep (or_introl Hl)).
  - destruct (catches_template_error e) eqn:Hc.
    + now rewrite !(try_rename_template_error _ _ _ _ _ _ _ _ Hr Hc).
    + now rewrite !(try_rename_uncaught _ _ _ _ _ _ _ _ Hr Hc).
Qed.




(* ================================================================== *)
(** * The collision guard *)

(** What [try_rename] can do to the folder: nothing, or, in apply mode,
    move the source onto a name that was free. *)
Lemma try_rename_effect (py : runtime) (template : string) (dry_run : bool)
      (pdf : string) (matched : nat) (m : match_object) (w : world) :
  dir (snd (try_rename py template dry_run pdf matched m w)) = dir w \/
  (dry_run = false /\
   fst (try_rename py template dry_run pdf matched m w)
   = Ok (matched + 1)%nat /\
   exists new_name,
     render_name py template m = Ok new_name /\
     lookup new_name (dir w) = None /\
     dir (snd (try_rename py template dry_run pdf matched m w)) =
     rename_entry pdf new_name (dir w)).
Proof.
  destruct (render_name py template m) as [new_name|e] eqn:Hr.
  - destruct (contains_char "/" new_name) eqn:Hsep.
    + left. now rewrite (try_rename_invalid_name _ _ _ _ _ _ _ _ Hr Hsep).
    + assert (Hfree :
                forall H : lookup new_name (dir w) = None \/ new_name = pdf,
                  dir (snd (try_rename py template dry_run pdf matched m w))
                  = dir w \/
                  (dry_run = false /\
                   fst (try_rename py template dry_run pdf matched m w)
                   = Ok (matched + 1)%nat /\
                   lookup new_name (dir w) = None /\
                   dir (snd (try_rename py template dry_run pdf matched m w))
                   = rename_entry pdf new_name (dir w))).
      { intros H. destruct dry_run.
        - left. now rewrite (try_rename_preview _ _ _ _ _ _ _ Hr Hsep H).
        - rewrite (try_rename_apply _ _ _ _ _ _ _ Hr Hsep H).
          unfold path_rename.
          destruct (os_refuses _ _ _); [now left|].
          destruct (lookup pdf _) eqn:Hsrc; [|now left].
          destruct (String.eqb_spec pdf new_name) as [E|Hne]; [now left|].
          destruct H as [Hl | E]; [|congruence].
          right. cbn [fst snd dir logged].
          rewrite (remove_absent _ _ Hl). auto. }
      destruct (lookup new_name (dir w)) as [f|] eqn:Hl.
      * destruct (String.eqb_spec new_name pdf) as [E|Hne].
        -- destruct (Hfree (or_intror E)) as [H | (_ & _ & H & _)];
             [now left | discriminate].
        -- left.
           now rewrite (try_rename_collision _ _ _ _ _ _ _ _ _ Hr Hsep Hl Hne).
      * destruct (Hfree (or_introl eq_refl)) as [H | (H1 & H2 & H3 & H4)];
          [now left |].
        right. repeat split; try assumption. now exists new_name.
  - left. destruct (catches_template_error e) eqn:Hc.
    + now rewrite (try_rename_template_error _ _ _ _ _ _ _ _ Hr Hc).
    + now rewrite (try_rename_uncaught _ _ _ _ _ _ _ _ Hr Hc).
Qed.

(** C3. Processing one file renames it only in apply mode and only onto
    a name that does not exist yet (a rename onto the file's own name
    changes nothing), so no other entry of the folder is ever lost or
    overwritten.  When the computed destination exists and differs from
    the source, the folder is left as it is, the file is not counted,
    the refusal is logged, and the loop goes on with the next file. *)
Theorem collision_guard_protects_existing_files
        (py : runtime) (rx : pattern_object) (template : string)
        (max_pages : Z) (dry_run : bool) (pdf : string) (matched : nat)
        (w : world) :
  let text := Spec.extract_text (lookup pdf (dir w)) max_pages in
  let run := process_pdf py rx template max_pages dry_run pdf matched w in
  (forall name f,
      name <> pdf -> lookup name (dir w) = Some f ->
      lookup name (dir (snd run)) = Some f) /\
  (dir (snd run) <> dir w ->
   dry_run = false /\ fst run = Ok (matched + 1)%nat /\
   exists m new_name,
     rx text = Some m /\ render_name py template m = Ok new_name /\
     lookup new_name (dir w) = None /\
     dir (snd run) = rename_entry pdf new_name (dir w)) /\
  (forall m new_name f,
      truthy text = true -> rx text = Some m ->
      render_name py template m = Ok new_name ->
      contains_char "/" new_name = false ->
      lookup new_name (dir w) = Some f -> new_name <> pdf ->
      fst run = Ok matched /\
      dir (snd run) = dir w /\
      In (Log ERROR (MsgTargetExists pdf new_name)) (trace (snd run)) /\
      forall rest,
        for_each (pdf :: rest)
                 (process_pdf py rx template max_pages dry_run) matched w =
        for_each rest
                 (process_pdf py rx template max_pages dry_run) matched
                 (snd run)).
Proof.
  intros text run.
  destruct (process_pdf_run max_pages pdf w) as (ev & _ & Hstep).
  assert (Hrun : run = search_and_rename py rx template dry_run pdf matched
                                         text (logged w [ev]))
    by apply Hstep.
  assert (Hcases :
            dir (snd run) = dir w \/
            (dry_run = false /\ fst run = Ok (matched + 1)%nat /\
             exists m new_name,
               rx text = Some m /\ render_name py template m = Ok new_name /\
               lookup new_name (dir w) = None /\
               dir (snd run) = rename_entry pdf new_name (dir w))).
  { rewrite Hrun. unfold search_and_rename.
    destruct (negb (truthy text)); [now left|].
    destruct (rx text) as [m|] eqn:Hm; [|now left].
    destruct (try_rename_effect py template dry_run pdf matched m
                                (logged w [ev]))
      as [H | (H1 & H2 & new_name & H3 & H4 & H5)]; [now left|].
    right. repeat split; try assumption. now exists m, new_name. }
  split; [|split].
  - intros name f Hne Hl.
    destruct Hcases as [-> | (_ & _ & m & new_name & _ & _ & Hfree & ->)];
      [assumption|].
    rewrite lookup_rename_other; [assumption | assumption | congruence].
  - intros Hchanged. destruct Hcases as [H | H]; [contradiction | exact H].
  - intros m new_name f Ht Hm Hr Hsep Hl Hne.
    assert (Hres : run = (Ok matched,
                          logged (logged w [ev])
                                 [Log ERROR (MsgTargetExists pdf new_name)])).
    { rewrite Hrun. unfold search_and_rename. rewrite Ht, Hm. cbn [negb].
      now apply try_rename_collision with (f := f). }
    rewrite Hres. cbn [fst snd]. repeat split.
    + unfold logged; simpl. apply in_or_app. right. now left.
    + intros rest. apply for_each_cons. exact Hres.
Qed.

Lemma collision_guard_protects_existing_files_witness :
  let w := folder [("scan.pdf", document ["Invoice #4521"]);
                   ("INV_4521.pdf", document ["an older invoice"])] in
  let run := process_pdf mini_runtime (compiled "Invoice #(\d+)")
                         "INV_{1}.pdf" 1 false "scan.pdf" 0 w in
  fst run = Ok 0%nat /\
  dir (snd run) = dir w /\
  In (Log ERROR (MsgTargetExists "scan.pdf" "INV_4521.pdf"))
     (trace (snd run)) /\
  forall rest,
    for_each ("scan.pdf" :: rest)
             (process_pdf mini_runtime (compiled "Invoice #(\d+)")
                          "INV_{1}.pdf" 1 false) 0%nat w =
    for_each rest
             (process_pdf mini_runtime (compiled "Invoice #(\d+)")
                          "INV_{1}.pdf" 1 false) 0%nat (snd run).
Proof.
  intros w.
  apply (proj2 (proj2 (collision_guard_protects_existing_files
                         mini_runtime (compiled "Invoice #(\d+)")
                         "INV_{1}.pdf" 1 false "scan.pdf" 0 w))
               (mkMatch [Some "4521"] []) "INV_4521.pdf"
               (document ["an older invoice"])).
  - reflexivity.
  - vm_compute. reflexivity.
  - reflexivity.
  - reflexivity.
  - reflexivity.
  - discriminate.
Defined.

(* ================================================================== *)
(** * The outcomes of one file *)

Section Outcomes.
Variable py : runtime.
Variable rx : pattern_object.
Variable template : string.
Variable max_pages : Z.
Variable pdf : string.
Variable matched : nat.
Variable w : world.

Let text := Spec.extract_text (lookup pdf (dir w)) max_pages.

Lemma process_pdf_no_text (dry_run : bool) :
  truthy text = false ->
  exists ev,
    extraction_event pdf ev /\
    process_pdf py rx template max_pages dry_run pdf matched w =
    (Ok matched, logged w [ev; Log WARNING (MsgNoText pdf)]).
Proof.
  intros Ht. destruct (process_pdf_run max_pages pdf w) as (ev & Hev & Hstep).
  exists ev. split; [assumption|]. rewrite Hstep.
  unfold search_and_rename. fold text. rewrite Ht. cbn [negb].
  unfold bind, logger_warning, emit, ret, logged; simpl.
  now rewrite <- app_assoc.
Qed.

Lemma process_pdf_not_found (dry_run : bool) :
  truthy text = true -> rx text = None ->
  exists ev,
    extraction_event pdf ev /\
    process_pdf py rx template max_pages dry_run pdf matched w =
    (Ok matched, logged w [ev; Log WARNING (MsgPatternNotFound pdf)]).
Proof.
  intros Ht Hm.
  destruct (process_pdf_run max_pages pdf w) as (ev & Hev & Hstep).
  exists ev. split; [assumption|]. rewrite Hstep.
  unfold search_and_rename. fold text. rewrite Ht, Hm. cbn [negb].
  unfold bind, logger_warning, emit, ret, logged; simpl.
  now rewrite <- app_assoc.
Qed.

Lemma process_pdf_found (dry_run : bool) (m : match_object) :
  truthy text = true -> rx text = Some m ->
  exists ev,
    extraction_event pdf ev /\
    process_pdf py rx template max_pages dry_run pdf matched w =
    try_rename py template dry_run pdf matched m (logged w [ev]).
Proof.
  intros Ht Hm.
  destruct (process_pdf_run max_pages pdf w) as (ev & Hev & Hstep).
  exists ev. split; [assumption|]. rewrite Hstep.
  unfold search_and_rename. fold text. rewrite Ht, Hm. reflexivity.
Qed.

Lemma process_pdf_template_error (dry_run : bool) (m : match_object)
      (e : exn) :
  truthy text = true -> rx text = Some m ->
  render_name py template m = Raise e ->
  catches_template_error e = true ->
  exists ev,
    extraction_event pdf ev /\
    process_pdf py rx template max_pages dry_run pdf matched w =
    (Ok matched,
     logged w [ev; Log ERROR (MsgTemplateError pdf e);
               Log INFO (MsgCaptured (groups m) (groupdict m))]).
Proof.
  intros Ht Hm Hr Hc.
  destruct (process_pdf_found dry_run m Ht Hm) as (ev & Hev & ->).
  exists ev. split; [assumption|].
  rewrite (try_rename_template_error
             py template pdf matched m dry_run e (logged w [ev]) Hr Hc).
  now rewrite logged_logged.
Qed.

Lemma process_pdf_collision (dry_run : bool) (m : match_object)
      (new_name : string) (f : pdf_file) :
  truthy text = true -> rx text = Some m ->
  render_name py template m = Ok new_name ->
  contains_char "/" new_name = false ->
  lookup new_name (dir w) = Some f -> new_name <> pdf ->
  exists ev,
    extraction_event pdf ev /\
    process_pdf py rx template max_pages dry_run pdf matched w =
    (Ok matched, logged w [ev; Log ERROR (MsgTargetExists pdf new_name)]).
Proof.
  intros Ht Hm Hr Hsep Hl Hne.
  destruct (process_pdf_found dry_run m Ht Hm) as (ev & Hev & ->).
  exists ev. split; [assumption|].
  rewrite (try_rename_collision
             py template pdf matched m dry_run new_name f (logged w [ev])
             Hr Hsep Hl Hne).
  now rewrite logged_logged.
Qed.

Lemma process_pdf_preview (m : match_object) (new_name : string) :
  truthy text = true -> rx text = Some m ->
  render_name py template m = Ok new_name ->
  contains_char "/" new_name = false ->
  lookup new_name (dir w) = None \/ new_name = pdf ->
  exists ev,
    extraction_event pdf ev /\
    process_pdf py rx template max_pages true pdf matched w =
    (Ok (matched + 1)%nat,
     logged w [ev; Log INFO (MsgRename true pdf new_name)]).
Proof.
  intros Ht Hm Hr Hsep Hfree.
  destruct (process_pdf_found true m Ht Hm) as (ev & Hev & ->).
  exists ev. split; [assumption|].
  rewrite (try_rename_preview
             py template pdf matched m new_name (logged w [ev])
             Hr Hsep Hfree).
  now rewrite logged_logged.
Qed.

Lemma process_pdf_apply (m : match_object) (new_name : string)
      (f : pdf_file) :
  truthy text = true -> rx text = Some m ->
  render_name py template m = Ok new_name ->
  contains_char "/" new_name = false ->
  lookup new_name (dir w) = None ->
  lookup pdf (dir w) = Some f ->
  os_refuses w pdf new_name = false ->
  exists ev,
    extraction_event pdf ev /\
    process_pdf py rx template max_pages false pdf matched w =
    (Ok (matched + 1)%nat,
     mkWorld (rename_entry pdf new_name (dir w)) (os_refuses w)
             (trace w ++ [ev; Log INFO (MsgRename false pdf new_name)])).
Proof.
  intros Ht Hm Hr Hsep Hfree Hsrc Hos.
  destruct (process_pdf_found false m Ht Hm) as (ev & Hev & ->).
  exists ev. split; [assumption|].
  rewrite (try_rename_apply
             py template pdf matched m new_name (logged w [ev])
             Hr Hsep (or_introl Hfree)).
  unfold path_rename. cbn [dir os_refuses logged trace].
  rewrite Hos, Hsrc.
  destruct (String.eqb_spec pdf new_name) as [E|_]; [congruence|].
  rewrite (remove_absent _ _ Hfree). now rewrite <- app_assoc.
Qed.

End Outcomes.

(* ================================================================== *)
(** * Failures of one file and the rest of the batch *)

Lemma try_rename_raises_uncaught (py : runtime) (template : string)
      (dry_run : bool) (pdf : string) (matched : nat) (m : match_object)
      (w w' : world) (e : exn) :
  try_rename py template dry_run pdf matched m w = (Raise e, w') ->
  catches_template_error e = false.
Proof.
  unfold try_rename, try_except.
  match goal with |- context [match ?b w with _ => _ end] =>
                  destruct (b w) as [[n|e0] w0] end.
  - discriminate.
  - destruct (catches_template_error e0) eqn:Hc.
    + discriminate.
    + intros H. injection H as <- _. exact Hc.
Qed.


(** A recoverable failure skips the file. *)
Lemma skipped_file_is_skipped (py : runtime) (rx : pattern_object)
      (template : string) (max_pages : Z) (dry_run : bool) (pdf : string)
      (matched : nat) (w : world) (evs : list event) :
  skipped py rx template pdf (Spec.extract_text (lookup pdf (dir w)) max_pages)
          (dir w) evs ->
  exists ev,
    extraction_event pdf ev /\
    process_pdf py rx template max_pages dry_run pdf matched w =
    (Ok matched, logged w (ev :: evs)).
Proof.
  intros Hskip.
  destruct Hskip as [Ht | Ht Hm | m e Ht Hm Hr He | m n f Ht Hm Hr Hs Hl Hn].
  - now apply process_pdf_no_text.
  - now apply process_pdf_not_found.
  - apply process_pdf_template_error; try assumption.
    now destruct He as [-> | ->].
  - now apply process_pdf_collision with (m := m) (f := f).
Qed.

(** A failed rename leaves the world as it is. *)
Lemma path_rename_raises (src dst : string) (w : world) (e : exn) :
  fst (path_rename src dst w) = Raise e ->
  path_rename src dst w = (Raise e, w).
Proof.
  unfold path_rename.
  destruct (os_refuses w src dst);
    [cbn [fst]; intros H; now injection H as <- |].
  destruct (lookup src (dir w));
    [|cbn [fst]; intros H; now injection H as <-].
  destruct (String.eqb src dst); discriminate.
Qed.

(** Any other failure leaves the loop body with its exception. *)
Lemma aborted_file_raises (py : runtime) (rx : pattern_object)
      (template : string) (max_pages : Z) (dry_run : bool) (pdf : string)
      (matched : nat) (w : world) (e : exn) (evs : list event) :
  aborts py rx template dry_run pdf
         (Spec.extract_text (lookup pdf (dir w)) max_pages) w e evs ->
  exists ev,
    extraction_event pdf ev /\
    process_pdf py rx template max_pages dry_run pdf matched w =
    (Raise e, logged w (ev :: evs)).
Proof.
  intros Habort.
  destruct Habort as [m e Ht Hm Hr He1 He2
                     | m new_name Ht Hm Hr Hsep
                     | m new_name e Ht Hm Hr Hsep Hfree Hmode Hren].
  - destruct (process_pdf_found py rx template max_pages pdf matched w
                                dry_run m Ht Hm) as (ev & Hev & Hstep).
    exists ev. split; [assumption|]. rewrite Hstep.
    apply try_rename_uncaught; [assumption|].
    destruct e; try reflexivity; congruence.
  - destruct (process_pdf_found py rx template max_pages pdf matched w
                                dry_run m Ht Hm) as (ev & Hev & Hstep).
    exists ev. split; [assumption|]. rewrite Hstep.
    apply try_rename_invalid_name with (new_name := new_name);
      [assumption|].
    unfold never_a_file_name in Hsep. now apply andb_true_iff in Hsep.
  - subst dry_run.
    destruct (process_pdf_found py rx template max_pages pdf matched w
                                false m Ht Hm) as (ev & Hev & Hstep).
    exists ev. split; [assumption|]. rewrite Hstep.
    rewrite (try_rename_apply py template pdf matched m new_name
                              (logged w [ev]) Hr Hsep Hfree).
    rewrite logged_logged. cbn [app].
    rewrite (path_rename_raises pdf new_name _ e);
      [reflexivity | now rewrite path_rename_logged].
Qed.

(** The loop body raises in these cases only, or on a rendered name
    with a path separator in it. *)
Lemma raising_file_is_aborted (py : runtime) (rx : pattern_object)
      (template : string) (max_pages : Z) (dry_run : bool) (pdf : string)
      (matched : nat) (w : world) (e : exn) (w' : world) :
  process_pdf py rx template max_pages dry_run pdf matched w = (Raise e, w') ->
  (exists ev evs,
      aborts py rx template dry_run pdf
             (Spec.extract_text (lookup pdf (dir w)) max_pages) w e evs /\
      w' = logged w (ev :: evs)) \/
  (exists m new_name,
      rx (Spec.extract_text (lookup pdf (dir w)) max_pages) = Some m /\
      render_name py template m = Ok new_name /\
      contains_char "/" new_name = true).
Proof.
  destruct (process_pdf_run max_pages pdf w) as (ev & _ & Hstep).
  rewrite Hstep. unfold search_and_rename.
  set (text := Spec.extract_text (lookup pdf (dir w)) max_pages).
  destruct (truthy text) eqn:Ht; cbn [negb]; [|discriminate].
  destruct (rx text) as [m|] eqn:Hm; [|discriminate].
  destruct (render_name py template m) as [new_name|e0] eqn:Hr.
  - destruct (contains_char "/" new_name) eqn:Hsep.
    + rewrite (try_rename_invalid_name py template pdf matched m dry_run
                                       new_name (logged w [ev]) Hr Hsep).
      intros _. right. now exists m, new_name.
    + assert (Hfree :
                lookup new_name (dir w) = None \/ new_name = pdf ->
                try_rename py template dry_run pdf matched m (logged w [ev])
                = (Raise e, w') ->
                exists evs,
                  aborts py rx template dry_run pdf text w e evs /\
                  w' = logged w (ev :: evs)).
      { intros Hfree. destruct dry_run.
        - rewrite (try_rename_preview py template pdf matched m new_name
                                      (logged w [ev]) Hr Hsep Hfree).
          discriminate.
        - rewrite (try_rename_apply py template pdf matched m new_name
                                    (logged w [ev]) Hr Hsep Hfree).
          rewrite logged_logged. cbn [app].
          destruct (path_rename pdf new_name (logged w _)) as [[u|e1] w1]
            eqn:Hren; [discriminate|].
          intros E. injection E as <- <-.
          pose proof (path_rename_raises _ _ _ _ (f_equal fst Hren)) as Hw.
          rewrite Hren in Hw. injection Hw as ->.
          exists [Log INFO (MsgRename false pdf new_name)].
          split; [|reflexivity].
          apply AbortRename with (m := m) (new_name := new_name);
            try assumption; try reflexivity.
          rewrite <- (path_rename_logged
                        pdf new_name w
                        [ev; Log INFO (MsgRename false pdf new_name)]).
          now rewrite Hren. }
      destruct (lookup new_name (dir w)) as [f|] eqn:Hl.
      * destruct (String.eqb_spec new_name pdf) as [E|Hne].
        -- intros H. destruct (Hfree (or_intror E) H) as (evs & H1 & H2).
           left. now exists ev, evs.
        -- rewrite (try_rename_collision py template pdf matched m dry_run
                                         new_name f (logged w [ev]) Hr Hsep Hl Hne).
           discriminate.
      * intros H. destruct (Hfree (or_introl eq_refl) H) as (evs & H1 & H2).
        left. now exists ev, evs.
  - destruct (catches_template_error e0) eqn:Hc.
    + rewrite (try_rename_template_error py template pdf matched m dry_run
                                         e0 (logged w [ev]) Hr Hc).
      discriminate.
    + rewrite (try_rename_uncaught py template pdf matched m dry_run
                                   e0 (logged w [ev]) Hr Hc).
      intros E. injection E as <- <-. left. exists ev, [].
      split; [|reflexivity].
      apply AbortRendering with (m := m); try assumption.
      * intros ->. discriminate.
      * intros ->. discriminate.
Qed.



(** Two more exceptions that the loop does not catch: a malformed
    template, and a rename that the operating system refuses. *)
Example malformed_template_aborts_batch :
  fst (rename_from_text mini_runtime "Invoice #(\d+)" "INV_{1" 1 true
                        (folder [("a.pdf", document ["Invoice #4521"]);
                                 ("b.pdf", document ["Invoice #7"])]))
  = Raise ValueError.
Proof. vm_compute. reflexivity. Qed.

Example refused_rename_aborts_batch :
  fst (rename_from_text mini_runtime "Invoice #(\d+)" "INV_{1}" 1 false
                        (mkWorld [("a.pdf", document ["Invoice #4521"]);
                                  ("b.pdf", document ["Invoice #7"])]
                                 (fun _ _ => true) []))
  = Raise OSError.
Proof. vm_compute. reflexivity. Qed.

(* ================================================================== *)
(** * Two files with the same destination *)

Lemma extracted_text_has_file (o : option pdf_file) (max_pages : Z) :
  truthy (Spec.extract_text o max_pages) = true -> exists f, o = Some f.
Proof.
  destruct o as [f|]; [eauto | discriminate].
Qed.

Lemma planned_renames_extraction (pdf : string) (ev : event)
      (t : list event) :
  extraction_event pdf ev -> planned_renames (ev :: t) = planned_renames t.
Proof.
  intros [[total ->] | [e ->]]; reflexivity.
Qed.

Lemma planned_renames_footer (dry_run : bool) (matched total : nat) :
  planned_renames (batch_footer dry_run matched total) = [].
Proof. now destruct dry_run. Qed.

(** C10. The collision guard looks at the folder as it is when the file
    is processed.  Take two candidates whose rendered destinations
    coincide on a name that does not exist yet.  In preview mode nothing
    is renamed, so both pass the guard: both are reported and the count
    is 2.  In apply mode the first rename creates the destination, the
    second file is refused, and the count is 1.  So a preview can count
    more files than the apply run of the same batch renames. *)
Theorem preview_counts_colliding_destinations
        (py : runtime) (rx : pattern_object) (pattern template : string)
        (max_pages : Z) (w : world) (a b d : string)
        (ma mb : match_object) :
  re_compile py pattern = Ok rx ->
  candidates w = [a; b] -> a <> b ->
  truthy (Spec.extract_text (lookup a (dir w)) max_pages) = true ->
  rx (Spec.extract_text (lookup a (dir w)) max_pages) = Some ma ->
  render_name py template ma = Ok d ->
  truthy (Spec.extract_text (lookup b (dir w)) max_pages) = true ->
  rx (Spec.extract_text (lookup b (dir w)) max_pages) = Some mb ->
  render_name py template mb = Ok d ->
  contains_char "/" d = false ->
  lookup d (dir w) = None ->
  os_refuses w a d = false ->
  let preview := rename_from_text py pattern template max_pages true w in
  let applied := rename_from_text py pattern template max_pages false w in
  (fst preview = Ok 2%nat /\
   dir (snd preview) = dir w /\
   planned_renames (trace (snd preview)) =
   (planned_renames (trace w) ++ [(a, d); (b, d)])%list) /\
  (fst applied = Ok 1%nat /\
   dir (snd applied) = rename_entry a d (dir w) /\
   In (Log ERROR (MsgTargetExists b d)) (trace (snd applied)) /\
   planned_renames (trace (snd applied)) =
   (planned_renames (trace w) ++ [(a, d)])%list).
Proof.
  intros Hc Hcand Hab Hta Hma Hra Htb Hmb Hrb Hsep Hfree Hos preview applied.
  destruct (extracted_text_has_file _ _ Hta) as [fa Hfa].
  destruct (extracted_text_has_file _ _ Htb) as [fb Hfb].
  assert (Hda : d <> a) by (intros ->; congruence).
  assert (Hdb : d <> b) by (intros ->; congruence).
  assert (Hne : candidates w <> []) by (rewrite Hcand; discriminate).
  split.
  - (* preview *)
    unfold preview.
    rewrite (rename_from_text_run py rx pattern template max_pages true w
                                  Hc Hne).
    rewrite Hcand. set (w1 := logged w _).
    destruct (process_pdf_preview py rx template max_pages a 0 w1 ma d)
      as (eva & Heva & Hstepa); try assumption; [now left|].
    rewrite (for_each_cons _ _ _ _ _ _ _ Hstepa).
    set (w2 := logged w1 _).
    destruct (process_pdf_preview py rx template max_pages b 1 w2 mb d)
      as (evb & Hevb & Hstepb); try assumption; [now left|].
    rewrite (for_each_cons _ _ _ _ _ _ _ Hstepb).
    cbn [for_each ret fst snd]. repeat split.
    unfold w2, w1, logged. cbn [trace dir os_refuses].
    rewrite !planned_renames_app.
    rewrite planned_renames_footer, app_nil_r.
    rewrite (planned_renames_extraction _ _ _ Heva),
            (planned_renames_extraction _ _ _ Hevb).
    cbn. now rewrite <- !app_assoc.
  - (* apply *)
    unfold applied.
    rewrite (rename_from_text_run py rx pattern template max_pages false w
                                  Hc Hne).
    rewrite Hcand. set (w1 := logged w _).
    destruct (process_pdf_apply py rx template max_pages a 0 w1 ma d fa)
      as (eva & Heva & Hstepa); try assumption.
    rewrite (for_each_cons _ _ _ _ _ _ _ Hstepa).
    set (w2 := mkWorld _ _ _).
    assert (Hb2 : lookup b (dir w2) = lookup b (dir w)).
    { unfold w2. cbn [dir w1 logged].
      apply lookup_rename_other; congruence. }
    assert (Hd2 : lookup d (dir w2) = Some fa).
    { unfold w2. cbn [dir w1 logged].
      rewrite lookup_rename_dst by assumption. exact Hfa. }
    destruct (process_pdf_collision py rx template max_pages b 1 w2 false
                                    mb d fa)
      as (evb & Hevb & Hstepb); try (rewrite Hb2); try assumption.
    rewrite (for_each_cons _ _ _ _ _ _ _ Hstepb).
    cbn [for_each ret fst snd]. repeat split.
    + unfold logged. cbn [trace]. apply in_or_app. left.
      apply in_or_app. right. right. now left.
    + unfold w2, w1, logged. cbn [trace dir os_refuses].
      rewrite !planned_renames_app. cbn [batch_footer app].
      rewrite (planned_renames_extraction _ _ _ Heva),
              (planned_renames_extraction _ _ _ Hevb).
      cbn. now rewrite <- !app_assoc.
Qed.

Lemma preview_counts_colliding_destinations_witness :
  let w := folder [("jan.pdf", document ["Invoice #4521 (January copy)"]);
                   ("feb.pdf", document ["Invoice #4521 (February copy)"])] in
  let preview :=
      rename_from_text mini_runtime "Invoice #(\d+)" "INV_{1}" 1 true w in
  let applied :=
      rename_from_text mini_runtime "Invoice #(\d+)" "INV_{1}" 1 false w in
  (fst preview = Ok 2%nat /\
   dir (snd preview) = dir w /\
   planned_renames (trace (snd preview)) =
   (planned_renames (trace w)
      ++ [("jan.pdf", "INV_4521.pdf"); ("feb.pdf", "INV_4521.pdf")])%list) /\
  (fst applied = Ok 1%nat /\
   dir (snd applied) = rename_entry "jan.pdf" "INV_4521.pdf" (dir w) /\
   In (Log ERROR (MsgTargetExists "feb.pdf" "INV_4521.pdf"))
      (trace (snd applied)) /\
   planned_renames (trace (snd applied)) =
   (planned_renames (trace w) ++ [("jan.pdf", "INV_4521.pdf")])%list).
Proof.
  intros w.
  apply (preview_counts_colliding_destinations
           mini_runtime (compiled "Invoice #(\d+)") "Invoice #(\d+)"
           "INV_{1}" 1 w "jan.pdf" "feb.pdf" "INV_4521.pdf"
           (mkMatch [Some "4521"] []) (mkMatch [Some "4521"] [])).
  - vm_compute. reflexivity.
  - reflexivity.
  - discriminate.
  - reflexivity.
  - vm_compute. reflexivity.
  - reflexivity.
  - reflexivity.
  - vm_compute. reflexivity.
  - reflexivity.
  - reflexivity.
  - reflexivity.
  - reflexivity.
Defined.

(* ================================================================== *)
(** * More about [extract_text] *)

Lemma join_empty_iff (sep : string) (l : list string) :
  Forall (fun s => truthy s = true) l ->
  (join sep l = "" <-> l = []).
Proof.
  intros Hl. split; [|intros ->; reflexivity].
  destruct l as [|x l]; [reflexivity|].
  inversion Hl as [|? ? Hx _]; subst.
  destruct x as [|c x]; [discriminate|].
  unfold join. simpl. destruct l; discriminate.
Qed.

Lemma non_empty_page_texts_truthy (ps : list page) :
  Forall (fun s => truthy s = true) (Spec.non_empty_page_texts ps).
Proof.
  unfold Spec.non_empty_page_texts. apply Forall_forall.
  intros s Hs. apply filter_In in Hs. apply Hs.
Qed.

Lemma non_empty_page_texts_nil_iff (ps : list page) :
  Spec.non_empty_page_texts ps = [] <->
  forall p, In p ps -> truthy (Spec.page_text p) = false.
Proof.
  unfold Spec.non_empty_page_texts. induction ps as [|p ps IH]; simpl.
  - split; [intros _ p [] | reflexivity].
  - destruct (truthy (Spec.page_text p)) eqn:E.
    + split; [discriminate|]. intros H.
      specialize (H p (or_introl eq_refl)). congruence.
    + rewrite IH. split.
      * intros H q [<- | Hq]; [assumption | now apply H].
      * intros H q Hq. apply H. now right.
Qed.

(** When the extractor returns the empty string, in terms of the
    document. *)
Lemma extract_text_empty_cases (o : option pdf_file) (max_pages : Z) :
  Spec.extract_text o max_pages = "" <->
  match o with
  | Some (Document pages) =>
    let ps := Spec.leading_pages pages max_pages in
    forallb Spec.page_ok ps = false \/
    (forall p, In p ps -> truthy (Spec.page_text p) = false)
  | _ => True
  end.
Proof.
  destruct o as [[e|pages]|]; simpl;
    try (split; [intros _; exact I | reflexivity]).
  destruct (forallb Spec.page_ok (Spec.leading_pages pages max_pages)).
  - rewrite <- non_empty_page_texts_nil_iff.
    rewrite <- (join_empty_iff newline _ (non_empty_page_texts_truthy _)).
    split.
    + intros H. now right.
    + intros [H | H]; [discriminate | assumption].
  - split; [now left | reflexivity].
Qed.

(** Once there is a match, no "no text" line is written. *)
Lemma try_rename_reports_text (py : runtime) (template : string)
      (dry_run : bool) (pdf : string) (matched : nat) (m : match_object)
      (w : world) (name : string) :
  In (Log WARNING (MsgNoText name))
     (trace (snd (try_rename py template dry_run pdf matched m w))) ->
  In (Log WARNING (MsgNoText name)) (trace w).
Proof.
  assert (Hlogged : forall evs,
             (forall ev, In ev evs -> ev <> Log WARNING (MsgNoText name)) ->
             In (Log WARNING (MsgNoText name)) (trace (logged w evs)) ->
             In (Log WARNING (MsgNoText name)) (trace w)).
  { intros evs Hevs Hin. unfold logged in Hin. cbn [trace] in Hin.
    apply in_app_or in Hin. destruct Hin as [Hin | Hin]; [assumption|].
    exfalso. now apply (Hevs _ Hin). }
  assert (Hone : forall ev,
             ev <> Log WARNING (MsgNoText name) ->
             forall ev', In ev' [ev] -> ev' <> Log WARNING (MsgNoText name)).
  { intros ev Hev ev' [<- | []]. exact Hev. }
  destruct (render_name py template m) as [new_name|e] eqn:Hr.
  - destruct (contains_char "/" new_name) eqn:Hsep.
    + now rewrite (try_rename_invalid_name py template pdf matched m dry_run
                                           new_name w Hr Hsep).
    + assert (Hfree :
                lookup new_name (dir w) = None \/ new_name = pdf ->
                In (Log WARNING (MsgNoText name))
                   (trace (snd (try_rename py template dry_run pdf matched
                                           m w))) ->
                In (Log WARNING (MsgNoText name)) (trace w)).
      { intros Hfree. destruct dry_run.
        - rewrite (try_rename_preview py template pdf matched m new_name w
                                      Hr Hsep Hfree).
          apply Hlogged, Hone. discriminate.
        - rewrite (try_rename_apply py template pdf matched m new_name w
                                    Hr Hsep Hfree).
          assert (Htrace :
                    forall u, trace (snd (path_rename pdf new_name u))
                              = trace u).
          { intros u. unfold path_rename.
            destruct (os_refuses u pdf new_name); [reflexivity|].
            destruct (lookup pdf (dir u)); [|reflexivity].
            now destruct (String.eqb pdf new_name). }
          specialize (Htrace (logged w [Log INFO
                                          (MsgRename false pdf new_name)])).
          destruct (path_rename pdf new_name (logged w _)) as [[u|e1] w1];
            cbn [snd] in *; rewrite Htrace;
              apply Hlogged, Hone; discriminate. }
      destruct (lookup new_name (dir w)) as [f|] eqn:Hl.
      * destruct (String.eqb_spec new_name pdf) as [E|Hne].
        -- apply Hfree. now right.
        -- rewrite (try_rename_collision py template pdf matched m dry_run
                                         new_name f w Hr Hsep Hl Hne).
           apply Hlogged, Hone. discriminate.
      * apply Hfree. now left.
  - destruct (catches_template_error e) eqn:Hc.
    + rewrite (try_rename_template_error py template pdf matched m dry_run
                                         e w Hr Hc).
      apply Hlogged. intros ev [<- | [<- | []]]; discriminate.
    + now rewrite (try_rename_uncaught py template pdf matched m dry_run
                                       e w Hr Hc).
Qed.

(** X1. The extractor returns the empty string exactly when the
    document cannot be opened, one of the leading pages fails, or none
    of the leading pages has text.  These are exactly the documents the
    batch skips as "no text extracted": for them the loop body writes
    the warning and leaves the count as it is, and for any other
    document it does not write it. *)
Theorem extract_text_empty_iff (w : world) (pdf_path : string)
        (max_pages : Z) :
  let no_text :=
      match lookup pdf_path (dir w) with
      | Some (Document pages) =>
        let ps := Spec.leading_pages pages max_pages in
        forallb Spec.page_ok ps = false \/
        (forall p, In p ps -> truthy (Spec.page_text p) = false)
      | _ => True
      end in
  (fst (extract_text pdf_path max_pages w) = Ok "" <-> no_text) /\
  (forall py rx template dry_run matched,
      let run := process_pdf py rx template max_pages dry_run pdf_path
                             matched w in
      (no_text ->
       exists ev,
         extraction_event pdf_path ev /\
         run = (Ok matched,
                logged w [ev; Log WARNING (MsgNoText pdf_path)])) /\
      (~ no_text ->
       forall name,
         In (Log WARNING (MsgNoText name)) (trace (snd run)) ->
         In (Log WARNING (MsgNoText name)) (trace w))).
Proof.
  intros no_text.
  pose proof (extract_text_empty_cases (lookup pdf_path (dir w)) max_pages)
    as Hcases.
  fold no_text in Hcases.
  split.
  - destruct (extract_text_run pdf_path max_pages w) as (ev & -> & _).
    cbn [fst]. rewrite <- Hcases. split; [|now intros ->].
    intros H. now injection H.
  - intros py rx template dry_run matched run. split.
    + intros Hno. apply Hcases in Hno.
      apply process_pdf_no_text. now rewrite Hno.
    + intros Hsome name.
      assert (Ht : truthy (Spec.extract_text (lookup pdf_path (dir w))
                                             max_pages) = true).
      { destruct (Spec.extract_text _ _) eqn:E; [|reflexivity].
        exfalso. apply Hsome. now apply Hcases. }
      unfold run.
      destruct (process_pdf_run max_pages pdf_path w) as (ev & Hev & Hstep).
      rewrite Hstep. unfold search_and_rename. rewrite Ht. cbn [negb].
      assert (Hev' : In (Log WARNING (MsgNoText name))
                        (trace (logged w [ev])) ->
                     In (Log WARNING (MsgNoText name)) (trace w)).
      { unfold logged. cbn [trace]. intros Hin.
        apply in_app_or in Hin. destruct Hin as [Hin | [Hin | []]];
          [assumption|].
        destruct Hev as [[total ->] | [e ->]]; discriminate. }
      destruct (rx _) as [m|].
      * intros Hin. apply Hev'.
        eapply try_rename_reports_text. exact Hin.
      * cbn. intros Hin. apply in_app_or in Hin.
        destruct Hin as [Hin | [Hin | []]]; [|discriminate].
        apply Hev'. exact Hin.
Qed.

Lemma extract_text_empty_iff_witness :
  let w := folder [("scan.pdf", Document [Ok None; Ok (Some "")]);
                   ("a.pdf", document ["Invoice #4521"])] in
  exists ev,
    extraction_event "scan.pdf" ev /\
    process_pdf mini_runtime (compiled "Invoice #(\d+)") "INV_{1}" 2 false
                "scan.pdf" 0 w =
    (Ok 0%nat, logged w [ev; Log WARNING (MsgNoText "scan.pdf")]).
Proof.
  intros w.
  apply (proj1 (proj2 (extract_text_empty_iff w "scan.pdf" 2)
                      mini_runtime (compiled "Invoice #(\d+)") "INV_{1}"
                      false 0%nat)).
  right. intros p [<- | [<- | []]]; reflexivity.
Defined.

Lemma firstn_min_length {A} (l : list A) (n : nat) :
  firstn (Nat.min (List.length l) n) l = firstn n l.
Proof.
  destruct (Nat.le_ge_cases n (List.length l)) as [H | H].
  - now rewrite Nat.min_r.
  - rewrite Nat.min_l by assumption.
    now rewrite firstn_all, firstn_all2.
Qed.

Lemma leading_pages_firstn (pages : list page) (max_pages : Z) :
  Spec.leading_pages pages max_pages = firstn (Z.to_nat max_pages) pages.
Proof.
  unfold Spec.leading_pages.
  replace (Z.to_nat (Z.min (Z.of_nat (List.length pages)) max_pages))
    with (Nat.min (List.length pages) (Z.to_nat max_pages)) by lia.
  apply firstn_min_length.
Qed.

(** X2. Only the first [max_pages] pages are read: two documents that
    agree on them give the same text, whatever follows.  In particular
    a page beyond the limit that would fail is never reached. *)
Theorem extract_text_reads_leading_pages_only
        (w1 w2 : world) (path1 path2 : string) (pages1 pages2 : list page)
        (max_pages : Z) :
  lookup path1 (dir w1) = Some (Document pages1) ->
  lookup path2 (dir w2) = Some (Document pages2) ->
  firstn (Z.to_nat max_pages) pages1 = firstn (Z.to_nat max_pages) pages2 ->
  fst (extract_text path1 max_pages w1) = fst (extract_text path2 max_pages w2).
Proof.
  intros H1 H2 Hsame.
  destruct (extract_text_run path1 max_pages w1) as (ev1 & -> & _).
  destruct (extract_text_run path2 max_pages w2) as (ev2 & -> & _).
  cbn [fst]. rewrite H1, H2. unfold Spec.extract_text.
  now rewrite !leading_pages_firstn, Hsame.
Qed.

Lemma extract_text_reads_leading_pages_only_witness :
  fst (extract_text "a.pdf" 1
                    (folder [("a.pdf",
                              Document [Ok (Some "cover");
                                        Raise PdfError])])) =
  fst (extract_text "b.pdf" 1
                    (folder [("b.pdf", Document [Ok (Some "cover")])])).
Proof.
  apply (extract_text_reads_leading_pages_only
           (folder [("a.pdf", Document [Ok (Some "cover"); Raise PdfError])])
           (folder [("b.pdf", Document [Ok (Some "cover")])])
           "a.pdf" "b.pdf"
           [Ok (Some "cover"); Raise PdfError] [Ok (Some "cover")] 1);
    reflexivity.
Defined.

Lemma firstn_le_split {A} (l : list A) :
  forall n m, (n <= m)%nat ->
              firstn m l = (firstn n l ++ firstn (m - n) (skipn n l))%list.
Proof.
  induction l as [|x l IH]; intros n m H.
  - now rewrite !firstn_nil, skipn_nil, firstn_nil.
  - destruct n as [|n].
    + now rewrite Nat.sub_0_r.
    + destruct m as [|m]; [lia|]. simpl. f_equal. apply IH. lia.
Qed.

Lemma join_app_prefix (sep : string) (l1 l2 : list string) :
  is_prefix (join sep l1) (join sep (l1 ++ l2)).
Proof.
  unfold is_prefix, join. induction l1 as [|x l1 IH].
  - exists (String.concat sep l2). reflexivity.
  - destruct IH as [rest IH]. destruct l1 as [|y l1].
    + destruct l2 as [|z l2].
      * exists "". simpl. now rewrite append_empty_r.
      * exists (sep ++ String.concat sep (z :: l2)). reflexivity.
    + exists rest.
      change (String.concat sep ((x :: y :: l1) ++ l2))
        with (x ++ sep ++ String.concat sep ((y :: l1) ++ l2)).
      change (String.concat sep (x :: y :: l1))
        with (x ++ sep ++ String.concat sep (y :: l1)).
      rewrite IH. now rewrite !append_assoc.
Qed.

(** X3. Raising the page limit only appends text: when no page among
    the first [n2] fails, the text extracted with a limit [n1 <= n2] is a
    leading part of the text extracted with the limit [n2]. *)
Theorem extract_text_grows_with_limit
        (w : world) (pdf_path : string) (pages : list page) (n1 n2 : Z) :
  lookup pdf_path (dir w) = Some (Document pages) ->
  (n1 <= n2)%Z ->
  forallb Spec.page_ok (Spec.leading_pages pages n2) = true ->
  exists t1 t2,
    fst (extract_text pdf_path n1 w) = Ok t1 /\
    fst (extract_text pdf_path n2 w) = Ok t2 /\
    is_prefix t1 t2.
Proof.
  intros Hf Hle Hok.
  destruct (extract_text_run pdf_path n1 w) as (ev1 & -> & _).
  destruct (extract_text_run pdf_path n2 w) as (ev2 & -> & _).
  cbn [fst]. rewrite Hf. unfold Spec.extract_text. rewrite Hok.
  rewrite !leading_pages_firstn in *.
  rewrite (firstn_le_split pages (Z.to_nat n1) (Z.to_nat n2)) in * by lia.
  rewrite forallb_app in Hok. apply andb_true_iff in Hok.
  destruct Hok as [Hok1 _]. rewrite Hok1.
  do 2 eexists. repeat split.
  unfold Spec.non_empty_page_texts. rewrite map_app, filter_app.
  apply join_app_prefix.
Qed.

Lemma extract_text_grows_with_limit_witness :
  exists t1 t2,
    fst (extract_text "a.pdf" 1
                      (folder [("a.pdf", document ["one"; "two"; "three"])]))
    = Ok t1 /\
    fst (extract_text "a.pdf" 3
                      (folder [("a.pdf", document ["one"; "two"; "three"])]))
    = Ok t2 /\
    is_prefix t1 t2.
Proof.
  apply (extract_text_grows_with_limit
           (folder [("a.pdf", document ["one"; "two"; "three"])])
           "a.pdf" (map (fun s => Ok (Some s)) ["one"; "two"; "three"]) 1 3).
  - reflexivity.
  - lia.
  - reflexivity.
Defined.

(* ================================================================== *)
(** * The count and the log *)

Lemma render_name_has_suffix (py : runtime) (template : string)
      (m : match_object) (new_name : string) :
  render_name py template m = Ok new_name -> endswith new_name ".pdf" = true.
Proof.
  unfold render_name.
  destruct (Format.format py template _ _) as [s|e]; [|discriminate].
  destruct (endswith s ".pdf") eqn:E; cbn [negb]; intros H;
    injection H as <-; [assumption|].
  apply endswith_iff. now exists s.
Qed.

Lemma lookup_none_iff (name : string) (d : list (string * pdf_file)) :
  lookup name d = None <-> ~ In name (map fst d).
Proof.
  induction d as [|[n f] d IH]; simpl.
  - split; [intros _ [] | reflexivity].
  - destruct (String.eqb_spec n name) as [->|Hne].
    + split; [discriminate | intros H; exfalso; apply H; now left].
    + rewrite IH. split.
      * intros H [E | Hin]; [congruence | now apply H].
      * intros H Hin. apply H. now right.
Qed.

Lemma planned_renames_logged_one (w : world) (ev : event) :
  planned_renames [ev] = [] ->
  planned_renames (trace (logged w [ev])) = planned_renames (trace w).
Proof.
  intros H. unfold logged; cbn [trace].
  now rewrite planned_renames_app, H, app_nil_r.
Qed.

Lemma try_rename_count (py : runtime) (template : string) (dry_run : bool)
      (pdf : string) (matched matched' : nat) (m : match_object)
      (w w' : world) :
  try_rename py template dry_run pdf matched m w = (Ok matched', w') ->
  (matched' = matched /\
   planned_renames (trace w') = planned_renames (trace w)) \/
  (matched' = (matched + 1)%nat /\
   exists new_name,
     render_name py template m = Ok new_name /\
     contains_char "/" new_name = false /\
     planned_renames (trace w') =
     (planned_renames (trace w) ++ [(pdf, new_name)])%list).
Proof.
  destruct (render_name py template m) as [new_name|e] eqn:Hr.
  - destruct (contains_char "/" new_name) eqn:Hsep.
    + rewrite (try_rename_invalid_name _ _ _ _ _ _ _ _ Hr Hsep).
      discriminate.
    + assert (Hfree :
                lookup new_name (dir w) = None \/ new_name = pdf ->
                try_rename py template dry_run pdf matched m w
                = (Ok matched', w') ->
                matched' = (matched + 1)%nat /\
                planned_renames (trace w') =
                (planned_renames (trace w) ++ [(pdf, new_name)])%list).
      { intros H. destruct dry_run.
        - rewrite (try_rename_preview _ _ _ _ _ _ _ Hr Hsep H).
          intros E. injection E as <- <-. split; [reflexivity|].
          unfold logged; cbn [trace]. now rewrite planned_renames_app.
        - rewrite (try_rename_apply _ _ _ _ _ _ _ Hr Hsep H).
          unfold path_rename, logged. cbn [dir os_refuses trace].
          destruct (os_refuses _ _ _); [discriminate|].
          destruct (lookup pdf _); [|discriminate].
          destruct (String.eqb pdf new_name);
            intros E; injection E as <- <-; cbn [trace];
              (split; [reflexivity | now rewrite planned_renames_app]). }
      destruct (lookup new_name (dir w)) as [f|] eqn:Hl.
      * destruct (String.eqb_spec new_name pdf) as [E|Hne].
        -- intros H. right.
           destruct (Hfree (or_intror E) H) as [H1 H2].
           split; [assumption|]. now exists new_name.
        -- rewrite (try_rename_collision _ _ _ _ _ _ _ _ _ Hr Hsep Hl Hne).
           intros E. injection E as <- <-. left. split; [reflexivity|].
           now apply planned_renames_logged_one.
      * intros H. right.
        destruct (Hfree (or_introl eq_refl) H) as [H1 H2].
        split; [assumption|]. now exists new_name.
  - destruct (catches_template_error e) eqn:Hc.
    + rewrite (try_rename_template_error _ _ _ _ _ _ _ _ Hr Hc).
      intros E. injection E as <- <-. left. split; [reflexivity|].
      unfold logged; cbn [trace].
      now rewrite planned_renames_app, app_nil_r.
    + rewrite (try_rename_uncaught _ _ _ _ _ _ _ _ Hr Hc). discriminate.
Qed.

Lemma process_pdf_count (py : runtime) (rx : pattern_object)
      (template : string) (max_pages : Z) (dry_run : bool) (pdf : string)
      (matched matched' : nat) (w w' : world) :
  process_pdf py rx template max_pages dry_run pdf matched w
  = (Ok matched', w') ->
  (matched' = matched /\
   planned_renames (trace w') = planned_renames (trace w)) \/
  (matched' = (matched + 1)%nat /\
   exists new_name,
     endswith new_name ".pdf" = true /\
     planned_renames (trace w') =
     (planned_renames (trace w) ++ [(pdf, new_name)])%list).
Proof.
  destruct (process_pdf_run max_pages pdf w) as (ev & Hev & Hstep).
  rewrite Hstep.
  assert (Hev1 : planned_renames (trace w ++ [ev])
                 = planned_renames (trace w)).
  { rewrite planned_renames_app.
    now rewrite (planned_renames_extraction _ _ _ Hev), app_nil_r. }
  assert (Hskip : forall msg,
             planned_renames ((trace w ++ [ev]) ++ [Log WARNING msg])
             = planned_renames (trace w)).
  { intros msg. now rewrite planned_renames_app, app_nil_r. }
  unfold search_and_rename.
  destruct (negb (truthy _)).
  - intros E. injection E as <- <-. left. split; [reflexivity|].
    cbn [trace]. apply Hskip.
  - destruct (rx _) as [m|].
    + intros H. apply try_rename_count in H.
      unfold logged in H. cbn [trace] in H. rewrite Hev1 in H.
      destruct H as [H | (H1 & new_name & Hr & Hsep & H2)]; [now left|].
      right. split; [assumption|]. exists new_name.
      split; [|assumption].
      eapply render_name_has_suffix; eassumption.
    + intros E. injection E as <- <-. left. split; [reflexivity|].
      cbn [trace]. apply Hskip.
Qed.

(** The rename lines a completed loop has written. *)
Lemma for_each_count (py : runtime) (rx : pattern_object)
      (template : string) (max_pages : Z) (dry_run : bool) :
  forall pdfs matched matched' w w',
    for_each pdfs (process_pdf py rx template max_pages dry_run) matched w
    = (Ok matched', w') ->
    exists plans,
      planned_renames (trace w') = (planned_renames (trace w) ++ plans)%list /\
      matched' = (matched + List.length plans)%nat /\
      (List.length plans <= List.length pdfs)%nat /\
      Forall (fun p => In (fst p) pdfs /\
                       endswith (snd p) ".pdf" = true) plans.
Proof.
  induction pdfs as [|pdf pdfs IH]; intros matched matched' w w' H.
  - simpl in H. injection H as <- <-. exists [].
    rewrite app_nil_r. repeat split; auto; simpl; lia.
  - simpl in H. unfold bind in H.
    destruct (process_pdf py rx template max_pages dry_run pdf matched w)
      as [[n1|e] w1] eqn:Hstep; [|discriminate].
    apply process_pdf_count in Hstep.
    destruct (IH _ _ _ _ H) as (plans & Hp & Hn & Hlen & Hall).
    assert (Hall' : Forall (fun p => In (fst p) (pdf :: pdfs) /\
                                     endswith (snd p) ".pdf" = true) plans).
    { eapply Forall_impl; [|exact Hall].
      intros p (Hin & H1). split; [now right | assumption]. }
    destruct Hstep as [[-> Ht] | (-> & new_name & Hsuf & Ht)].
    + exists plans. rewrite Hp, Ht.
      repeat split; try assumption; simpl; lia.
    + exists ((pdf, new_name) :: plans). rewrite Hp, Ht.
      rewrite <- app_assoc. repeat split.
      * simpl. lia.
      * simpl. lia.
      * constructor; [|assumption]. cbn [fst snd].
        split; [now left | assumption].
Qed.

(** X6. When a batch completes, the count it returns is the number of
    rename lines it has written, and it is at most the number of
    candidates.  Every such line names a candidate as its source and a
    destination that ends in [.pdf]. *)
Theorem returned_count_is_number_of_rename_lines
        (py : runtime) (pattern template : string) (max_pages : Z)
        (dry_run : bool) (w w' : world) (matched : nat) :
  rename_from_text py pattern template max_pages dry_run w
  = (Ok matched, w') ->
  exists plans,
    planned_renames (trace w') = (planned_renames (trace w) ++ plans)%list /\
    matched = List.length plans /\
    (matched <= List.length (candidates w))%nat /\
    Forall (fun p => In (fst p) (candidates w) /\
                     endswith (snd p) ".pdf" = true) plans.
Proof.
  destruct (re_compile py pattern) as [rx|e] eqn:Hc.
  - destruct (candidates w) as [|pdf pdfs] eqn:Hcand.
    + rewrite (rename_from_text_no_candidates
                 py rx pattern template max_pages dry_run w Hc Hcand).
      intros E. injection E as <- <-. exists [].
      rewrite app_nil_r. repeat split; auto.
      now apply planned_renames_logged_one.
    + rewrite (rename_from_text_run py rx pattern template max_pages
                                    dry_run w Hc)
        by (rewrite Hcand; discriminate).
      rewrite Hcand.
      destruct (for_each _ _ _ _) as [[n|e] w1] eqn:Hloop; [|discriminate].
      intros E. injection E as <- <-.
      apply for_each_count in Hloop.
      destruct Hloop as (plans & Hp & Hn & Hlen & Hall).
      exists plans. repeat split; try assumption; try lia.
      unfold logged in *. cbn [trace] in *.
      rewrite planned_renames_app, planned_renames_footer, app_nil_r, Hp.
      now rewrite planned_renames_app, app_nil_r.
  - assert (He : e = ReError \/ e <> ReError)
      by (destruct e; (now left) || (right; discriminate)).
    destruct He as [-> | He].
    + rewrite (rename_from_text_bad_pattern
                 py pattern template max_pages dry_run w Hc).
      intros E. injection E as <- <-. exists [].
      rewrite app_nil_r. repeat split; auto; try lia.
      now apply planned_renames_logged_one.
    + rewrite (rename_from_text_compile_raises
                 py pattern template max_pages dry_run w e Hc He).
      discriminate.
Qed.

Lemma returned_count_is_number_of_rename_lines_witness :
  exists plans,
    planned_renames
      (trace (snd (rename_from_text
                     mini_runtime "Invoice #(\d+)" "INV_{1}" 1 false
                     (folder [("jan.pdf", document ["Invoice #4521"]);
                              ("feb.pdf", document ["no number"])])))) =
    (planned_renames
       (trace (folder [("jan.pdf", document ["Invoice #4521"]);
                       ("feb.pdf", document ["no number"])])) ++ plans)%list /\
    1%nat = List.length plans /\
    (1 <= List.length
            (candidates (folder [("jan.pdf", document ["Invoice #4521"]);
                                 ("feb.pdf", document ["no number"])])))%nat /\
    Forall (fun p =>
              In (fst p)
                 (candidates
                    (folder [("jan.pdf", document ["Invoice #4521"]);
                             ("feb.pdf", document ["no number"])])) /\
              endswith (snd p) ".pdf" = true) plans.
Proof.
  apply (returned_count_is_number_of_rename_lines
           mini_runtime "Invoice #(\d+)" "INV_{1}" 1 false
           (folder [("jan.pdf", document ["Invoice #4521"]);
                    ("feb.pdf", document ["no number"])])).
  vm_compute. reflexivity.
Defined.

(* ================================================================== *)
(** * Placeholders that name no group *)

(** Automatic placeholders never switch to manual numbering, and each
    of them takes the next slot. *)
Lemma automatic_numbering (ps : list piece) :
  automatic ps = true ->
  forall an,
    an_mode an <> ANS_MANUAL ->
    an_mode (fold_left numbering_after ps an) <> ANS_MANUAL /\
    an_field_number (fold_left numbering_after ps an) =
    (an_field_number an + List.length (filter is_next ps))%nat.
Proof.
  induction ps as [|p ps IH]; intros Ha an Han.
  - split; [assumption | simpl; lia].
  - simpl in Ha. apply andb_true_iff in Ha. destruct Ha as [Hp Ha].
    destruct p; try discriminate Hp;
      cbn [fold_left numbering_after filter is_next];
      try (now apply IH).
    destruct (IH Ha (mkAuto ANS_AUTO (S (an_field_number an)))) as [H1 H2];
      [discriminate|].
    split; [exact H1|]. rewrite H2. cbn [an_field_number List.length]. lia.
Qed.

(** The first placeholder of a template that names nothing: what
    precedes it is rendered, and the lookup of the field raises. *)
Lemma format_missing_field (py : runtime) (args : list value)
      (kwargs : list (string * value)) (before : list piece)
      (name rest : string) :
  resolved py args kwargs before 0 ->
  (manual before = true /\
   exists k, is_index py name k /\ (List.length args <= k)%nat) \/
  (automatic before = true /\ name = "" /\
   (List.length args <= List.length (filter is_next before))%nat) \/
  ((manual before = true \/ automatic before = true) /\
   is_keyword py name /\ Format.kwargs_get name kwargs = None) ->
  exists e,
    (e = IndexError \/ e = KeyError) /\
    Format.format py (template_of before ++ "{" ++ name ++ "}" ++ rest)
                  args kwargs = Raise e.
Proof.
  intros Hres Hmissing. unfold Format.format.
  assert (Hco : manual before = true \/ automatic before = true).
  { destruct Hmissing as [[H _] | [[H _] | [H _]]]; auto. }
  assert (Hplain : plain_name name = true).
  { destruct Hmissing as [(_ & k & Hidx & _) | [(_ & -> & _) | (_ & Hkw & _)]].
    - now destruct (is_index_plain _ _ _ Hidx).
    - reflexivity.
    - apply Hkw. }
  rewrite render_pieces by assumption.
  change ("{" ++ name ++ "}" ++ rest)
    with (String "{" (name ++ String "}" rest)).
  rewrite render_placeholder by assumption.
  destruct Hmissing as [(Hman & k & Hidx & Hk)
                       | [(Haut & -> & Hk) | (_ & Hkw & Hnone)]].
  - exists IndexError. split; [now left|].
    destruct (manual_numbering before Hman (mkAuto ANS_INIT 0))
      as [Hmode _]; [discriminate|].
    rewrite (get_field_slot py name k args kwargs _ Hidx Hmode).
    assert (Hnth : nth_error args k = None) by now apply nth_error_None.
    now rewrite Hnth.
  - exists IndexError. split; [now left|].
    destruct (automatic_numbering before Haut (mkAuto ANS_INIT 0))
      as [Hmode Hnum]; [discriminate|].
    rewrite get_field_next by assumption.
    assert (Hnth : nth_error args
                             (an_field_number
                                (fold_left numbering_after before
                                           (mkAuto ANS_INIT 0))) = None).
    { apply nth_error_None. rewrite Hnum. cbn [an_field_number]. lia. }
    now rewrite Hnth.
  - exists KeyError. split; [now right|].
    now rewrite (get_field_keyword py name args kwargs _ Hkw), Hnone.
Qed.



(** X8. Automatic numbering counts the slots from 0, and slot 0 of the
    substitution context is the dummy [None].  In a template whose
    placeholders are [{}] and [{name}], each [{}] renders the slot after
    the one of the [{}] before it: the first one renders the dummy as
    the text [None], the second one renders group 1, and so on.  The
    placeholder [{0}] renders the dummy too. *)
Theorem automatic_placeholders_count_from_slot_zero
        (py : runtime) (m : match_object) (ps : list piece) :
  resolved py (groups_1indexed m) (groupdict m) ps 0 ->
  automatic ps = true ->
  Format.format py (template_of ps) (groups_1indexed m) (groupdict m)
  = Ok (substituted (groups_1indexed m) (groupdict m) ps 0) /\
  (forall pre post,
      brace_free pre = true -> brace_free post = true ->
      Format.format py (pre ++ "{}" ++ post)
                    (groups_1indexed m) (groupdict m)
      = Ok (pre ++ "None" ++ post) /\
      Format.format py (pre ++ "{0}" ++ post)
                    (groups_1indexed m) (groupdict m)
      = Ok (pre ++ "None" ++ post)) /\
  (forall pre mid post v,
      brace_free pre = true -> brace_free mid = true ->
      brace_free post = true ->
      nth_error (groups m) 0 = Some v ->
      Format.format py (pre ++ "{}" ++ mid ++ "{}" ++ post)
                    (groups_1indexed m) (groupdict m)
      = Ok (pre ++ "None" ++ mid ++ str v ++ post)).
Proof.
  intros Hres Haut. split; [|split].
  - apply format_pieces; [assumption | now right].
  - intros pre post Hpre Hpost. split.
    + pose proof (format_pieces
                    py (groups_1indexed m) (groupdict m)
                    [Text pre; Next; Text post]) as H.
      cbn [template_of piece_source substituted] in H.
      rewrite !append_empty_r in H.
      rewrite H; [reflexivity | | now right].
      cbn. repeat split; (assumption || lia).
    + now apply (format_positional py (groups_1indexed m) (groupdict m)
                                   pre "0" post 0 None).
  - intros pre mid post v Hpre Hmid Hpost Hv.
    assert (Hlen : (1 < List.length (groups_1indexed m))%nat).
    { cbn [groups_1indexed List.length].
      assert (0 < List.length (groups m))%nat; [|lia].
      apply nth_error_Some. congruence. }
    pose proof (format_pieces
                  py (groups_1indexed m) (groupdict m)
                  [Text pre; Next; Text mid; Next; Text post]) as H.
    cbn [template_of piece_source substituted] in H.
    rewrite !append_empty_r in H.
    rewrite H; [| cbn; repeat split; (assumption || lia) | now right].
    cbn [groups_1indexed nth].
    replace (nth 0 (groups m) None) with v
      by (symmetry; now apply nth_error_nth).
    reflexivity.
Qed.

Lemma automatic_placeholders_count_from_slot_zero_witness :
  let m := mkMatch [Some "4521"; None; Some "May"] [("year", Some "2024")] in
  Format.format mini_runtime "{}_{}_{year}_{}_{}"
                (groups_1indexed m) (groupdict m)
  = Ok "None_4521_2024_None_May".
Proof.
  intros m.
  apply (proj1 (automatic_placeholders_count_from_slot_zero
                  mini_runtime m
                  [Next; Text "_"; Next; Text "_"; Named "year"; Text "_";
                   Next; Text "_"; Next]
                  ltac:(vm_compute; repeat split; (discriminate || lia))
                  eq_refl)).
Defined.

(* ================================================================== *)
(** * A file that already has its name *)

(** X9. When the rendered name is the file's own name, the guard lets it
    pass although the name exists: the file is reported and counted in
    both modes, and in apply mode the rename leaves the folder as it
    is. *)
Theorem rename_onto_own_name_is_counted
        (py : runtime) (rx : pattern_object) (template : string)
        (max_pages : Z) (pdf : string) (matched : nat) (w : world)
        (m : match_object) :
  truthy (Spec.extract_text (lookup pdf (dir w)) max_pages) = true ->
  rx (Spec.extract_text (lookup pdf (dir w)) max_pages) = Some m ->
  render_name py template m = Ok pdf ->
  contains_char "/" pdf = false ->
  exists ev,
    extraction_event pdf ev /\
    process_pdf py rx template max_pages true pdf matched w =
    (Ok (matched + 1)%nat, logged w [ev; Log INFO (MsgRename true pdf pdf)]) /\
    (os_refuses w pdf pdf = false ->
     process_pdf py rx template max_pages false pdf matched w =
     (Ok (matched + 1)%nat,
      logged w [ev; Log INFO (MsgRename false pdf pdf)])).
Proof.
  intros Ht Hm Hr Hsep.
  destruct (extracted_text_has_file _ _ Ht) as [f Hf].
  destruct (process_pdf_run max_pages pdf w) as (ev & Hev & Hstep).
  exists ev. split; [assumption|]. rewrite !Hstep.
  unfold search_and_rename. rewrite Ht, Hm. cbn [negb]. split.
  - rewrite (try_rename_preview py template pdf matched m pdf
                                (logged w [ev]) Hr Hsep (or_intror eq_refl)).
    now rewrite logged_logged.
  - intros Hos.
    rewrite (try_rename_apply py template pdf matched m pdf
                              (logged w [ev]) Hr Hsep (or_intror eq_refl)).
    unfold path_rename. cbn [dir os_refuses logged].
    rewrite Hos, Hf, String.eqb_refl.
    unfold logged. cbn [dir os_refuses trace]. now rewrite <- app_assoc.
Qed.

Lemma rename_onto_own_name_is_counted_witness :
  exists ev,
    extraction_event "INV_4521.pdf" ev /\
    process_pdf mini_runtime (compiled "Invoice #(\d+)") "INV_{1}" 1 true
                "INV_4521.pdf" 0
                (folder [("INV_4521.pdf", document ["Invoice #4521"])]) =
    (Ok (0 + 1)%nat,
     logged (folder [("INV_4521.pdf", document ["Invoice #4521"])])
            [ev; Log INFO (MsgRename true "INV_4521.pdf" "INV_4521.pdf")]) /\
    (os_refuses (folder [("INV_4521.pdf", document ["Invoice #4521"])])
                "INV_4521.pdf" "INV_4521.pdf" = false ->
     process_pdf mini_runtime (compiled "Invoice #(\d+)") "INV_{1}" 1 false
                 "INV_4521.pdf" 0
                 (folder [("INV_4521.pdf", document ["Invoice #4521"])]) =
     (Ok (0 + 1)%nat,
      logged (folder [("INV_4521.pdf", document ["Invoice #4521"])])
             [ev; Log INFO (MsgRename false "INV_4521.pdf" "INV_4521.pdf")])).
Proof.
  apply (rename_onto_own_name_is_counted
           mini_runtime (compiled "Invoice #(\d+)") "INV_{1}" 1
           "INV_4521.pdf" 0
           (folder [("INV_4521.pdf", document ["Invoice #4521"])])
           (mkMatch [Some "4521"] [])).
  - reflexivity.
  - vm_compute. reflexivity.
  - reflexivity.
  - reflexivity.
Defined.

(* ================================================================== *)
(** * [main] *)

Lemma reads_only_main (py : runtime) (folder_exists : bool)
      (args : namespace) :
  asks_to_apply args = false ->
  reads_only (main py folder_exists args).
Proof.
  intros Happly. unfold main. apply reads_only_try_except.
  - destruct args as [pdf pages | pattern template pages apply].
    + reads_only_seq. destruct (negb a); [auto with reads_only|].
      apply reads_only_bind; [apply reads_only_extract_text | intros txt].
      destruct (truthy txt); [|auto with reads_only].
      do 3 reads_only_seq. auto with reads_only.
    + simpl in Happly. subst apply.
      destruct (negb folder_exists); [auto with reads_only|].
      apply reads_only_bind;
        [apply reads_only_rename_from_text_preview | intros n].
      auto with reads_only.
  - intros e. auto with reads_only.
Qed.

(** X10. Without [--apply] the program never changes the folder: both
    [extract] and a [rename] preview only append to the log and to the
    standard output, whatever the arguments and whatever goes wrong. *)
Theorem main_without_apply_changes_nothing
        (py : runtime) (folder_exists : bool) (args : namespace) (w : world) :
  asks_to_apply args = false ->
  exists r evs, main py folder_exists args w = (r, logged w evs).
Proof.
  intros Happly. destruct w as [d o t].
  destruct (reads_only_main py folder_exists args Happly d o)
    as (r & evs & H).
  exists r, evs. apply H.
Qed.

Lemma main_without_apply_changes_nothing_witness :
  exists r evs,
    main mini_runtime true (CmdRename "Invoice #(\d+)" "INV_{1}" 1 false)
         (folder [("a.pdf", document ["Invoice #4521"])]) =
    (r, logged (folder [("a.pdf", document ["Invoice #4521"])]) evs).
Proof.
  apply (main_without_apply_changes_nothing
           mini_runtime true (CmdRename "Invoice #(\d+)" "INV_{1}" 1 false)
           (folder [("a.pdf", document ["Invoice #4521"])])).
  reflexivity.
Defined.

(** X11. [main] catches every exception and ends with exit code 0, 1
    or 2. *)
Theorem main_exit_code_is_0_1_or_2
        (py : runtime) (folder_exists : bool) (args : namespace) (w : world) :
  exists r w',
    main py folder_exists args w = (Ok r, w') /\
    (exit_code r = 0 \/ exit_code r = 1 \/ exit_code r = 2)%Z.
Proof.
  unfold main, try_except.
  match goal with |- context [match ?b w with _ => _ end] =>
                  destruct (b w) as [[r|e] w1] eqn:Hbody end.
  - exists r, w1. split; [reflexivity|].
    destruct args as [pdf pages | pattern template pages apply].
    + unfold bind, path_exists, ret in Hbody.
      destruct (lookup pdf (dir w)); cbn [negb] in Hbody.
      * destruct (extract_text_run pdf pages w) as (ev & Hrun & _).
        rewrite Hrun in Hbody.
        destruct (truthy _); cbn in Hbody;
          injection Hbody as <- _; cbn; auto.
      * injection Hbody as <- _. cbn. auto.
    + destruct (negb folder_exists).
      * injection Hbody as <- _. cbn. auto.
      * unfold bind, ret in Hbody.
        destruct (rename_from_text _ _ _ _ _ _) as [[n|e] w2];
          [|discriminate].
        injection Hbody as <- _. destruct (0 <? n)%nat; cbn; auto.
  - exists (main_handler e), w1. split; [reflexivity|].
    destruct e; cbn; auto.
Qed.

(** X12. The [extract] command: exit code 2 and nothing done when the
    file does not exist; otherwise exit code 0 with the separator line,
    the text and the separator line on standard output when text was
    extracted, and exit code 1 with a warning when it was not. *)
Theorem main_extract_exit_codes
        (py : runtime) (folder_exists : bool) (pdf : string) (pages : Z)
        (w : world) :
  match lookup pdf (dir w) with
  | None =>
    main py folder_exists (CmdExtract pdf pages) w =
    (Ok (mkCli 2 [(ERROR, MsgFileNotFound pdf)]), w)
  | Some f =>
    let txt := Spec.extract_text (Some f) pages in
    exists ev,
      extraction_event pdf ev /\
      main py folder_exists (CmdExtract pdf pages) w =
      (if truthy txt
       then (Ok (mkCli 0 []),
             logged w [ev; Print (newline ++ frame); Print txt; Print frame])
       else (Ok (mkCli 1 [(WARNING, MsgNoTextExtracted)]), logged w [ev]))
  end.
Proof.
  destruct (lookup pdf (dir w)) as [f|] eqn:Hf.
  - destruct (extract_text_run pdf pages w) as (ev & Hrun & Hev).
    rewrite Hf in Hrun. exists ev. split; [assumption|].
    unfold main, try_except, bind, path_exists. rewrite Hf. cbn [negb].
    rewrite Hrun.
    destruct (truthy (Spec.extract_text (Some f) pages)); [|reflexivity].
    unfold print, emit, ret, logged. cbn [dir os_refuses trace].
    now rewrite <- !app_assoc.
  - unfold main, try_except, bind, path_exists. now rewrite Hf.
Qed.

(** X13. The [rename] command: exit code 2 and nothing done when the
    folder does not exist.  Otherwise the folder and the log are what
    the batch leaves; the exit code is 0 exactly when the batch completed
    with at least one file counted, 2 when it stopped on a [ValueError],
    and 1 when it completed with no file counted or stopped on another
    exception.  A malformed pattern therefore gives 1, not 2. *)
Theorem main_rename_exit_codes
        (py : runtime) (pattern template : string) (pages : Z)
        (apply : bool) (w : world) :
  let run := rename_from_text py pattern template pages (negb apply) w in
  main py false (CmdRename pattern template pages apply) w =
  (Ok (mkCli 2 [(ERROR, MsgFolderNotFound)]), w) /\
  (exists r,
      main py true (CmdRename pattern template pages apply) w
      = (Ok r, snd run) /\
      (exit_code r = 0%Z <-> exists n, fst run = Ok n /\ (0 < n)%nat) /\
      (exit_code r = 2%Z <-> fst run = Raise ValueError) /\
      (re_compile py pattern = Raise ReError -> exit_code r = 1%Z)).
Proof.
  intros run. split; [reflexivity|].
  unfold main, try_except, bind, ret. cbn [negb]. fold run.
  destruct run as [[n|e] w1] eqn:Hrun; cbn [fst snd].
  - eexists. split; [reflexivity|]. cbn [exit_code]. repeat split.
    + destruct (Nat.ltb_spec 0 n); [|discriminate].
      intros _. now exists n.
    + intros (n' & E & Hn). injection E as <-.
      destruct (Nat.ltb_spec 0 n); [reflexivity | lia].
    + destruct (0 <? n)%nat; discriminate.
    + discriminate.
    + intros Hbad.
      assert (E : run = (Ok 0%nat, logged w [Log ERROR MsgInvalidRegex]))
        by (now apply rename_from_text_bad_pattern).
      rewrite Hrun in E. now injection E as ->.
  - exists (main_handler e). split; [reflexivity|]. repeat split.
    + destruct e; discriminate.
    + intros (n' & E & _). discriminate.
    + destruct e; cbn; intros H; try discriminate; reflexivity.
    + intros E. injection E as ->. reflexivity.
    + intros Hbad.
      assert (E : run = (Ok 0%nat, logged w [Log ERROR MsgInvalidRegex]))
        by (now apply rename_from_text_bad_pattern).
      rewrite Hrun in E. discriminate.
Qed.

Lemma main_rename_exit_codes_witness :
  exists r,
    main mini_runtime true (CmdRename "Invoice #(\d+" "INV_{1}" 1 true)
         (folder [("a.pdf", document ["Invoice #4521"])]) =
    (Ok r,
     snd (rename_from_text mini_runtime "Invoice #(\d+" "INV_{1}" 1
                           (negb true)
                           (folder [("a.pdf", document ["Invoice #4521"])])))
    /\ exit_code r = 1%Z.
Proof.
  destruct (proj2 (main_rename_exit_codes
                     mini_runtime "Invoice #(\d+" "INV_{1}" 1 true
                     (folder [("a.pdf", document ["Invoice #4521"])])))
    as (r & Hmain & _ & _ & Hbad).
  exists r. split; [exact Hmain | apply Hbad; vm_compute; reflexivity].
Defined.

(* ================================================================== *)
(** * When the preview can be trusted *)

Section Plans.
Variable py : runtime.
Variable rx : pattern_object.
Variable template : string.
Variable max_pages : Z.

Lemma plan_move_has_file (f : option pdf_file) (new_name : string) :
  plan_for py rx template max_pages f = Move new_name -> exists x, f = Some x.
Proof.
  unfold plan_for. destruct (truthy _) eqn:Ht; [|discriminate].
  intros _. eapply extracted_text_has_file; eassumption.
Qed.

Lemma process_pdf_plan_skip (dry_run : bool) (pdf : string) (matched : nat)
      (w : world) :
  plan_for py rx template max_pages (lookup pdf (dir w)) = Skip ->
  exists evs,
    planned_renames evs = [] /\
    process_pdf py rx template max_pages dry_run pdf matched w =
    (Ok matched, logged w evs).
Proof.
  unfold plan_for.
  destruct (truthy _) eqn:Ht.
  - destruct (rx _) as [m|] eqn:Hm.
    + destruct (render_name py template m) as [new_name|e] eqn:Hr.
      * destruct (contains_char "/" new_name); discriminate.
      * destruct (catches_template_error e) eqn:Hc; [|discriminate].
        intros _.
        destruct (process_pdf_template_error
                    py rx template max_pages pdf matched w dry_run m e
                    Ht Hm Hr Hc) as (ev & Hev & Hstep).
        eexists. split; [|exact Hstep].
        now rewrite (planned_renames_extraction _ _ _ Hev).
    + intros _.
      destruct (process_pdf_not_found
                  py rx template max_pages pdf matched w dry_run Ht Hm)
        as (ev & Hev & Hstep).
      eexists. split; [|exact Hstep].
      now rewrite (planned_renames_extraction _ _ _ Hev).
  - intros _.
    destruct (process_pdf_no_text
                py rx template max_pages pdf matched w dry_run Ht)
      as (ev & Hev & Hstep).
    eexists. split; [|exact Hstep].
    now rewrite (planned_renames_extraction _ _ _ Hev).
Qed.

Lemma plan_move_inv (f : option pdf_file) (new_name : string) :
  plan_for py rx template max_pages f = Move new_name ->
  exists m,
    truthy (Spec.extract_text f max_pages) = true /\
    rx (Spec.extract_text f max_pages) = Some m /\
    render_name py template m = Ok new_name /\
    contains_char "/" new_name = false.
Proof.
  unfold plan_for.
  destruct (truthy _) eqn:Ht; [|discriminate].
  destruct (rx _) as [m|] eqn:Hm; [|discriminate].
  destruct (render_name py template m) as [n|e] eqn:Hr.
  - destruct (contains_char "/" n) eqn:Hsep; [discriminate|].
    intros E. injection E as <-. now exists m.
  - destruct (catches_template_error e); discriminate.
Qed.

Lemma process_pdf_plan_move_preview (pdf new_name : string) (matched : nat)
      (w : world) :
  plan_for py rx template max_pages (lookup pdf (dir w)) = Move new_name ->
  lookup new_name (dir w) = None \/ new_name = pdf ->
  exists evs,
    planned_renames evs = [(pdf, new_name)] /\
    process_pdf py rx template max_pages true pdf matched w =
    (Ok (matched + 1)%nat, logged w evs).
Proof.
  intros Hplan Hfree.
  destruct (plan_move_inv _ _ Hplan) as (m & Ht & Hm & Hr & Hsep).
  destruct (process_pdf_preview py rx template max_pages pdf matched w
                                m new_name Ht Hm Hr Hsep Hfree)
    as (ev & Hev & Hstep).
  eexists. split; [|exact Hstep].
  now rewrite (planned_renames_extraction _ _ _ Hev).
Qed.

Lemma rename_entry_same (name : string) (d : list (string * pdf_file)) :
  rename_entry name name d = d.
Proof.
  unfold rename_entry. induction d as [|[n f] d IH]; [reflexivity|].
  simpl. rewrite IH.
  destruct (String.eqb_spec n name) as [->|_]; reflexivity.
Qed.

Lemma process_pdf_plan_move_apply (pdf new_name : string) (matched : nat)
      (w : world) :
  plan_for py rx template max_pages (lookup pdf (dir w)) = Move new_name ->
  lookup new_name (dir w) = None \/ new_name = pdf ->
  os_refuses w pdf new_name = false ->
  exists evs,
    planned_renames evs = [(pdf, new_name)] /\
    process_pdf py rx template max_pages false pdf matched w =
    (Ok (matched + 1)%nat,
     mkWorld (rename_entry pdf new_name (dir w)) (os_refuses w)
             (trace w ++ evs)).
Proof.
  intros Hplan Hfree Hos.
  destruct (plan_move_has_file _ _ Hplan) as [f Hf].
  destruct (plan_move_inv _ _ Hplan) as (m & Ht & Hm & Hr & Hsep).
  destruct (String.eqb_spec new_name pdf) as [->|Hne].
  - destruct (process_pdf_found py rx template max_pages pdf matched w
                                false m Ht Hm) as (ev & Hev & Hstep).
    exists [ev; Log INFO (MsgRename false pdf pdf)]. split.
    + now rewrite (planned_renames_extraction _ _ _ Hev).
    + rewrite Hstep.
      rewrite (try_rename_apply py template pdf matched m pdf
                                (logged w [ev]) Hr Hsep (or_intror eq_refl)).
      unfold path_rename. cbn [dir os_refuses logged].
      rewrite Hos, Hf, String.eqb_refl, rename_entry_same.
      unfold logged. cbn [dir os_refuses trace]. now rewrite <- app_assoc.
  - destruct Hfree as [Hfree | E]; [|contradiction].
    destruct (process_pdf_apply py rx template max_pages pdf matched w
                                m new_name f Ht Hm Hr Hsep Hfree Hf Hos)
      as (ev & Hev & Hstep).
    eexists. split; [|exact Hstep].
    now rewrite (planned_renames_extraction _ _ _ Hev).
Qed.

Lemma moves_same_files (d1 d2 : list (string * pdf_file))
      (pdfs : list string) :
  (forall pdf, In pdf pdfs -> lookup pdf d1 = lookup pdf d2) ->
  moves py rx template max_pages d1 pdfs =
  moves py rx template max_pages d2 pdfs.
Proof.
  induction pdfs as [|pdf pdfs IH]; intros H; [reflexivity|].
  simpl. rewrite (H pdf (or_introl eq_refl)).
  rewrite IH by (intros p Hp; apply H; now right).
  reflexivity.
Qed.

(** The preview loop reports the intended moves. *)
Lemma preview_loop (pdfs : list string) :
  forall matched w,
    independent_moves py rx template max_pages (dir w) pdfs ->
    exists evs,
      planned_renames evs = moves py rx template max_pages (dir w) pdfs /\
      for_each pdfs (process_pdf py rx template max_pages true) matched w =
      (Ok (matched
           + List.length (moves py rx template max_pages (dir w) pdfs))%nat,
       logged w evs).
Proof.
  induction pdfs as [|pdf pdfs IH]; intros matched w (Hno & Hfree & Hinj).
  - exists []. split; [reflexivity|]. simpl. unfold ret.
    now rewrite Nat.add_0_r, logged_nil.
  - assert (Hrest : forall w1,
               dir w1 = dir w ->
               independent_moves py rx template max_pages (dir w1) pdfs).
    { intros w1 ->. repeat split.
      - intros p Hp. apply Hno. now right.
      - intros p n Hp. apply Hfree. now right.
      - intros p1 p2 n H1 H2. apply Hinj; now right. }
    cbn [moves].
    destruct (plan_for py rx template max_pages (lookup pdf (dir w)))
      as [| |new_name] eqn:Hplan.
    + destruct (process_pdf_plan_skip true pdf matched w Hplan)
        as (evs1 & Hp1 & Hstep).
      rewrite (for_each_cons _ _ _ _ _ _ _ Hstep).
      destruct (IH matched (logged w evs1) (Hrest _ eq_refl))
        as (evs2 & Hp2 & Hloop).
      exists (evs1 ++ evs2)%list. split.
      * now rewrite planned_renames_app, Hp1, Hp2.
      * rewrite Hloop. now rewrite logged_logged.
    + exfalso. apply (Hno pdf); [now left | assumption].
    + destruct (process_pdf_plan_move_preview
                  pdf new_name matched w Hplan
                  (Hfree pdf new_name (or_introl eq_refl) Hplan))
        as (evs1 & Hp1 & Hstep).
      rewrite (for_each_cons _ _ _ _ _ _ _ Hstep).
      destruct (IH (matched + 1)%nat (logged w evs1) (Hrest _ eq_refl))
        as (evs2 & Hp2 & Hloop).
      exists (evs1 ++ evs2)%list. split.
      * now rewrite planned_renames_app, Hp1, Hp2.
      * rewrite Hloop, logged_logged. cbn [dir logged List.length].
        f_equal. f_equal. lia.
Qed.

(** The apply loop carries the intended moves out. *)
Lemma apply_loop (pdfs : list string) :
  forall matched w,
    NoDup pdfs ->
    (forall pdf, In pdf pdfs -> lookup pdf (dir w) <> None) ->
    (forall src dst, os_refuses w src dst = false) ->
    independent_moves py rx template max_pages (dir w) pdfs ->
    exists evs,
      planned_renames evs = moves py rx template max_pages (dir w) pdfs /\
      for_each pdfs (process_pdf py rx template max_pages false) matched w =
      (Ok (matched
           + List.length (moves py rx template max_pages (dir w) pdfs))%nat,
       mkWorld (apply_moves (moves py rx template max_pages (dir w) pdfs)
                            (dir w))
               (os_refuses w) (trace w ++ evs)).
Proof.
  induction pdfs as [|pdf pdfs IH];
    intros matched w Hnodup Hexists Hos (Hno & Hfree & Hinj).
  - exists []. split; [reflexivity|]. simpl. unfold ret.
    rewrite Nat.add_0_r, app_nil_r. now destruct w.
  - inversion Hnodup as [|? ? Hnotin Hnodup']; subst.
    assert (Hkeep :
              forall d1,
                (forall p, In p pdfs -> lookup p d1 = lookup p (dir w)) ->
                (forall p n,
                    In p pdfs ->
                    plan_for py rx template max_pages (lookup p (dir w))
                    = Move n ->
                    lookup n d1 = None \/ n = p) ->
                (forall p, In p pdfs -> lookup p d1 <> None) /\
                independent_moves py rx template max_pages d1 pdfs).
    { intros d1 Hsame Hfree1. split.
      - intros p Hp. rewrite (Hsame p Hp). apply Hexists. now right.
      - repeat split.
        + intros p Hp. rewrite (Hsame p Hp). apply Hno. now right.
        + intros p n Hp. rewrite (Hsame p Hp). now apply Hfree1.
        + intros p1 p2 n H1 H2. rewrite (Hsame p1 H1), (Hsame p2 H2).
          apply Hinj; now right. }
    cbn [moves].
    destruct (plan_for py rx template max_pages (lookup pdf (dir w)))
      as [| |new_name] eqn:Hplan.
    + destruct (process_pdf_plan_skip false pdf matched w Hplan)
        as (evs1 & Hp1 & Hstep).
      rewrite (for_each_cons _ _ _ _ _ _ _ Hstep).
      destruct (Hkeep (dir w)) as [Hex1 Hind1].
      { reflexivity. }
      { intros p n Hp. apply Hfree. now right. }
      destruct (IH matched (logged w evs1) Hnodup' Hex1 Hos Hind1)
        as (evs2 & Hp2 & Hloop).
      exists (evs1 ++ evs2)%list. split.
      * now rewrite planned_renames_app, Hp1, Hp2.
      * rewrite Hloop. cbn [dir os_refuses trace logged].
        now rewrite <- app_assoc.
    + exfalso. apply (Hno pdf); [now left | assumption].
    + pose proof (Hfree pdf new_name (or_introl eq_refl) Hplan) as Hfree0.
      destruct (process_pdf_plan_move_apply
                  pdf new_name matched w Hplan Hfree0 (Hos pdf new_name))
        as (evs1 & Hp1 & Hstep).
      rewrite (for_each_cons _ _ _ _ _ _ _ Hstep).
      set (w1 := mkWorld (rename_entry pdf new_name (dir w)) (os_refuses w)
                         (trace w ++ evs1)).
      assert (Hsame : forall p, In p pdfs ->
                                lookup p (dir w1) = lookup p (dir w)).
      { intros p Hp. unfold w1. cbn [dir].
        destruct Hfree0 as [Hnone | ->].
        - apply lookup_rename_other.
          + intros ->. contradiction.
          + intros ->. apply (Hexists new_name); [now right | assumption].
        - now rewrite rename_entry_same. }
      assert (Hfree1 : forall p n,
                 In p pdfs ->
                 plan_for py rx template max_pages (lookup p (dir w))
                 = Move n ->
                 lookup n (dir w1) = None \/ n = p).
      { intros p n Hp Hpn.
        destruct (Hfree p n (or_intror Hp) Hpn) as [Hn | ->]; [|now right].
        left. unfold w1. cbn [dir].
        destruct Hfree0 as [Hnone | ->];
          [|now rewrite rename_entry_same].
        rewrite lookup_rename_other; [assumption | |].
        - intros ->. apply (Hexists pdf); [now left | assumption].
        - intros ->. apply Hnotin.
          rewrite (Hinj pdf p new_name); try assumption;
            [now left | now right]. }
      destruct (Hkeep (dir w1) Hsame Hfree1) as [Hex1 Hind1].
      destruct (IH (matched + 1)%nat w1 Hnodup' Hex1 Hos Hind1)
        as (evs2 & Hp2 & Hloop).
      rewrite (moves_same_files (dir w1) (dir w) pdfs Hsame) in *.
      exists (evs1 ++ evs2)%list. split.
      * now rewrite planned_renames_app, Hp1, Hp2.
      * rewrite Hloop. unfold w1. cbn [dir os_refuses trace List.length].
        unfold apply_moves. cbn [fold_left fst snd].
        rewrite <- app_assoc. f_equal. f_equal. lia.
Qed.

End Plans.

Lemma candidates_distinct (w : world) :
  distinct_names (dir w) -> NoDup (candidates w).
Proof.
  intros H. unfold candidates. now apply NoDup_filter.
Qed.

Lemma candidates_exist (w : world) (pdf : string) :
  In pdf (candidates w) -> lookup pdf (dir w) <> None.
Proof.
  intros Hin Hnone. apply lookup_none_iff in Hnone. apply Hnone.
  apply filter_In in Hin. apply Hin.
Qed.

(** X14. When the preview can be trusted.  Say that no two names of the
    folder are equal, that the operating system refuses no rename, and
    that the moves intended for the candidates cannot interfere: no file
    stops the batch, every rendered destination is a new name or the
    file's own name, and no two files render the same destination.  Then
    the preview and the apply run agree: both return the number of
    intended moves and report exactly these moves, in order, and the
    apply run leaves the folder with these renames done. *)
Theorem preview_predicts_apply
        (py : runtime) (rx : pattern_object) (pattern template : string)
        (max_pages : Z) (w : world) :
  re_compile py pattern = Ok rx ->
  distinct_names (dir w) ->
  (forall src dst, os_refuses w src dst = false) ->
  independent_moves py rx template max_pages (dir w) (candidates w) ->
  let ms := moves py rx template max_pages (dir w) (candidates w) in
  let preview := rename_from_text py pattern template max_pages true w in
  let applied := rename_from_text py pattern template max_pages false w in
  fst preview = Ok (List.length ms) /\
  planned_renames (trace (snd preview)) =
  (planned_renames (trace w) ++ ms)%list /\
  dir (snd preview) = dir w /\
  fst applied = Ok (List.length ms) /\
  planned_renames (trace (snd applied)) =
  (planned_renames (trace w) ++ ms)%list /\
  dir (snd applied) = apply_moves ms (dir w).
Proof.
  intros Hc Hd Hos Hind ms preview applied. subst ms preview applied.
  destruct (candidates w) as [|pdf pdfs] eqn:Hcand.
  - rewrite !(rename_from_text_no_candidates py rx pattern template
                                             max_pages _ w Hc Hcand).
    cbn [moves List.length fst snd dir logged trace apply_moves
                          fold_left].
    rewrite planned_renames_app, app_nil_r. cbn. rewrite app_nil_r.
    repeat split.
  - assert (Hne : candidates w <> []) by (rewrite Hcand; discriminate).
    assert (Hhead : forall dry_run,
               planned_renames
                 (batch_header pattern template dry_run
                               (List.length (candidates w))) = [])
      by reflexivity.
    rewrite !(rename_from_text_run py rx pattern template max_pages _ w
                                   Hc Hne).
    rewrite <- Hcand in *. clear Hcand.
    destruct (preview_loop py rx template max_pages (candidates w) 0
                           (logged w (batch_header
                                        pattern template true
                                        (List.length (candidates w)))) Hind)
      as (evs1 & Hp1 & Hloop1).
    destruct (apply_loop py rx template max_pages (candidates w) 0
                         (logged w (batch_header
                                      pattern template false
                                      (List.length (candidates w))))
                         (candidates_distinct w Hd)
                         (candidates_exist w) Hos Hind)
      as (evs2 & Hp2 & Hloop2).
    rewrite Hloop1, Hloop2. cbn [dir logged] in *.
    cbn [fst snd dir os_refuses trace logged].
    rewrite !planned_renames_app, !planned_renames_footer, !Hhead, Hp1, Hp2.
    rewrite !app_nil_r. repeat split.
Qed.

Lemma preview_predicts_apply_witness :
  let w := folder [("jan.pdf", document ["Invoice #4521"]);
                   ("feb.pdf", document ["Invoice #4522"]);
                   ("memo.pdf", document ["no number here"])] in
  let ms := moves mini_runtime (compiled "Invoice #(\d+)") "INV_{1}" 1
                  (dir w) (candidates w) in
  let preview :=
      rename_from_text mini_runtime "Invoice #(\d+)" "INV_{1}" 1 true w in
  let applied :=
      rename_from_text mini_runtime "Invoice #(\d+)" "INV_{1}" 1 false w in
  fst preview = Ok (List.length ms) /\
  planned_renames (trace (snd preview)) =
  (planned_renames (trace w) ++ ms)%list /\
  dir (snd preview) = dir w /\
  fst applied = Ok (List.length ms) /\
  planned_renames (trace (snd applied)) =
  (planned_renames (trace w) ++ ms)%list /\
  dir (snd applied) = apply_moves ms (dir w).
Proof.
  intros w.
  apply (preview_predicts_apply
           mini_runtime (compiled "Invoice #(\d+)") "Invoice #(\d+)"
           "INV_{1}" 1 w).
  - vm_compute. reflexivity.
  - unfold distinct_names. simpl.
    repeat constructor; simpl; intuition discriminate.
  - reflexivity.
  - assert (Hjan : plan_for mini_runtime (compiled "Invoice #(\d+)")
                            "INV_{1}" 1 (lookup "jan.pdf" (dir w))
                   = Move "INV_4521.pdf") by (vm_compute; reflexivity).
    assert (Hfeb : plan_for mini_runtime (compiled "Invoice #(\d+)")
                            "INV_{1}" 1 (lookup "feb.pdf" (dir w))
                   = Move "INV_4522.pdf") by (vm_compute; reflexivity).
    assert (Hmemo : plan_for mini_runtime (compiled "Invoice #(\d+)")
                             "INV_{1}" 1 (lookup "memo.pdf" (dir w))
                    = Skip) by (vm_compute; reflexivity).
    change (candidates w) with ["jan.pdf"; "feb.pdf"; "memo.pdf"].
    repeat split.
    + intros pdf [<- | [<- | [<- | []]]]; congruence.
    + intros pdf n [<- | [<- | [<- | []]]] H; left.
      * rewrite Hjan in H. injection H as <-. reflexivity.
      * rewrite Hfeb in H. injection H as <-. reflexivity.
      * congruence.
    + intros p1 p2 n [<- | [<- | [<- | []]]] [<- | [<- | [<- | []]]] H1 H2;
        try reflexivity; congruence.
Defined.
